(** * BHV: role resolution, one-time-code verification and authorization gates

    A shallow embedding of the authentication core of the BHV application
    (app/config.py, app/models.py, app/auth/routes.py, app/auth/decorators.py,
    app/utils.py, create_admin.py, seed_data.py) and the properties the
    specification states about it.

    Conventions of the embedding
    - Python [str] values are [string]s whose characters are code points:
      the character with number [n] is U+00[n], from U+0000 to U+00FF, and
      not a byte of an encoding (U+00A0 is the one character ["160"%char]).
      [isspace], [strip] and [lower] are Python's on these code points, white
      space and capitals beyond ASCII included; text with a code point above
      U+00FF is not expressed.
    - A MongoDB collection is the [list] of its documents in insertion
      order: [find_one] returns the first match, [update_one] rewrites the
      first match, [insert_one] appends.
    - Timestamps are integers in milliseconds, the resolution at which the
      store keeps and compares datetimes; the clock is read once per request.
    - [os.environ] after the reload of the [.env] file is a function from
      variable names to optional values, passed to every resolver call. *)

From Stdlib Require Import List String Ascii ZArith Bool Arith Lia.
Import ListNotations.
Open Scope string_scope.

(** ** Python string primitives *)

Module Py.

(** [str.isspace] on one character, the test [str.strip] uses: TAB..CR,
    FS..US, the space, U+0085 (next line) and U+00A0 (no-break space). *)
Definition isspace (c : ascii) : bool :=
  let n := nat_of_ascii c in
  (((9 <=? n) && (n <=? 13)) || ((28 <=? n) && (n <=? 32))
   || (n =? 133) || (n =? 160))%nat.

(** [str.lower] on one character: A..Z, and the capitals U+00C0..U+00DE
    other than the multiplication sign U+00D7, move up by 32. *)
Definition lower_char (c : ascii) : ascii :=
  let n := nat_of_ascii c in
  if (((65 <=? n) && (n <=? 90))
      || ((192 <=? n) && (n <=? 222) && negb (n =? 215)))%nat
  then ascii_of_nat (n + 32) else c.

(** [s.lower()] *)
Fixpoint lower (s : string) : string :=
  match s with
  | EmptyString => EmptyString
  | String c r => String (lower_char c) (lower r)
  end.

Fixpoint lstrip (s : string) : string :=
  match s with
  | EmptyString => EmptyString
  | String c r => if isspace c then lstrip r else s
  end.

Fixpoint rstrip (s : string) : string :=
  match s with
  | EmptyString => EmptyString
  | String c r =>
      match rstrip r with
      | EmptyString => if isspace c then EmptyString else String c EmptyString
      | r' => String c r'
      end
  end.

(** [s.strip()] *)
Definition strip (s : string) : string := rstrip (lstrip s).

(** [s.split(sep)] for a one-character separator: never the empty list. *)
Fixpoint split (sep : ascii) (s : string) : list string :=
  match s with
  | EmptyString => [EmptyString]
  | String c r =>
      if Ascii.eqb c sep then EmptyString :: split sep r
      else match split sep r with
           | h :: t => String c h :: t
           | [] => [String c EmptyString]
           end
  end.

(** Truth value of a string: non-empty. *)
Definition truthy (s : string) : bool := negb (s =? "").

(** [x in xs] on a list of strings. *)
Definition contains (x : string) (xs : list string) : bool :=
  existsb (String.eqb x) xs.

End Py.

(** ** app/config.py *)

(** [os.environ], as left by [load_dotenv(..., override=True)]. *)
Definition Environ := string -> option string.

Definition environ_get (env : Environ) (key default : string) : string :=
  match env key with
  | Some v => v
  | None => default
  end.

(** The loop of [get_admin_emails] over the comma-separated entries. *)
Fixpoint collect_emails (entries emails : list string) : list string :=
  match entries with
  | [] => emails
  | email :: rest =>
      let email := Py.strip email in
      if Py.truthy email
      then collect_emails rest (emails ++ [Py.lower email])
      else collect_emails rest emails
  end.

Definition get_admin_emails (env : Environ) : list string :=
  let admin_emails_str := Py.strip (environ_get env "ADMIN_EMAILS" "") in
  if negb (Py.truthy admin_emails_str) then
    let admin_email := Py.strip (environ_get env "ADMIN_EMAIL" "") in
    if Py.truthy admin_email then [Py.lower admin_email] else []
  else
    collect_emails (Py.split "," admin_emails_str) [].

Definition is_admin_email (env : Environ) (email : string) : bool :=
  if negb (Py.truthy email) then false
  else
    let email_normalized := Py.lower (Py.strip email) in
    if negb (Py.truthy email_normalized) then false
    else
      let admin_emails := get_admin_emails env in
      match admin_emails with
      | [] => false
      | _ => Py.contains email_normalized admin_emails
      end.

(** The class attributes of [Config] the core reads. *)
Record Config := {
  OTP_EXPIRY_MINUTES : Z;
  MAIL_USERNAME : option string;
  MAIL_PASSWORD : option string
}.

(** ** Documents of the store *)

(** A document of the [users] collection, with the keys [User.create]
    writes; [password_hash] is the one key that may be absent. *)
Module UserData.
Record t := {
  _id : nat;
  email : string;
  role : string;
  is_verified : bool;
  created_at : Z;
  google_id : option string;
  password_hash : option string
}.
End UserData.

(** A document of the [otps] collection. *)
Module OtpData.
Record t := {
  email : string;
  otp_code : string;
  created_at : Z;
  used : bool
}.
End OtpData.

Record Db := {
  users : list UserData.t;
  otps : list OtpData.t
}.

(** [collection.find_one(filter)] *)
Definition find_one {A} (filter : A -> bool) (coll : list A) : option A :=
  List.find filter coll.

(** [collection.update_one(filter, {'$set': ...})]: the first match only. *)
Fixpoint update_one {A} (filter : A -> bool) (set : A -> A) (coll : list A)
  : list A :=
  match coll with
  | [] => []
  | d :: rest =>
      if filter d then set d :: rest else d :: update_one filter set rest
  end.

(** [collection.insert_one(doc)] *)
Definition insert_one {A} (doc : A) (coll : list A) : list A := coll ++ [doc].

(** The [_id] the store gives to the next inserted user document. *)
Definition inserted_id (coll : list UserData.t) : nat :=
  S (list_max (map UserData._id coll)).

Definition has_id (i : nat) (d : UserData.t) : bool :=
  (UserData._id d =? i)%nat.

(** ** app/models.py *)

(** The two [bcrypt] functions the models call; the salt drawn by
    [bcrypt.gensalt()] is an input of the request. *)
Record Bcrypt := {
  hashpw : string -> string -> string;
  checkpw : string -> string -> bool
}.

(** Truth value of an optional string ([None] and [''] are false). *)
Definition truthy_opt (o : option string) : bool :=
  match o with
  | Some s => Py.truthy s
  | None => false
  end.

Module User.

(** The attributes [__init__] sets on a [User] object. *)
Record t := {
  id : nat;
  email : string;
  password_hash : option string;
  _role : string;
  is_verified : bool;
  google_id : option string;
  created_at : Z
}.

Definition __init__ (user_data : UserData.t) : t :=
  let email := UserData.email user_data in
  {| id := UserData._id user_data;
     email := if Py.truthy email then Py.lower (Py.strip email) else "";
     password_hash := UserData.password_hash user_data;
     _role := UserData.role user_data;
     is_verified := UserData.is_verified user_data;
     google_id := UserData.google_id user_data;
     created_at := UserData.created_at user_data |}.

(** The [role] property. *)
Definition role (env : Environ) (self : t) : string :=
  if is_admin_email env (email self) then "admin" else _role self.

Definition get_stored_role (self : t) : string := _role self.

Definition is_admin (env : Environ) (self : t) : bool :=
  if is_admin_email env (email self) then true
  else _role self =? "admin".

Definition create (bcrypt : Bcrypt) (env : Environ) (now : Z) (salt : string)
    (email : string) (password role google_id : option string) (db : Db)
  : t * Db :=
  let normalized_email :=
    if Py.truthy email then Py.lower (Py.strip email) else "" in
  let role :=
    match role with
    | None => if is_admin_email env normalized_email then "admin" else "user"
    | Some r => r
    end in
  let user_data :=
    {| UserData._id := inserted_id (users db);
       UserData.email := normalized_email;
       UserData.role := role;
       UserData.is_verified := negb (truthy_opt password);
       UserData.created_at := now;
       UserData.google_id := google_id;
       UserData.password_hash :=
         match password with
         | Some p => if Py.truthy p then Some (hashpw bcrypt p salt) else None
         | None => None
         end |} in
  (__init__ user_data,
   {| users := insert_one user_data (users db); otps := otps db |}).

Definition check_password (bcrypt : Bcrypt) (self : t) (password : string)
  : bool :=
  match password_hash self with
  | Some h => if Py.truthy h then checkpw bcrypt password h else false
  | None => false
  end.

Definition find_by_email (email : string) (db : Db) : option t :=
  if negb (Py.truthy email) then None
  else
    let email := Py.lower (Py.strip email) in
    if negb (Py.truthy email) then None
    else option_map __init__
           (find_one (fun d => UserData.email d =? email) (users db)).

Definition find_by_id (user_id : nat) (db : Db) : option t :=
  option_map __init__ (find_one (has_id user_id) (users db)).

Definition find_by_google_id (google_id : string) (db : Db) : option t :=
  option_map __init__
    (find_one (fun d => match UserData.google_id d with
                        | Some g => g =? google_id
                        | None => false
                        end) (users db)).

Definition set_is_verified (v : bool) (d : UserData.t) : UserData.t :=
  {| UserData._id := UserData._id d;
     UserData.email := UserData.email d;
     UserData.role := UserData.role d;
     UserData.is_verified := v;
     UserData.created_at := UserData.created_at d;
     UserData.google_id := UserData.google_id d;
     UserData.password_hash := UserData.password_hash d |}.

Definition set_role (r : string) (d : UserData.t) : UserData.t :=
  {| UserData._id := UserData._id d;
     UserData.email := UserData.email d;
     UserData.role := r;
     UserData.is_verified := UserData.is_verified d;
     UserData.created_at := UserData.created_at d;
     UserData.google_id := UserData.google_id d;
     UserData.password_hash := UserData.password_hash d |}.

Definition verify (self : t) (db : Db) : t * Db :=
  ({| id := id self; email := email self;
      password_hash := password_hash self; _role := _role self;
      is_verified := true;
      google_id := google_id self; created_at := created_at self |},
   {| users := update_one (has_id (id self)) (set_is_verified true) (users db);
      otps := otps db |}).

Definition update_role (self : t) (role : string) (db : Db) : t * Db :=
  ({| id := id self; email := email self;
      password_hash := password_hash self; _role := role;
      is_verified := is_verified self;
      google_id := google_id self; created_at := created_at self |},
   {| users := update_one (has_id (id self)) (set_role role) (users db);
      otps := otps db |}).

End User.

Module OTP.

Definition create (now : Z) (email otp_code : string) (db : Db) : Db :=
  {| users := users db;
     otps := insert_one {| OtpData.email := email;
                           OtpData.otp_code := otp_code;
                           OtpData.created_at := now;
                           OtpData.used := false |} (otps db) |}.

(** [timedelta(minutes=m)] in milliseconds. *)
Definition minutes (m : Z) : Z := (m * 60000)%Z.

(** The filter of the query in [find_valid]. *)
Definition valid_filter (expiry_time : Z) (email otp_code : string)
    (d : OtpData.t) : bool :=
  (OtpData.email d =? email) && (OtpData.otp_code d =? otp_code)
  && negb (OtpData.used d) && (expiry_time <=? OtpData.created_at d)%Z.

Definition find_valid (cfg : Config) (now : Z) (email otp_code : string)
    (db : Db) : bool :=
  let expiry_time := (now - minutes (OTP_EXPIRY_MINUTES cfg))%Z in
  match find_one (valid_filter expiry_time email otp_code) (otps db) with
  | Some _ => true
  | None => false
  end.

Definition same_code (email otp_code : string) (d : OtpData.t) : bool :=
  (OtpData.email d =? email) && (OtpData.otp_code d =? otp_code).

Definition set_used (d : OtpData.t) : OtpData.t :=
  {| OtpData.email := OtpData.email d;
     OtpData.otp_code := OtpData.otp_code d;
     OtpData.created_at := OtpData.created_at d;
     OtpData.used := true |}.

Definition mark_used (email otp_code : string) (db : Db) : Db :=
  {| users := users db;
     otps := update_one (same_code email otp_code) set_used (otps db) |}.

End OTP.

(** ** Reconciliation of the stored role (app/auth/routes.py)

    [login], [verify_otp] and [google_callback] each carry the same block
    that compares the allow-list verdict for an address with the stored role
    and calls [update_role] when they disagree. [reconcile] is that block;
    its outcome records whether [update_role] was called. *)

Inductive Outcome := changed | unchanged.

Definition reconcile (env : Environ) (address : string) (user : User.t)
    (db : Db) : Outcome * (User.t * Db) :=
  let should_be_admin := is_admin_email env address in
  let current_role_is_admin := User.get_stored_role user =? "admin" in
  if should_be_admin && negb current_role_is_admin then
    (changed, User.update_role user "admin" db)
  else if negb should_be_admin && current_role_is_admin then
    (changed, User.update_role user "user" db)
  else
    (unchanged, (user, db)).

(** ** Authorization gates (app/auth/decorators.py) *)

(** [current_user]: the anonymous user or a loaded [User]. *)
Inductive Actor :=
| AnonymousUser
| LoggedIn (u : User.t).

Definition is_authenticated (current_user : Actor) : bool :=
  match current_user with
  | AnonymousUser => false
  | LoggedIn _ => true
  end.

Record Flash := {
  message : string;
  category : string
}.

Inductive Response :=
| redirect (endpoint : string)
| redirect_to (url : string)
| render_template (template : string)
| jsonify (error : string) (status : Z)
| unauthorized.

(** What the gates read from the request. *)
Record Request := {
  is_json : bool;
  path : string
}.

Definition expects_json (request : Request) : bool :=
  is_json request || String.prefix "/api/" (path request).

(** The denial kinds of the specification; each [Deny] below is tagged with
    the kind of the requirement whose test produced it. *)
Inductive Denial := Unauthenticated | NotVerified | Forbidden.

(** What a decorated view does: run the view, answer without running it,
    or fail on an attribute the anonymous user does not have. *)
Inductive Gate :=
| Allow
| Deny (why : Denial) (flashed : option Flash) (response : Response)
| AttributeError.

(** [flask_login.login_required]. *)
Definition login_required (view : Actor -> Gate) (current_user : Actor)
  : Gate :=
  if negb (is_authenticated current_user)
  then Deny Unauthenticated None unauthorized
  else view current_user.

Definition deny_not_verified (request : Request) : Gate :=
  if expects_json request
  then Deny NotVerified None (jsonify "Email verification required" 403)
  else Deny NotVerified
         (Some {| message := "Please verify your email before accessing this page.";
                  category := "warning" |})
         (redirect "auth.register").

(** The allow-list test followed by the stored-role fallback, as both
    [admin_required] and [user_only] write it. *)
Definition gate_is_admin (env : Environ) (u : User.t) : bool :=
  let is_admin := is_admin_email env (User.email u) in
  let is_admin :=
    if negb is_admin then User.get_stored_role u =? "admin" else is_admin in
  is_admin.

Definition admin_required_view (env : Environ) (request : Request)
    (current_user : Actor) : Gate :=
  match current_user with
  | AnonymousUser =>
      if expects_json request
      then Deny Unauthenticated None (jsonify "Authentication required" 401)
      else Deny Unauthenticated
             (Some {| message := "Please log in to access this page.";
                      category := "warning" |})
             (redirect "auth.login")
  | LoggedIn u =>
      if negb (User.is_verified u) then deny_not_verified request
      else if negb (gate_is_admin env u) then
        if expects_json request
        then Deny Forbidden None (jsonify "Admin access required" 403)
        else Deny Forbidden
               (Some {| message := "Admin access required.";
                        category := "error" |})
               (redirect "uploads.gallery")
      else Allow
  end.

Definition admin_required (env : Environ) (request : Request) : Actor -> Gate :=
  login_required (admin_required_view env request).

Definition verified_user_required_view (request : Request)
    (current_user : Actor) : Gate :=
  match current_user with
  | AnonymousUser => AttributeError
  | LoggedIn u =>
      if negb (User.is_verified u) then deny_not_verified request else Allow
  end.

Definition verified_user_required (request : Request) : Actor -> Gate :=
  login_required (verified_user_required_view request).

Definition user_only_view (env : Environ) (request : Request)
    (current_user : Actor) : Gate :=
  match current_user with
  | AnonymousUser => AttributeError
  | LoggedIn u =>
      if negb (User.is_verified u) then deny_not_verified request
      else if gate_is_admin env u then
        if expects_json request
        then Deny Forbidden None
               (jsonify "Admin access not allowed. This feature is for regular users only." 403)
        else Deny Forbidden
               (Some {| message := "Admin users cannot access this feature. Please use the admin dashboard.";
                        category := "error" |})
               (redirect "admin.dashboard")
      else Allow
  end.

Definition user_only (env : Environ) (request : Request) : Actor -> Gate :=
  login_required (user_only_view env request).

(** The kind of a denial, if the gate denied. *)
Definition denial (g : Gate) : option Denial :=
  match g with
  | Deny why _ _ => Some why
  | _ => None
  end.

Definition allows (g : Gate) : bool :=
  match g with
  | Allow => true
  | _ => false
  end.

(** ** Forms (app/auth/forms.py)

    [submitted] stands for a POST that passed the form's own token check;
    [Email] is the verdict of the wtforms e-mail validator. *)

(** [DataRequired] on a string field. *)
Definition data_required (data : string) : bool :=
  Py.truthy data && Py.truthy (Py.strip data).

Module RegisterForm.

Record t := {
  submitted : bool;
  email : string;
  password : string;
  password_confirm : string
}.

(** The inline validator: the message of the [ValidationError] it raises. *)
Definition validate_email (form : t) (db : Db) : option string :=
  let email := Py.lower (Py.strip (email form)) in
  match User.find_by_email email db with
  | Some existing_user =>
      if User.is_verified existing_user
      then Some "Email is already registered and verified. Please login instead."
      else None
  | None => None
  end.

Definition validate_on_submit (Email : string -> bool) (form : t) (db : Db)
  : bool :=
  submitted form
  && (data_required (email form) && Email (email form)
      && match validate_email form db with Some _ => false | None => true end)
  && (data_required (password form)
      && (6 <=? String.length (password form))%nat)
  && (data_required (password_confirm form)
      && (password_confirm form =? password form)).

End RegisterForm.

Module LoginForm.

Record t := {
  submitted : bool;
  email : string;
  password : string
}.

Definition validate_on_submit (Email : string -> bool) (form : t) : bool :=
  submitted form
  && (data_required (email form) && Email (email form))
  && data_required (password form).

End LoginForm.

Module OTPVerifyForm.

Record t := {
  submitted : bool;
  otp_code : string
}.

Definition validate_on_submit (form : t) : bool :=
  submitted form
  && (data_required (otp_code form)
      && (6 <=? String.length (otp_code form))%nat
      && (String.length (otp_code form) <=? 6)%nat).

End OTPVerifyForm.

(** ** Request state *)

Record Session := {
  pending_email : option string;
  _user_id : option nat
}.

(** Effects on the outside of a request, in the order they happen. *)
Inductive Effect :=
| otp_inserted (email otp_code : string)
| mail_send (recipient : string)
| smtp_send (recipient : string).

Record World := {
  db : Db;
  session : Session;
  flashes : list Flash;
  journal : list Effect
}.

Definition with_db (d : Db) (w : World) : World :=
  {| db := d; session := session w; flashes := flashes w;
     journal := journal w |}.

Definition with_session (s : Session) (w : World) : World :=
  {| db := db w; session := s; flashes := flashes w; journal := journal w |}.

Definition flash (message category : string) (w : World) : World :=
  {| db := db w; session := session w;
     flashes := flashes w ++ [{| message := message; category := category |}];
     journal := journal w |}.

Definition log (effects : list Effect) (w : World) : World :=
  {| db := db w; session := session w; flashes := flashes w;
     journal := journal w ++ effects |}.

(** [session['pending_email'] = email] *)
Definition set_pending_email (email : string) (w : World) : World :=
  with_session {| pending_email := Some email;
                  _user_id := _user_id (session w) |} w.

(** [session.pop('pending_email', None)] *)
Definition pop_pending_email (w : World) : World :=
  with_session {| pending_email := None;
                  _user_id := _user_id (session w) |} w.

(** [login_user(user, remember=True)] *)
Definition login_user (user : User.t) (w : World) : World :=
  with_session {| pending_email := pending_email (session w);
                  _user_id := Some (User.id user) |} w.

(** [current_user], through the [load_user] callback. *)
Definition current_user (w : World) : Actor :=
  match _user_id (session w) with
  | Some user_id =>
      match User.find_by_id user_id (db w) with
      | Some u => LoggedIn u
      | None => AnonymousUser
      end
  | None => AnonymousUser
  end.

(** ** Mail delivery (app/utils.py and the mail block of [register]) *)

(** What the SMTP server did, an input of the request. *)
Inductive SmtpResult :=
| smtp_sent
| smtp_authentication_error (e : string)
| smtp_exception (e : string).

Record Delivery := {
  mail_send_error : option string; (* the exception of [mail.send], if any *)
  smtp_result : SmtpResult
}.

Definition mail_configured (cfg : Config) : bool :=
  truthy_opt (MAIL_USERNAME cfg) && truthy_opt (MAIL_PASSWORD cfg).

Definition send_email_direct_smtp (cfg : Config) (to_email : string)
    (net : Delivery) : (bool * option string) * list Effect :=
  if negb (truthy_opt (MAIL_USERNAME cfg)) || negb (truthy_opt (MAIL_PASSWORD cfg))
  then ((false, Some "Email credentials not configured"), [])
  else
    (match smtp_result net with
     | smtp_sent => (true, None)
     | smtp_authentication_error e =>
         (false, Some ("SMTP Authentication Error: " ++ e))
     | smtp_exception e => (false, Some ("SMTP Error: " ++ e))
     end, [smtp_send to_email]).

(** The [try] block of [register] that sends the code: the value of
    [email_sent] after it and the delivery attempts it made. *)
Definition send_otp_email (cfg : Config) (email : string) (net : Delivery)
  : bool * list Effect :=
  if mail_configured cfg then
    match mail_send_error net with
    | None => (true, [mail_send email])
    | Some _ =>
        let '((success, _), attempts) := send_email_direct_smtp cfg email net in
        (success, mail_send email :: attempts)
    end
  else (false, []).

(** ** Routes (app/auth/routes.py), federated lookup (app/utils.py) and the
    administrative scripts (create_admin.py, seed_data.py) *)

(** The identity the provider hands back. *)
Record UserInfo := {
  sub : string;
  info_email : string;
  name : string
}.

Definition set_password_and_role (password_hash role : string)
    (d : UserData.t) : UserData.t :=
  {| UserData._id := UserData._id d;
     UserData.email := UserData.email d;
     UserData.role := role;
     UserData.is_verified := UserData.is_verified d;
     UserData.created_at := UserData.created_at d;
     UserData.google_id := UserData.google_id d;
     UserData.password_hash := Some password_hash |}.

Definition link_google (google_id : string) (d : UserData.t) : UserData.t :=
  {| UserData._id := UserData._id d;
     UserData.email := UserData.email d;
     UserData.role := UserData.role d;
     UserData.is_verified := true;
     UserData.created_at := UserData.created_at d;
     UserData.google_id := Some google_id;
     UserData.password_hash := UserData.password_hash d |}.

Section Routes.

Variable cfg : Config.
Variable bcrypt : Bcrypt.
Variable Email : string -> bool.

(** Lines 82-131 of [register]: issue the code, try to deliver it, carry
    the pending address to the verification step. *)
Definition issue_otp (now : Z) (email otp_code : string) (net : Delivery)
    (w : World) : Response * World :=
  let w := log [otp_inserted email otp_code]
             (with_db (OTP.create now email otp_code (db w)) w) in
  let '(email_sent, attempts) := send_otp_email cfg email net in
  let w := log attempts w in
  let w := set_pending_email email w in
  let w :=
    if email_sent && mail_configured cfg
    then flash "OTP has been sent to your email. Please verify your email."
           "success" w
    else flash "Failed to send OTP email. Please configure email settings or contact administrator."
           "error" w in
  (redirect "auth.verify_otp", w).

(** The body of [register] under [form.validate_on_submit()]. *)
Definition register_valid (env : Environ) (now : Z) (form : RegisterForm.t)
    (salt otp_code : string) (net : Delivery) (w : World)
  : Response * World :=
  let email := Py.lower (Py.strip (RegisterForm.email form)) in
  let existing_user := User.find_by_email email (db w) in
  match existing_user with
  | Some existing_user =>
      if User.is_verified existing_user then
        (redirect "auth.login",
         flash "Email is already registered and verified. Please login instead."
           "info" w)
      else
        let password_hash :=
          hashpw bcrypt (RegisterForm.password form) salt in
        let role := if is_admin_email env email then "admin" else "user" in
        let w :=
          with_db {| users := update_one (has_id (User.id existing_user))
                                (set_password_and_role password_hash role)
                                (users (db w));
                     otps := otps (db w) |} w in
        issue_otp now email otp_code net w
  | None =>
      let '(_, db') :=
        User.create bcrypt env now salt email
          (Some (RegisterForm.password form)) None None (db w) in
      issue_otp now email otp_code net (with_db db' w)
  end.

Definition register (env : Environ) (now : Z) (form : RegisterForm.t)
    (salt otp_code : string) (net : Delivery) (w : World)
  : Response * World :=
  if is_authenticated (current_user w) then (redirect "uploads.gallery", w)
  else if RegisterForm.validate_on_submit Email form (db w)
  then register_valid env now form salt otp_code net w
  else (render_template "auth/register.html", w).

Definition login (env : Environ) (form : LoginForm.t)
    (next_page : option string) (w : World) : Response * World :=
  if is_authenticated (current_user w) then (redirect "uploads.gallery", w)
  else if LoginForm.validate_on_submit Email form then
    match User.find_by_email (LoginForm.email form) (db w) with
    | Some user =>
        if User.check_password bcrypt user (LoginForm.password form) then
          if negb (User.is_verified user) then
            (redirect "auth.register",
             flash "Please verify your email before logging in. Please register again to receive a new OTP."
               "warning" w)
          else
            let '(_, (user, db')) :=
              reconcile env (User.email user) user (db w) in
            let w := login_user user (with_db db' w) in
            (match next_page with
             | Some url => if Py.truthy url then redirect_to url
                           else redirect "uploads.gallery"
             | None => redirect "uploads.gallery"
             end, w)
        else
          (render_template "auth/login.html",
           flash "Invalid email or password." "error" w)
    | None =>
        (render_template "auth/login.html",
         flash "Invalid email or password." "error" w)
    end
  else (render_template "auth/login.html", w).

Definition verify_otp (env : Environ) (now : Z) (form : OTPVerifyForm.t)
    (w : World) : Response * World :=
  if is_authenticated (current_user w) then (redirect "uploads.gallery", w)
  else if negb (truthy_opt (pending_email (session w))) then
    (redirect "auth.register", flash "Please register first." "warning" w)
  else
    let pending_email :=
      match pending_email (session w) with Some e => e | None => "" end in
    if OTPVerifyForm.validate_on_submit form then
      let otp_code := OTPVerifyForm.otp_code form in
      if OTP.find_valid cfg now pending_email otp_code (db w) then
        let w := with_db (OTP.mark_used pending_email otp_code (db w)) w in
        match User.find_by_email pending_email (db w) with
        | None =>
            (redirect "auth.register",
             pop_pending_email
               (flash "User not found. Please register again." "error" w))
        | Some user =>
            let '(_, (user, db')) :=
              reconcile env pending_email user (db w) in
            let '(user, db') := User.verify user db' in
            let w := login_user user (with_db db' w) in
            let w := pop_pending_email w in
            let role :=
              if is_admin_email env pending_email then "admin" else "user" in
            (redirect "uploads.gallery",
             flash ("Email verified successfully! Registered as " ++ role ++ ".")
               "success" w)
        end
      else
        (render_template "auth/otp_verify.html",
         flash "Invalid or expired OTP code." "error" w)
    else (render_template "auth/otp_verify.html", w).

Definition find_or_create_user_google (env : Environ) (now : Z)
    (user_info : UserInfo) (db : Db) : User.t * Db :=
  let google_id := sub user_info in
  let email := info_email user_info in
  match User.find_by_google_id google_id db with
  | Some user => (user, db)
  | None =>
      match User.find_by_email email db with
      | Some user =>
          ({| User.id := User.id user; User.email := User.email user;
              User.password_hash := User.password_hash user;
              User._role := User._role user;
              User.is_verified := true;
              User.google_id := Some google_id;
              User.created_at := User.created_at user |},
           {| users := update_one (has_id (User.id user))
                         (link_google google_id) (users db);
              otps := otps db |})
      | None =>
          User.create bcrypt env now "" email None None (Some google_id) db
      end
  end.

(** [token] is what the provider returned, [None] when the exchange
    raised. *)
Definition google_callback (env : Environ) (now : Z)
    (token : option UserInfo) (w : World) : Response * World :=
  match token with
  | Some user_info =>
      let '(user, db') := find_or_create_user_google env now user_info (db w) in
      let '(_, (user, db')) := reconcile env (User.email user) user db' in
      let w := login_user user (with_db db' w) in
      (redirect "uploads.gallery",
       flash "Logged in with Google successfully!" "success" w)
  | None =>
      (redirect "auth.login",
       flash "Google login failed. Please try again." "error" w)
  end.

(** create_admin.py *)
Definition create_admin_user (env : Environ) (now : Z)
    (email password salt : string) (db : Db) : bool * Db :=
  if negb (is_admin_email env email) then (false, db)
  else
    match User.find_by_email email db with
    | Some existing_user =>
        if User.is_admin env existing_user then
          if negb (User.is_verified existing_user)
          then (true, snd (User.verify existing_user db))
          else (true, db)
        else (false, db)
    | None =>
        let '(admin, db') :=
          User.create bcrypt env now salt email (Some password)
            (Some "admin") None db in
        (true, snd (User.verify admin db'))
    end.

(** seed_data.py *)
Definition seed_database (env : Environ) (now : Z) (salt : string) (db : Db)
  : Db :=
  let test_email := "user@example.com" in
  match User.find_by_email test_email db with
  | None =>
      let '(test_user, db') :=
        User.create bcrypt env now salt test_email (Some "user123")
          (Some "user") None db in
      snd (User.verify test_user db')
  | Some _ => db
  end.

(** Everything in the repository that writes to the [users] collection. *)
Inductive Op :=
| op_register (form : RegisterForm.t) (salt otp_code : string) (net : Delivery)
| op_login (form : LoginForm.t) (next_page : option string)
| op_verify_otp (form : OTPVerifyForm.t)
| op_google_callback (token : option UserInfo)
| op_create_admin_user (email password salt : string)
| op_seed_database (salt : string).

Definition run (env : Environ) (now : Z) (op : Op) (w : World) : World :=
  match op with
  | op_register form salt otp_code net =>
      snd (register env now form salt otp_code net w)
  | op_login form next_page => snd (login env form next_page w)
  | op_verify_otp form => snd (verify_otp env now form w)
  | op_google_callback token => snd (google_callback env now token w)
  | op_create_admin_user email password salt =>
      with_db (snd (create_admin_user env now email password salt (db w))) w
  | op_seed_database salt => with_db (seed_database env now salt (db w)) w
  end.

End Routes.

(** ** Auxiliary notions used in the statements and proofs *)

(** A string that does not start with white space. *)
Definition headed (s : string) : bool :=
  match s with
  | EmptyString => true
  | String c _ => negb (Py.isspace c)
  end.

(** ** Sample configurations and stores *)

(** An allow-list with two entries, written with capitals and spaces. *)
Definition env_boss : Environ :=
  fun key => if key =? "ADMIN_EMAILS" then Some "Boss@X.com , root@x.com" else None.

(** No allow-list configured. *)
Definition env_unset : Environ := fun _ => None.

Definition cfg10 : Config :=
  {| OTP_EXPIRY_MINUTES := 10; MAIL_USERNAME := None; MAIL_PASSWORD := None |}.

(** A stand-in for [bcrypt] in the examples. *)
Definition toy_bcrypt : Bcrypt :=
  {| hashpw := fun password salt => salt ++ "$" ++ password;
     checkpw := fun password hashed =>
       String.eqb (substring (String.length hashed - String.length password)
                     (String.length password) hashed) password |}.

Definition any_email (s : string) : bool := true.

(** A verified identity off the allow-list whose stored role is ['admin']. *)
Definition eve_data : UserData.t :=
  {| UserData._id := 1; UserData.email := "eve@x.com";
     UserData.role := "admin"; UserData.is_verified := true;
     UserData.created_at := 0; UserData.google_id := None;
     UserData.password_hash := Some "salt$secret1" |}.

Definition eve : User.t := User.__init__ eve_data.

Definition db_eve : Db := {| users := [eve_data]; otps := [] |}.

(** A verified identity on the allow-list whose stored role is ['user']. *)
Definition boss_data : UserData.t :=
  {| UserData._id := 2; UserData.email := "boss@x.com";
     UserData.role := "user"; UserData.is_verified := true;
     UserData.created_at := 0; UserData.google_id := None;
     UserData.password_hash := Some "salt$secret2" |}.

Definition boss : User.t := User.__init__ boss_data.

Definition db_boss : Db := {| users := [boss_data]; otps := [] |}.

Definition page : Request := {| is_json := false; path := "/admin/dashboard" |}.

(** One code issued at time 0 for [a@x.com]. *)
Definition otp_a : OtpData.t :=
  {| OtpData.email := "a@x.com"; OtpData.otp_code := "123456";
     OtpData.created_at := 0; OtpData.used := false |}.

Definition db_otp : Db := {| users := []; otps := [otp_a] |}.

(** A browser that waits for that code. *)
Definition w_otp : World :=
  {| db := db_otp;
     session := {| pending_email := Some "a@x.com"; _user_id := None |};
     flashes := []; journal := [] |}.

Definition otp_form : OTPVerifyForm.t :=
  {| OTPVerifyForm.submitted := true; OTPVerifyForm.otp_code := "123456" |}.

(** The same code drawn twice for one address: an old, used record and a
    fresh one. *)
Definition db_otp_twice : Db :=
  {| users := [];
     otps := [OTP.set_used otp_a;
              {| OtpData.email := "a@x.com"; OtpData.otp_code := "123456";
                 OtpData.created_at := 900000; OtpData.used := false |}] |}.

(** The records of the store for one address and code. *)
Definition records_for (email otp_code : string) (db : Db) : list OtpData.t :=
  filter (OTP.same_code email otp_code) (otps db).

(** The document the store returns for an [_id]. *)
Definition stored (i : nat) (coll : list UserData.t) : option UserData.t :=
  find_one (has_id i) coll.

(** Every document of [coll] is still in [coll'] under its [_id], with the
    same value of the field [proj]. *)
Definition keeps {A : Type} (proj : UserData.t -> A)
    (coll coll' : list UserData.t) : Prop :=
  forall (i : nat) (d : UserData.t),
    stored i coll = Some d ->
    exists d' : UserData.t, stored i coll' = Some d' /\ proj d' = proj d.

(** The record [OTP.create] inserts. *)
Definition new_otp (now : Z) (email otp_code : string) : OtpData.t :=
  {| OtpData.email := email; OtpData.otp_code := otp_code;
     OtpData.created_at := now; OtpData.used := false |}.

(** The flash [register] shows when the code could not be delivered. *)
Definition delivery_failed_flash : Flash :=
  {| message := "Failed to send OTP email. Please configure email settings or contact administrator.";
     category := "error" |}.

Definition delivery_ok_flash : Flash :=
  {| message := "OTP has been sent to your email. Please verify your email.";
     category := "success" |}.

(** A delivery attempt, as opposed to a write to the store. *)
Definition is_attempt (e : Effect) : bool :=
  match e with
  | otp_inserted _ _ => false
  | mail_send _ | smtp_send _ => true
  end.

(** The message with which a registration for a verified address is turned
    down, by the form's validator and by the route's own guard. *)
Definition already_verified_message : string :=
  "Email is already registered and verified. Please login instead.".

(** The address under which [register] looks an identity up. *)
Definition register_email (form : RegisterForm.t) : string :=
  Py.lower (Py.strip (RegisterForm.email form)).

Definition logged_out : Session := {| pending_email := None; _user_id := None |}.

(** An unverified identity registered with a password. *)
Definition ann_data : UserData.t :=
  {| UserData._id := 1; UserData.email := "a@x.com";
     UserData.role := "user"; UserData.is_verified := false;
     UserData.created_at := 0; UserData.google_id := None;
     UserData.password_hash := Some "salt$secret1" |}.

Definition w_ann : World :=
  {| db := {| users := [ann_data]; otps := [] |};
     session := logged_out; flashes := []; journal := [] |}.

Definition w_empty : World :=
  {| db := {| users := []; otps := [] |};
     session := logged_out; flashes := []; journal := [] |}.

Definition ann_form : RegisterForm.t :=
  {| RegisterForm.submitted := true; RegisterForm.email := " A@x.com";
     RegisterForm.password := "secret9";
     RegisterForm.password_confirm := "secret9" |}.

(** The mail server refuses every attempt. *)
Definition net_down : Delivery :=
  {| mail_send_error := Some "connection refused";
     smtp_result := smtp_exception "connection refused" |}.

Definition cfg_mail : Config :=
  {| OTP_EXPIRY_MINUTES := 10; MAIL_USERNAME := Some "bhv@x.com";
     MAIL_PASSWORD := Some "app-password" |}.

(** The provider vouches for the address of the unverified identity. *)
Definition ann_google : UserInfo :=
  {| sub := "g-1"; info_email := "a@x.com"; name := "Ann" |}.

(** An unverified identity on the allow-list whose stored role is ['user']. *)
Definition boss_pending_data : UserData.t :=
  {| UserData._id := 2; UserData.email := "boss@x.com";
     UserData.role := "user"; UserData.is_verified := false;
     UserData.created_at := 0; UserData.google_id := None;
     UserData.password_hash := Some "salt$secret2" |}.

Definition w_boss_pending : World :=
  {| db := {| users := [boss_pending_data]; otps := [] |};
     session := logged_out; flashes := []; journal := [] |}.


Definition w_boss : World :=
  {| db := db_boss; session := logged_out; flashes := []; journal := [] |}.

Definition boss_login : LoginForm.t :=
  {| LoginForm.submitted := true; LoginForm.email := "Boss@x.com";
     LoginForm.password := "secret2" |}.

(** * Further code of the repository

    The rest of app/config.py, app/utils.py, app/auth/decorators.py and
    app/models.py, the sentiment provider, and the upload, chat and admin
    routes. As above, the characters of a text are code points up to
    U+00FF; ids are numbers, and
    where the code turns an id into text or back this is [str] and
    [ObjectId]. *)

(** ** More Python string primitives *)

Module Str.

(** [c in s] for one character. *)
Fixpoint has_char (c : ascii) (s : string) : bool :=
  match s with
  | EmptyString => false
  | String x r => Ascii.eqb x c || has_char c r
  end.

(** [s.startswith(c)] and [s.endswith(c)] for one character. *)
Definition startswith (c : ascii) (s : string) : bool :=
  match s with
  | EmptyString => false
  | String x _ => Ascii.eqb x c
  end.

Fixpoint endswith (c : ascii) (s : string) : bool :=
  match s with
  | EmptyString => false
  | String x EmptyString => Ascii.eqb x c
  | String _ r => endswith c r
  end.

(** [s[:-1]] *)
Fixpoint drop_last (s : string) : string :=
  match s with
  | EmptyString => EmptyString
  | String _ EmptyString => EmptyString
  | String x r => String x (drop_last r)
  end.

(** [s[1:-1]] *)
Definition slice_1_m1 (s : string) : string :=
  match s with
  | EmptyString => EmptyString
  | String _ r => drop_last r
  end.

(** [s.rsplit(sep, 1)]: one piece when [sep] does not occur, otherwise the
    text before the last [sep] and the text after it. *)
Fixpoint rsplit1 (sep : ascii) (s : string) : list string :=
  match s with
  | EmptyString => [EmptyString]
  | String x r =>
      match rsplit1 sep r with
      | [h; t] => [String x h; t]
      | [h] => if Ascii.eqb x sep then [EmptyString; h] else [String x h]
      | _ => [String x r]
      end
  end.

(** [xs[i]] with the empty string standing for an index out of range; the
    callers below index only under a guard that keeps [i] in range. *)
Definition item (i : nat) (xs : list string) : string := nth i xs EmptyString.

End Str.

(** The two quote characters. *)
Definition dquote : ascii := "034"%char.
Definition squote : ascii := "039"%char.

(** ** app/config.py: [Config.clean_env_value] *)

Definition clean_env_value (value : option string) : option string :=
  match value with
  | None => None
  | Some value =>
      if negb (Py.truthy value) then None
      else
        let value := Py.strip value in
        let value :=
          if (Str.startswith dquote value && Str.endswith dquote value)
             || (Str.startswith squote value && Str.endswith squote value)
          then Py.strip (Str.slice_1_m1 value)
          else value in
        if Py.truthy value then Some value else None
  end.

(** ** app/utils.py *)

Definition allowed_file (filename : string) (allowed_extensions : list string)
  : bool :=
  Str.has_char "." filename
  && Py.contains (Py.lower (Str.item 1 (Str.rsplit1 "." filename)))
       allowed_extensions.

(** [string.digits] *)
Definition digits : string := "0123456789".

(** [secrets.choice(seq)], the draw [r] of the random source reduced to an
    index of [seq]. *)
Definition choice (seq : string) (r : nat) : ascii :=
  match String.get (r mod String.length seq) seq with
  | Some c => c
  | None => "000"%char
  end.

(** [generate_otp(length)]; [rand i] is the [i]-th draw of the random
    source. *)
Fixpoint generate_otp_from (rand : nat -> nat) (i length : nat) : string :=
  match length with
  | O => EmptyString
  | S n => String (choice digits (rand i)) (generate_otp_from rand (S i) n)
  end.

Definition generate_otp (rand : nat -> nat) (length : nat) : string :=
  generate_otp_from rand 0 length.

Definition index_route (env : Environ) (current_user : Actor) : Response :=
  match current_user with
  | LoggedIn u =>
      if User.role env u =? "admin" then redirect "admin.dashboard"
      else redirect "uploads.gallery"
  | AnonymousUser => redirect "auth.login"
  end.

(** ** app/auth/decorators.py: [login_required_custom] *)

Definition login_required_custom_view (current_user : Actor) : Gate :=
  match current_user with
  | AnonymousUser => AttributeError
  | LoggedIn u =>
      if negb (User.is_verified u) then
        Deny NotVerified
          (Some {| message := "Please verify your email before accessing this page.";
                   category := "warning" |})
          (redirect "auth.register")
      else Allow
  end.

Definition login_required_custom : Actor -> Gate :=
  login_required login_required_custom_view.

(** The gate in front of an endpoint the routes redirect to. *)
Definition gate_of (env : Environ) (request : Request) (endpoint : string)
  : option (Actor -> Gate) :=
  if endpoint =? "admin.dashboard" then Some (admin_required env request)
  else if endpoint =? "uploads.gallery" then Some (user_only env request)
  else None.

Definition gate_response (g : Gate) : option Response :=
  match g with
  | Deny _ _ r => Some r
  | _ => None
  end.

(** Every character of [s] satisfies [p]. *)
Fixpoint string_forall (p : ascii -> bool) (s : string) : bool :=
  match s with
  | EmptyString => true
  | String c r => p c && string_forall p r
  end.

Definition is_digit (c : ascii) : bool := Str.has_char c digits.

Definition api_call : Request := {| is_json := true; path := "/chat/send" |}.

(** The comma-separated entries of [ADMIN_EMAILS] as the resolver reads
    them. *)
Definition listed_entries (env : Environ) : list string :=
  Py.split "," (Py.strip (environ_get env "ADMIN_EMAILS" "")).

(** The answer of [login] to a failed attempt. *)
Definition login_refused (w : World) : Response * World :=
  (render_template "auth/login.html",
   flash "Invalid email or password." "error" w).

(** An identity created by federated login only. *)
Definition gina_data : UserData.t :=
  {| UserData._id := 3; UserData.email := "gina@x.com";
     UserData.role := "user"; UserData.is_verified := true;
     UserData.created_at := 0; UserData.google_id := Some "g-3";
     UserData.password_hash := None |}.

Definition w_gina : World :=
  {| db := {| users := [gina_data]; otps := [] |};
     session := logged_out; flashes := []; journal := [] |}.

Definition gina_login : LoginForm.t :=
  {| LoginForm.submitted := true; LoginForm.email := "gina@x.com";
     LoginForm.password := "guess-1" |}.

(** The addresses of the store are trimmed, lower-cased, non-empty and
    pairwise different. *)
Definition emails_ok (db : Db) : Prop :=
  NoDup (map UserData.email (users db))
  /\ Forall (fun e => Py.lower (Py.strip e) = e /\ e <> "")
       (map UserData.email (users db)).

(** The provider handed back a non-blank address. *)
Definition op_has_address (op : Op) : bool :=
  match op with
  | op_google_callback (Some user_info) =>
      Py.truthy (Py.lower (Py.strip (info_email user_info)))
  | _ => true
  end.

(** Two codes issued for one address. *)
Definition db_two_codes : Db :=
  {| users := [];
     otps := [otp_a;
              {| OtpData.email := "a@x.com"; OtpData.otp_code := "222222";
                 OtpData.created_at := 1000; OtpData.used := false |}] |}.

(** The addresses of a collection, in store order. *)
Definition emails (coll : list UserData.t) : list string :=
  map UserData.email coll.

(** What one operation may do to the addresses: nothing, or append one
    trimmed, lower-cased, non-empty address that was not there. *)
Definition emails_step (coll coll' : list UserData.t) : Prop :=
  emails coll' = emails coll
  \/ exists e : string,
      emails coll' = (emails coll ++ [e])%list
      /\ Py.lower (Py.strip e) = e /\ e <> "" /\ ~ In e (emails coll).

(** The filter of [find_by_google_id]. *)
Definition has_google_id (google_id : string) (d : UserData.t) : bool :=
  match UserData.google_id d with
  | Some g => g =? google_id
  | None => false
  end.

Definition unique_ids (db : Db) : Prop := NoDup (map UserData._id (users db)).

(** The role an identity ends up with when it is reconciled against [env]
    from the stored role [role]. *)
Definition reconciled_role (env : Environ) (address role : string) : string :=
  if is_admin_email env address then "admin"
  else if role =? "admin" then "user" else role.

(** The login form filled in with what was registered. *)
Definition login_form_of (form : RegisterForm.t) : LoginForm.t :=
  {| LoginForm.submitted := true;
     LoginForm.email := RegisterForm.email form;
     LoginForm.password := RegisterForm.password form |}.

Definition code_form (otp_code : string) : OTPVerifyForm.t :=
  {| OTPVerifyForm.submitted := true; OTPVerifyForm.otp_code := otp_code |}.

(** The browser logs out. *)
Definition logout (w : World) : World := with_session logged_out w.

(** The document a first registration with [ann_form] creates in the empty
    store at time 5000. *)
Definition ann_new_data : UserData.t :=
  {| UserData._id := 1; UserData.email := "a@x.com";
     UserData.role := "user"; UserData.is_verified := false;
     UserData.created_at := 5000; UserData.google_id := None;
     UserData.password_hash := Some "salt9$secret9" |}.

Definition w_ann_registered : World :=
  snd (register cfg10 toy_bcrypt any_email env_unset 5000 ann_form "salt9"
         "654321" net_down w_empty).

(** ** app/sentiment

    A polarity is a finite binary64 value, that is, a rational number; the
    comparisons of the code are comparisons of these rationals. The literal
    [0.1] denotes the double nearest to one tenth. *)

From Stdlib Require QArith Permutation.

Definition point_one : QArith_base.Q :=
  QArith_base.Qmake 3602879701896397 36028797018963968.

Definition zero_polarity : QArith_base.Q := QArith_base.Qmake 0 1.

(** [a > b] and [a < b] on polarities. *)
Definition polarity_gt (a b : QArith_base.Q) : bool :=
  negb (QArith_base.Qle_bool a b).
Definition polarity_lt (a b : QArith_base.Q) : bool :=
  negb (QArith_base.Qle_bool b a).

(** [SentimentProvider.label_sentiment] *)
Definition label_sentiment (polarity : QArith_base.Q) : string :=
  if polarity_gt polarity point_one then "positive"
  else if polarity_lt polarity (QArith_base.Qopp point_one) then "negative"
  else "neutral".

Record Sentiment := {
  polarity : QArith_base.Q;
  label : string
}.

(** [TextBlobProvider.analyze]; [blob_polarity] is the polarity TextBlob
    computes for a text. *)
Definition analyze (blob_polarity : string -> QArith_base.Q)
    (text : option string) : Sentiment :=
  match text with
  | Some t =>
      if negb (Py.truthy t)
      then {| polarity := zero_polarity; label := "neutral" |}
      else let polarity := blob_polarity t in
           {| polarity := polarity; label := label_sentiment polarity |}
  | None => {| polarity := zero_polarity; label := "neutral" |}
  end.

(** ** app/models.py: uploads and chat messages *)

Module UploadData.
Record t := {
  _id : nat;
  user_id : nat;
  title : string;
  description : string;
  sentiment : string;
  image_file_id : nat;
  audio_file_id : option nat;
  created_at : Z
}.
End UploadData.

Module ChatData.
Record t := {
  _id : nat;
  user_id : string;
  message : string;
  sender_role : string;
  created_at : Z
}.
End ChatData.

(** A Python [dict] with string keys, in insertion order; [Dict] is one
    from strings to counts. *)
Definition Dict := list (string * nat).

Fixpoint dict_lookup {V : Type} (key : string) (d : list (string * V))
  : option V :=
  match d with
  | [] => None
  | (k, v) :: rest => if k =? key then Some v else dict_lookup key rest
  end.

(** [key in d] *)
Definition dict_has {V : Type} (key : string) (d : list (string * V)) : bool :=
  match dict_lookup key d with Some _ => true | None => false end.

(** [d.get(key, default)] *)
Definition dict_get {V : Type} (key : string) (default : V)
    (d : list (string * V)) : V :=
  match dict_lookup key d with Some v => v | None => default end.

(** [d[key] = value] *)
Fixpoint dict_set {V : Type} (key : string) (value : V)
    (d : list (string * V)) : list (string * V) :=
  match d with
  | [] => [(key, value)]
  | (k, v) :: rest =>
      if k =? key then (k, value) :: rest else (k, v) :: dict_set key value rest
  end.

(** One step of the [$group] stage with [{'$sum': 1}]: count one more
    document under [key]. *)
Fixpoint group_add (key : string) (groups : Dict) : Dict :=
  match groups with
  | [] => [(key, 1%nat)]
  | (k, n) :: rest =>
      if k =? key then (k, S n) :: rest else (k, n) :: group_add key rest
  end.

(** The result of the aggregation: one entry per distinct key, with the
    number of documents under it. *)
Definition aggregate_count (keys : list string) : Dict :=
  fold_left (fun groups key => group_add key groups) keys [].

(** Sorting a cursor by [created_at]. MongoDB does not fix the order of
    documents with equal time stamps; here they stay in store order, and
    nothing below depends on it. *)
Fixpoint insert_sorted {A : Type} (before : A -> A -> bool) (x : A)
    (sorted : list A) : list A :=
  match sorted with
  | [] => [x]
  | y :: rest =>
      if before y x then y :: insert_sorted before x rest else x :: y :: rest
  end.

Definition cursor_sort {A : Type} (before : A -> A -> bool) (docs : list A)
  : list A :=
  fold_left (fun sorted x => insert_sorted before x sorted) docs [].

Module Upload.

Definition create (now : Z) (user_id : nat) (title description sentiment : string)
    (image_file_id : nat) (audio_file_id : option nat)
    (uploads : list UploadData.t) : nat * list UploadData.t :=
  let upload_data :=
    {| UploadData._id := S (list_max (map UploadData._id uploads));
       UploadData.user_id := user_id;
       UploadData.title := title;
       UploadData.description := description;
       UploadData.sentiment := sentiment;
       UploadData.image_file_id := image_file_id;
       UploadData.audio_file_id := audio_file_id;
       UploadData.created_at := now |} in
  (UploadData._id upload_data, insert_one upload_data uploads).

(** [find_by_id(upload_id)]; [ObjectId] gives the id a text denotes, and
    [None] where [bson.ObjectId] raises. *)
Definition find_by_id (ObjectId : string -> option nat) (upload_id : string)
    (uploads : list UploadData.t) : option UploadData.t :=
  match ObjectId upload_id with
  | Some oid => find_one (fun d => (UploadData._id d =? oid)%nat) uploads
  | None => None
  end.

(** Newest first. *)
Definition newer (a b : UploadData.t) : bool :=
  (UploadData.created_at b <=? UploadData.created_at a)%Z.

(** [find_all(limit, skip)]: a [limit] of [None] or [0] means no limit. *)
Definition find_all (limit : option nat) (skip : nat)
    (uploads : list UploadData.t) : list UploadData.t :=
  let query := List.skipn skip (cursor_sort newer uploads) in
  match limit with
  | Some (S n) => List.firstn (S n) query
  | _ => query
  end.

Definition find_by_user (user_id : nat) (uploads : list UploadData.t)
  : list UploadData.t :=
  cursor_sort newer
    (filter (fun d => (UploadData.user_id d =? user_id)%nat) uploads).

Definition count_by_sentiment (uploads : list UploadData.t) : Dict :=
  let results := aggregate_count (map UploadData.sentiment uploads) in
  fold_left
    (fun counts result =>
       let sentiment := fst result in
       if dict_has sentiment counts
       then dict_set sentiment (snd result) counts
       else counts)
    results
    [("positive", 0%nat); ("neutral", 0%nat); ("negative", 0%nat)].

Definition get_total_count (uploads : list UploadData.t) : nat :=
  List.length uploads.

End Upload.

Module ChatMessage.

Definition create (now : Z) (user_id message sender_role : string)
    (chat_messages : list ChatData.t) : nat * list ChatData.t :=
  let message_data :=
    {| ChatData._id := S (list_max (map ChatData._id chat_messages));
       ChatData.user_id := user_id;
       ChatData.message := message;
       ChatData.sender_role := sender_role;
       ChatData.created_at := now |} in
  (ChatData._id message_data, insert_one message_data chat_messages).

(** Oldest first. *)
Definition older (a b : ChatData.t) : bool :=
  (ChatData.created_at a <=? ChatData.created_at b)%Z.

Definition find_by_user (user_id : string) (chat_messages : list ChatData.t)
  : list ChatData.t :=
  cursor_sort older
    (filter (fun d => ChatData.user_id d =? user_id) chat_messages).

Definition find_all (chat_messages : list ChatData.t) : list ChatData.t :=
  cursor_sort older chat_messages.

End ChatMessage.

(** ** app/admin/routes.py: the numbers of the dashboard *)

Record Dashboard := {
  sentiment_counts : Dict;
  total_uploads : nat;
  total_users : nat;
  recent_uploads : list UploadData.t;
  chart_data : list nat
}.

Definition dashboard_view (uploads : list UploadData.t)
    (users : list UserData.t) : Dashboard :=
  let sentiment_counts := Upload.count_by_sentiment uploads in
  {| sentiment_counts := sentiment_counts;
     total_uploads := Upload.get_total_count uploads;
     total_users := List.length users;
     recent_uploads := Upload.find_all (Some 10%nat) 0 uploads;
     chart_data := [dict_get "positive" 0 sentiment_counts;
                    dict_get "neutral" 0 sentiment_counts;
                    dict_get "negative" 0 sentiment_counts] |}.

(** [dashboard] behind its gate: the view runs only when the gate allows. *)
Definition dashboard (env : Environ) (request : Request) (current_user : Actor)
    (uploads : list UploadData.t) (users : list UserData.t)
  : Gate + Dashboard :=
  match admin_required env request current_user with
  | Allow => inr (dashboard_view uploads users)
  | g => inl g
  end.

(** ** app/chat/routes.py *)

(** The JSON body of a chat request: each key may be absent; a value that
    is present is text. *)
Record ChatPayload := {
  payload_message : option string;
  payload_user_id : option string
}.

Inductive ChatResponse :=
| chat_denied (g : Gate)
| chat_error (error : string) (status : Z)
| chat_sent (message_id : nat) (message sender_role : string)
| chat_list (messages : list ChatData.t).

Definition get_or (o : option string) (default : string) : string :=
  match o with Some s => s | None => default end.

Section Chat.

(** The text of an id, [str(ObjectId)]. *)
Variable str : nat -> string.

Definition send_message_view (env : Environ) (now : Z) (data : ChatPayload)
    (u : User.t) (chat_messages : list ChatData.t)
  : ChatResponse * list ChatData.t :=
  let message_text := Py.strip (get_or (payload_message data) "") in
  let user_id := get_or (payload_user_id data) (str (User.id u)) in
  if negb (user_id =? str (User.id u)) && negb (User.role env u =? "admin")
  then (chat_error "Unauthorized" 403, chat_messages)
  else if negb (Py.truthy message_text)
  then (chat_error "Message cannot be empty" 400, chat_messages)
  else
    let sender_role := if User.role env u =? "admin" then "admin" else "user" in
    let '(message_id, chat_messages) :=
      ChatMessage.create now user_id message_text sender_role chat_messages in
    (chat_sent message_id message_text sender_role, chat_messages).

Definition send_message (env : Environ) (request : Request) (now : Z)
    (data : ChatPayload) (current_user : Actor)
    (chat_messages : list ChatData.t) : ChatResponse * list ChatData.t :=
  match verified_user_required request current_user, current_user with
  | Allow, LoggedIn u => send_message_view env now data u chat_messages
  | g, _ => (chat_denied g, chat_messages)
  end.

Definition list_messages (env : Environ) (request : Request)
    (user_id : string) (current_user : Actor)
    (chat_messages : list ChatData.t) : ChatResponse :=
  match verified_user_required request current_user, current_user with
  | Allow, LoggedIn u =>
      if negb (user_id =? str (User.id u)) && negb (User.role env u =? "admin")
      then chat_error "Unauthorized" 403
      else chat_list (ChatMessage.find_by_user user_id chat_messages)
  | g, _ => chat_denied g
  end.

Definition list_all_messages (env : Environ) (request : Request)
    (current_user : Actor) (chat_messages : list ChatData.t) : ChatResponse :=
  match admin_required env request current_user with
  | Allow => chat_list (ChatMessage.find_all chat_messages)
  | g => chat_denied g
  end.

End Chat.

(** The three labels. *)
Definition is_label (s : string) : bool :=
  (s =? "positive") || (s =? "neutral") || (s =? "negative").

(** How often [key] occurs. *)
Definition occurrences (key : string) (keys : list string) : nat :=
  count_occ string_dec keys key.

(** The label of the opposite polarity. *)
Definition mirror (label : string) : string :=
  if label =? "positive" then "negative"
  else if label =? "negative" then "positive"
  else label.

(** The labels in their order from negative to positive. *)
Definition rank (label : string) : Z :=
  if label =? "positive" then 1%Z
  else if label =? "negative" then (-1)%Z
  else 0%Z.

(** Every element stands before all later ones. *)
Fixpoint is_sorted {A : Type} (before : A -> A -> bool) (l : list A) : bool :=
  match l with
  | [] => true
  | x :: rest => forallb (before x) rest && is_sorted before rest
  end.

Definition polarity_of_words (t : string) : QArith_base.Q :=
  if t =? "lovely day" then QArith_base.Qmake 1 2 else zero_polarity.

(** The loop of [count_by_sentiment] over the aggregation results. *)
Definition absorb (counts : Dict) (result : string * nat) : Dict :=
  let sentiment := fst result in
  if dict_has sentiment counts then dict_set sentiment (snd result) counts
  else counts.

Definition up (i : nat) (s : string) (t : Z) : UploadData.t :=
  {| UploadData._id := i; UploadData.user_id := 1; UploadData.title := "t";
     UploadData.description := "a description"; UploadData.sentiment := s;
     UploadData.image_file_id := i; UploadData.audio_file_id := None;
     UploadData.created_at := t |}.

Definition some_uploads : list UploadData.t :=
  [up 1 "positive" 10; up 2 "negative" 30; up 3 "positive" 20].

(** ** app/uploads: the upload form and route *)

(** An uploaded file as the form sees it; it counts as present when it has
    a file name. *)
Record FileStorage := {
  filename : string;
  content_type : string
}.

Definition file_present (f : option FileStorage) : bool :=
  match f with
  | Some f => Py.truthy (filename f)
  | None => false
  end.

Definition image_extensions : list string := ["jpg"; "jpeg"; "png"; "gif"].
Definition audio_extensions : list string := ["mp3"; "wav"; "m4a"; "ogg"].

Module UploadForm.

Record t := {
  submitted : bool;
  title : string;
  description : string;
  image : option FileStorage;
  audio : option FileStorage
}.

(** [FileAllowed] is the verdict of the flask_wtf validator of that name on
    a file that is present; it lets an absent file pass. *)
Definition file_allowed (FileAllowed : list string -> FileStorage -> bool)
    (extensions : list string) (f : option FileStorage) : bool :=
  match f with
  | Some file => if Py.truthy (filename file)
                 then FileAllowed extensions file else true
  | None => true
  end.

Definition validate_on_submit
    (FileAllowed : list string -> FileStorage -> bool) (form : t) : bool :=
  submitted form
  && (data_required (title form)
      && (1 <=? String.length (title form))%nat
      && (String.length (title form) <=? 200)%nat)
  && (data_required (description form)
      && (10 <=? String.length (description form))%nat)
  && (file_present (image form)
      && file_allowed FileAllowed image_extensions (image form))
  && file_allowed FileAllowed audio_extensions (audio form).

End UploadForm.

(** A file in the blob store. *)
Record Blob := {
  blob_id : nat;
  blob_filename : string;
  blob_content_type : string
}.

Record Content := {
  uploads : list UploadData.t;
  fs : list Blob
}.

(** [fs.put(file, ...)]: [failure] is the text of the exception it raised,
    if it raised. *)
Definition fs_put (failure : option string) (file : FileStorage)
    (blobs : list Blob) : (string + nat) * list Blob :=
  match failure with
  | Some e => (inl e, blobs)
  | None =>
      let new_id := S (list_max (map blob_id blobs)) in
      (inr new_id,
       insert_one {| blob_id := new_id; blob_filename := filename file;
                     blob_content_type := content_type file |} blobs)
  end.

Definition upper_char (c : ascii) : ascii :=
  let n := nat_of_ascii c in
  if ((97 <=? n) && (n <=? 122))%nat then ascii_of_nat (n - 32) else c.

(** [s.capitalize()], as it acts on a text whose first character is not a
    small letter beyond ASCII; it is applied to the three labels. *)
Definition capitalize (s : string) : string :=
  match s with
  | EmptyString => EmptyString
  | String c r => String (upper_char c) (Py.lower r)
  end.

Inductive PageResponse :=
| page_denied (g : Gate)
| page_render (template : string)
| page_redirect (endpoint : string) (upload_id : nat).

(** What the blob store does during one upload request; the failures of
    [fs.put] are the ones modelled. *)
Record UploadOracle := {
  image_put_failure : option string;
  audio_put_failure : option string
}.

Section Uploads.

Variable FileAllowed : list string -> FileStorage -> bool.
Variable blob_polarity : string -> QArith_base.Q.

(** The body of [upload] for the logged-in user [u]. *)
Definition upload_view (now : Z) (form : UploadForm.t) (oracle : UploadOracle)
    (u : User.t) (c : Content) : PageResponse * list Flash * Content :=
  if UploadForm.validate_on_submit FileAllowed form then
    match UploadForm.image form with
    | Some image_file =>
        if negb (Py.truthy (filename image_file)) then
          (page_render "uploads/upload.html",
           [{| message := "Image is required."; category := "error" |}], c)
        else
          match fs_put (image_put_failure oracle) image_file (fs c) with
          | (inl e, blobs) =>
              (page_render "uploads/upload.html",
               [{| message := "Upload failed: " ++ e; category := "error" |}],
               {| uploads := uploads c; fs := blobs |})
          | (inr image_id, blobs) =>
              let audio_step :=
                match UploadForm.audio form with
                | Some audio_file =>
                    if Py.truthy (filename audio_file) then
                      match fs_put (audio_put_failure oracle) audio_file blobs
                      with
                      | (inl e, blobs) => (inl e, blobs)
                      | (inr audio_id, blobs) => (inr (Some audio_id), blobs)
                      end
                    else (inr None, blobs)
                | None => (inr None, blobs)
                end in
              match audio_step with
              | (inl e, blobs) =>
                  (page_render "uploads/upload.html",
                   [{| message := "Upload failed: " ++ e;
                       category := "error" |}],
                   {| uploads := uploads c; fs := blobs |})
              | (inr audio_id, blobs) =>
                  let sentiment_result :=
                    analyze blob_polarity
                      (Some (UploadForm.description form)) in
                  let sentiment_label := label sentiment_result in
                  let '(upload_id, uploads') :=
                    Upload.create now (User.id u) (UploadForm.title form)
                      (UploadForm.description form) sentiment_label image_id
                      audio_id (uploads c) in
                  (page_redirect "uploads.detail" upload_id,
                   [{| message := "Upload successful! Sentiment: "
                                  ++ capitalize sentiment_label;
                       category := "success" |}],
                   {| uploads := uploads'; fs := blobs |})
              end
          end
    | None =>
        (page_render "uploads/upload.html",
         [{| message := "Image is required."; category := "error" |}], c)
    end
  else (page_render "uploads/upload.html", [], c).

Definition upload (env : Environ) (request : Request) (now : Z)
    (form : UploadForm.t) (oracle : UploadOracle) (current_user : Actor)
    (c : Content) : PageResponse * list Flash * Content :=
  match user_only env request current_user, current_user with
  | Allow, LoggedIn u => upload_view now form oracle u c
  | g, _ => (page_denied g, [], c)
  end.

End Uploads.

Definition any_file (extensions : list string) (f : FileStorage) : bool := true.

Definition cat_form : UploadForm.t :=
  {| UploadForm.submitted := true; UploadForm.title := "Cat";
     UploadForm.description := "lovely day";
     UploadForm.image :=
       Some {| filename := "cat.png"; content_type := "image/png" |};
     UploadForm.audio :=
       Some {| filename := "purr.mp3"; content_type := "audio/mpeg" |} |}.

Definition audio_fails : UploadOracle :=
  {| image_put_failure := None; audio_put_failure := Some "disk full" |}.

Definition empty_content : Content := {| uploads := []; fs := [] |}.

(** A verified user who is not admin. *)
Definition eve_user_only : User.t :=
  User.__init__
    {| UserData._id := 1; UserData.email := "eve@x.com";
       UserData.role := "user"; UserData.is_verified := true;
       UserData.created_at := 0; UserData.google_id := None;
       UserData.password_hash := Some "salt$secret1" |}.

(** ** app/uploads/routes.py: [detail], [get_image], [get_audio] *)

(** [fs.get(file_id)]; [None] stands for the [NoFile] it raises. *)
Definition fs_get (file_id : nat) (blobs : list Blob) : option Blob :=
  find_one (fun b => (blob_id b =? file_id)%nat) blobs.

Inductive DetailResponse :=
| detail_denied (g : Gate)
| detail_redirect (flashed : Flash) (endpoint : string)
| detail_render (upload : UploadData.t) (image_file_id : string)
    (audio_file_id : option string).

Inductive FileResponse :=
| file_denied (g : Gate)
| send_file (grid_file : Blob) (mimetype download_name : string)
| file_redirect (flashed : Flash) (endpoint : string).

Section Files.

(** [ObjectId(text)] and [str(id)]; [error_text file_id] is the text of the
    exception that a failed load of [file_id] raised. The failures modelled
    are a malformed id and a missing file. *)
Variable ObjectId : string -> option nat.
Variable str : nat -> string.
Variable error_text : string -> string.

(** The page shows the upload with the [file_id]s its image and audio URLs
    carry. *)
Definition detail (env : Environ) (request : Request) (upload_id : string)
    (current_user : Actor) (uploads : list UploadData.t) : DetailResponse :=
  match user_only env request current_user with
  | Allow =>
      match Upload.find_by_id ObjectId upload_id uploads with
      | None =>
          detail_redirect
            {| message := "Upload not found."; category := "error" |}
            "uploads.gallery"
      | Some upload =>
          detail_render upload (str (UploadData.image_file_id upload))
            (option_map str (UploadData.audio_file_id upload))
      end
  | g => detail_denied g
  end.

Definition get_image (env : Environ) (request : Request) (file_id : string)
    (current_user : Actor) (blobs : list Blob) : FileResponse :=
  match verified_user_required request current_user, current_user with
  | Allow, LoggedIn u =>
      let failed :=
        file_redirect
          {| message := "Error loading image: " ++ error_text file_id;
             category := "error" |}
          (if User.role env u =? "admin" then "admin.dashboard"
           else "uploads.gallery") in
      match ObjectId file_id with
      | Some oid =>
          match fs_get oid blobs with
          | Some grid_file =>
              send_file grid_file (blob_content_type grid_file)
                (blob_filename grid_file)
          | None => failed
          end
      | None => failed
      end
  | g, _ => file_denied g
  end.

Definition get_audio (env : Environ) (request : Request) (file_id : string)
    (current_user : Actor) (blobs : list Blob) : FileResponse :=
  match verified_user_required request current_user, current_user with
  | Allow, LoggedIn u =>
      let failed :=
        file_redirect
          {| message := "Error loading audio: " ++ error_text file_id;
             category := "error" |}
          (if User.role env u =? "admin" then "admin.dashboard"
           else "uploads.gallery") in
      match ObjectId file_id with
      | Some oid =>
          match fs_get oid blobs with
          | Some grid_file =>
              send_file grid_file (blob_content_type grid_file)
                (blob_filename grid_file)
          | None => failed
          end
      | None => failed
      end
  | g, _ => file_denied g
  end.

End Files.

(** Ids written in decimal, as an example of [str] and [ObjectId]. *)
From Stdlib Require DecimalString DecimalNat.

Definition str_decimal (i : nat) : string :=
  DecimalString.NilEmpty.string_of_uint (Nat.to_uint i).

Definition ObjectId_decimal (text : string) : option nat :=
  option_map Nat.of_uint (DecimalString.NilEmpty.uint_of_string text).

Definition no_text (file_id : string) : string := "no file".

Definition upload_ok : UploadOracle :=
  {| image_put_failure := None; audio_put_failure := None |}.

(** ** app/admin/routes.py: [chats] *)

Record ChatUser := {
  chat_user_id : string;
  chat_user_email : string;
  chat_user_created_at : option Z
}.

Record ChatGroup := {
  group_user : ChatUser;
  group_messages : list ChatData.t
}.

Inductive ChatsResponse :=
| chats_denied (g : Gate)
| chats_KeyError
| chats_render (users_chats : list ChatGroup).

Section Chats.

Variable ObjectId : string -> option nat.
Variable str : nat -> string.

(** The entry made for a thread when its first message is met: the user
    the thread names, ['Unknown'] where the id is malformed, and no entry
    where the id is well formed but no user has it. *)
Definition chats_entry (users : list UserData.t) (user_id : string)
  : option ChatGroup :=
  match ObjectId user_id with
  | Some oid =>
      match find_one (has_id oid) users with
      | Some user_data =>
          Some {| group_user :=
                    {| chat_user_id := str (UserData._id user_data);
                       chat_user_email := UserData.email user_data;
                       chat_user_created_at :=
                         Some (UserData.created_at user_data) |};
                  group_messages := [] |}
      | None => None
      end
  | None =>
      Some {| group_user :=
                {| chat_user_id := user_id; chat_user_email := "Unknown";
                   chat_user_created_at := None |};
              group_messages := [] |}
  end.

(** One round of the loop over the messages; [None] stands for the
    [KeyError] of [users_chats[user_id]]. *)
Definition chats_step (users : list UserData.t)
    (users_chats : list (string * ChatGroup)) (msg : ChatData.t)
  : option (list (string * ChatGroup)) :=
  let user_id := ChatData.user_id msg in
  let users_chats :=
    if negb (dict_has user_id users_chats) then
      match chats_entry users user_id with
      | Some entry => dict_set user_id entry users_chats
      | None => users_chats
      end
    else users_chats in
  match dict_lookup user_id users_chats with
  | Some entry =>
      Some (dict_set user_id
              {| group_user := group_user entry;
                 group_messages := (group_messages entry ++ [msg])%list |}
              users_chats)
  | None => None
  end.

Fixpoint chats_loop (users : list UserData.t) (all_messages : list ChatData.t)
    (users_chats : list (string * ChatGroup))
  : option (list (string * ChatGroup)) :=
  match all_messages with
  | [] => Some users_chats
  | msg :: rest =>
      match chats_step users users_chats msg with
      | Some users_chats => chats_loop users rest users_chats
      | None => None
      end
  end.

Definition chats (env : Environ) (request : Request) (current_user : Actor)
    (users : list UserData.t) (chat_messages : list ChatData.t)
  : ChatsResponse :=
  match admin_required env request current_user with
  | Allow =>
      match chats_loop users (ChatMessage.find_all chat_messages) [] with
      | Some users_chats => chats_render (map snd users_chats)
      | None => chats_KeyError
      end
  | g => chats_denied g
  end.

(** A message whose thread names, with a well-formed id, a user that does
    not exist. *)
Definition orphan (users : list UserData.t) (msg : ChatData.t) : bool :=
  match ObjectId (ChatData.user_id msg) with
  | Some oid =>
      match find_one (has_id oid) users with
      | Some _ => false
      | None => true
      end
  | None => false
  end.

(** The messages of one thread. *)
Definition in_thread (user_id : string) (msg : ChatData.t) : bool :=
  ChatData.user_id msg =? user_id.

(** What the loop has built once it is through the messages [done]: one
    entry for each thread met, with the thread's messages in the order
    met. *)
Definition chats_inv (users : list UserData.t)
    (users_chats : list (string * ChatGroup)) (done : list ChatData.t)
  : Prop :=
  NoDup (map fst users_chats)
  /\ (forall (user_id : string) (entry : ChatGroup),
         dict_lookup user_id users_chats = Some entry ->
         group_messages entry = filter (in_thread user_id) done
         /\ group_messages entry <> []
         /\ chats_entry users user_id
            = Some {| group_user := group_user entry;
                      group_messages := [] |})
  /\ (forall msg : ChatData.t,
         In msg done -> dict_has (ChatData.user_id msg) users_chats = true).

End Chats.

(** A message for the thread ["7"]. *)
Definition to_seven : ChatPayload :=
  {| payload_message := Some "hello"; payload_user_id := Some "7" |}.
(** * Properties *)

(** ** Strings *)

Lemma isspace_lower_char (c : ascii) :
  Py.isspace (Py.lower_char c) = Py.isspace c.
Proof. destruct c as [[] [] [] [] [] [] [] []]; reflexivity. Qed.

Lemma lower_char_idem (c : ascii) :
  Py.lower_char (Py.lower_char c) = Py.lower_char c.
Proof. destruct c as [[] [] [] [] [] [] [] []]; reflexivity. Qed.

Lemma lower_idem (s : string) : Py.lower (Py.lower s) = Py.lower s.
Proof.
  induction s as [|c r IH]; simpl; [reflexivity|].
  now rewrite lower_char_idem, IH.
Qed.

Lemma lower_empty (s : string) : Py.lower s = "" -> s = "".
Proof. destruct s; simpl; [reflexivity | discriminate]. Qed.

Lemma lstrip_lower (s : string) : Py.lstrip (Py.lower s) = Py.lower (Py.lstrip s).
Proof.
  induction s as [|c r IH]; simpl; [reflexivity|].
  rewrite isspace_lower_char. destruct (Py.isspace c); [exact IH | reflexivity].
Qed.

Lemma rstrip_lower (s : string) : Py.rstrip (Py.lower s) = Py.lower (Py.rstrip s).
Proof.
  induction s as [|c r IH]; simpl; [reflexivity|].
  rewrite IH, isspace_lower_char.
  destruct (Py.rstrip r); simpl; [destruct (Py.isspace c)|]; reflexivity.
Qed.

Lemma strip_lower (s : string) : Py.strip (Py.lower s) = Py.lower (Py.strip s).
Proof. unfold Py.strip. now rewrite lstrip_lower, rstrip_lower. Qed.

Lemma rstrip_idem (s : string) : Py.rstrip (Py.rstrip s) = Py.rstrip s.
Proof.
  induction s as [|c r IH]; simpl; [reflexivity|].
  destruct (Py.rstrip r) as [|c' r'] eqn:E.
  - destruct (Py.isspace c) eqn:Ec; simpl; [reflexivity | now rewrite Ec].
  - change (Py.rstrip (String c (String c' r')))
      with (match Py.rstrip (String c' r') with
            | "" => if Py.isspace c then "" else String c ""
            | r0 => String c r0
            end).
    now rewrite IH.
Qed.

Lemma lstrip_headed (s : string) : headed (Py.lstrip s) = true.
Proof.
  induction s as [|c r IH]; simpl; [reflexivity|].
  destruct (Py.isspace c) eqn:E; [exact IH | simpl; now rewrite E].
Qed.

Lemma lstrip_of_headed (s : string) : headed s = true -> Py.lstrip s = s.
Proof.
  destruct s as [|c r]; simpl; [reflexivity|].
  now destruct (Py.isspace c).
Qed.

Lemma rstrip_headed (s : string) : headed s = true -> headed (Py.rstrip s) = true.
Proof.
  destruct s as [|c r]; simpl; [reflexivity|]. intros H.
  destruct (Py.rstrip r); [|exact H].
  destruct (Py.isspace c) eqn:E; simpl; [reflexivity | now rewrite E].
Qed.

Lemma strip_idem (s : string) : Py.strip (Py.strip s) = Py.strip s.
Proof.
  unfold Py.strip.
  rewrite (lstrip_of_headed (Py.rstrip (Py.lstrip s))).
  - apply rstrip_idem.
  - apply rstrip_headed, lstrip_headed.
Qed.

(** Trimming and lower-casing an address twice is the same as once. *)
Lemma normalize_idem (s : string) :
  Py.lower (Py.strip (Py.lower (Py.strip s))) = Py.lower (Py.strip s).
Proof. now rewrite strip_lower, strip_idem, lower_idem. Qed.

Lemma truthy_false (s : string) : Py.truthy s = false <-> s = "".
Proof.
  unfold Py.truthy. destruct (String.eqb_spec s ""); simpl; split;
    congruence.
Qed.

Lemma truthy_true (s : string) : Py.truthy s = true <-> s <> "".
Proof.
  unfold Py.truthy. destruct (String.eqb_spec s ""); simpl; split;
    congruence.
Qed.

Lemma contains_In (x : string) (xs : list string) :
  Py.contains x xs = true <-> In x xs.
Proof.
  unfold Py.contains. rewrite existsb_exists. split.
  - intros (y & Hy & E). apply String.eqb_eq in E. now subst.
  - intros H. exists x. split; [exact H | apply String.eqb_refl].
Qed.

(** ** The allow-list resolver *)

Lemma is_admin_email_spec (env : Environ) (email : string) :
  is_admin_email env email = true <->
  Py.lower (Py.strip email) <> "" /\
  In (Py.lower (Py.strip email)) (get_admin_emails env).
Proof.
  unfold is_admin_email.
  destruct (Py.truthy email) eqn:E1; simpl.
  - destruct (Py.truthy (Py.lower (Py.strip email))) eqn:E2; simpl.
    + apply truthy_true in E2.
      destruct (get_admin_emails env) as [|a l] eqn:E3.
      * split; [discriminate | intros [_ []]].
      * rewrite contains_In. tauto.
    + apply truthy_false in E2. split; [discriminate | tauto].
  - apply truthy_false in E1. subst email. simpl.
    split; [discriminate | intros [H _]; now elim H].
Qed.

Lemma is_admin_email_normalized (env : Environ) (e1 e2 : string) :
  Py.lower (Py.strip e1) = Py.lower (Py.strip e2) ->
  is_admin_email env e1 = is_admin_email env e2.
Proof.
  intros H. apply eq_true_iff_eq.
  rewrite !is_admin_email_spec, H. reflexivity.
Qed.

Lemma is_admin_email_normalize (env : Environ) (e : string) :
  is_admin_email env (Py.lower (Py.strip e)) = is_admin_email env e.
Proof. apply is_admin_email_normalized, normalize_idem. Qed.

(** Beyond ASCII: the no-break space U+00A0 and the next-line character
    U+0085 are trimmed like a blank, and the capital U+00C9 is lowered to
    U+00E9. *)
Example normal_form_beyond_ascii :
  Py.lower (Py.strip (String "160"%char
                        ("Caf" ++ String "201"%char (String "133"%char ""))))
  = "caf" ++ String "233"%char "".
Proof. reflexivity. Qed.

Example is_admin_email_no_break_space :
  is_admin_email env_boss ("boss@x.com" ++ String "160"%char "") = true.
Proof. reflexivity. Qed.

Lemma collect_emails_normalized (entries emails : list string) :
  (forall x, In x emails -> x = Py.lower (Py.strip x) /\ x <> "") ->
  forall x, In x (collect_emails entries emails) ->
            x = Py.lower (Py.strip x) /\ x <> "".
Proof.
  revert emails. induction entries as [|e rest IH]; intros emails H; simpl.
  - exact H.
  - destruct (Py.truthy (Py.strip e)) eqn:E; apply IH; [|exact H].
    intros x Hx. apply in_app_or in Hx. destruct Hx as [Hx|[<-|[]]].
    + now apply H.
    + apply truthy_true in E. split.
      * now rewrite strip_lower, strip_idem, lower_idem.
      * intros C. now apply lower_empty in C.
Qed.

Lemma get_admin_emails_normalized (env : Environ) (x : string) :
  In x (get_admin_emails env) -> x = Py.lower (Py.strip x) /\ x <> "".
Proof.
  unfold get_admin_emails.
  destruct (Py.truthy (Py.strip (environ_get env "ADMIN_EMAILS" ""))); simpl.
  - apply collect_emails_normalized. intros y [].
  - destruct (Py.truthy (Py.strip (environ_get env "ADMIN_EMAIL" ""))) eqn:E.
    + intros [<-|[]]. apply truthy_true in E. split.
      * now rewrite strip_lower, strip_idem, lower_idem.
      * intros C. now apply lower_empty in C.
    + intros [].
Qed.

Lemma get_admin_emails_unset (env : Environ) :
  Py.strip (environ_get env "ADMIN_EMAILS" "") = "" ->
  Py.strip (environ_get env "ADMIN_EMAIL" "") = "" ->
  get_admin_emails env = [].
Proof. intros H1 H2. unfold get_admin_emails. now rewrite H1, H2. Qed.

(** C5. The effective role is ['admin'] whenever the allow-list resolver
    reports the identity's e-mail, whatever the stored role, and the stored
    role otherwise. The resolver compares the trimmed, lower-cased address
    with the trimmed, lower-cased entries of the configuration, so inputs
    that differ only in case or surrounding white space get the same answer,
    and with the configuration empty or absent it answers [false] for every
    input. *)
Theorem effective_role_allow_list_wins (env : Environ) :
  (forall u : User.t,
      User.role env u =
      if is_admin_email env (User.email u) then "admin"
      else User.get_stored_role u)
  /\ (forall e1 e2 : string,
         Py.lower (Py.strip e1) = Py.lower (Py.strip e2) ->
         is_admin_email env e1 = is_admin_email env e2)
  /\ (forall e : string,
         is_admin_email env e = true <->
         Py.lower (Py.strip e) <> "" /\
         In (Py.lower (Py.strip e)) (get_admin_emails env))
  /\ (forall x : string,
         In x (get_admin_emails env) -> x = Py.lower (Py.strip x))
  /\ (Py.strip (environ_get env "ADMIN_EMAILS" "") = "" ->
      Py.strip (environ_get env "ADMIN_EMAIL" "") = "" ->
      forall e : string, is_admin_email env e = false).
Proof.
  split; [reflexivity|].
  split; [apply is_admin_email_normalized|].
  split; [apply is_admin_email_spec|].
  split; [intros x Hx; exact (proj1 (get_admin_emails_normalized env x Hx))|].
  intros H1 H2 e. apply not_true_is_false. rewrite is_admin_email_spec.
  rewrite (get_admin_emails_unset env H1 H2). intros [_ []].
Qed.

Lemma effective_role_allow_list_wins_witness :
  is_admin_email env_boss "  BOSS@x.COM " = is_admin_email env_boss "boss@x.com"
  /\ is_admin_email env_boss "boss@x.com" = true
  /\ User.role env_boss boss = "admin"
  /\ is_admin_email env_unset "boss@x.com" = false.
Proof.
  split; [|split; [|split]].
  - apply (proj1 (proj2 (effective_role_allow_list_wins env_boss))).
    reflexivity.
  - reflexivity.
  - rewrite (proj1 (effective_role_allow_list_wins env_boss) boss).
    reflexivity.
  - apply (proj2 (proj2 (proj2 (proj2
             (effective_role_allow_list_wins env_unset))))); reflexivity.
Defined.

(** ** The two admin checks *)

(** C10. [User.is_admin()] is true exactly when the [role] property is
    ['admin']; both amount to "on the allow-list or stored role ['admin']",
    which is also the test the gates write out, so for a verified user the
    admin gate lets through exactly the users whose [role] is ['admin']. *)
Theorem is_admin_agrees_with_role (env : Environ) (u : User.t) :
  User.is_admin env u = (User.role env u =? "admin")
  /\ User.is_admin env u =
     (is_admin_email env (User.email u) || (User.get_stored_role u =? "admin"))
  /\ gate_is_admin env u = User.is_admin env u
  /\ (forall request : Request,
         allows (admin_required env request (LoggedIn u)) =
         User.is_verified u && (User.role env u =? "admin")).
Proof.
  unfold User.is_admin, User.role, gate_is_admin, User.get_stored_role,
    admin_required, login_required, admin_required_view, deny_not_verified,
    gate_is_admin, User.get_stored_role.
  destruct (is_admin_email env (User.email u)); simpl;
    repeat split; try reflexivity; intros request;
    destruct (User.is_verified u); simpl;
    try (destruct (User._role u =? "admin"); simpl);
    destruct (expects_json request); reflexivity.
Qed.

(** ** Gates *)

Lemma role_is_admin (env : Environ) (u : User.t) :
  (User.role env u =? "admin") = gate_is_admin env u.
Proof.
  unfold User.role, gate_is_admin, User.get_stored_role.
  now destruct (is_admin_email env (User.email u)).
Qed.

(** C7. The admin gate lets an actor through exactly when the actor is
    logged in, verified and of effective role ['admin'], and otherwise
    denies with the first failing requirement (not logged in, then not
    verified, then not admin); the user-only gate lets an actor through
    exactly when the actor is logged in, verified and not of effective role
    ['admin'], and denies an admin as forbidden. Neither gate fails on the
    anonymous user, and for a logged-in, verified actor exactly one of the
    two lets through. *)
Theorem gates_privileged_and_not_privileged
    (env : Environ) (request : Request) (actor : Actor) :
  allows (admin_required env request actor) =
    match actor with
    | AnonymousUser => false
    | LoggedIn u => User.is_verified u && (User.role env u =? "admin")
    end
  /\ denial (admin_required env request actor) =
    match actor with
    | AnonymousUser => Some Unauthenticated
    | LoggedIn u =>
        if negb (User.is_verified u) then Some NotVerified
        else if User.role env u =? "admin" then None else Some Forbidden
    end
  /\ allows (user_only env request actor) =
    match actor with
    | AnonymousUser => false
    | LoggedIn u => User.is_verified u && negb (User.role env u =? "admin")
    end
  /\ denial (user_only env request actor) =
    match actor with
    | AnonymousUser => Some Unauthenticated
    | LoggedIn u =>
        if negb (User.is_verified u) then Some NotVerified
        else if User.role env u =? "admin" then Some Forbidden else None
    end
  /\ admin_required env request actor <> AttributeError
  /\ user_only env request actor <> AttributeError
  /\ (forall u : User.t,
         actor = LoggedIn u -> User.is_verified u = true ->
         xorb (allows (admin_required env request actor))
              (allows (user_only env request actor)) = true).
Proof.
  destruct actor as [|u].
  - repeat split; try reflexivity; try discriminate.
  - unfold admin_required, user_only, login_required, admin_required_view,
      user_only_view, deny_not_verified. simpl.
    rewrite role_is_admin.
    destruct (User.is_verified u) eqn:Ev, (gate_is_admin env u),
      (expects_json request); simpl;
      repeat split; try reflexivity; try discriminate;
      intros u0 [= <-] Hv; try reflexivity; congruence.
Qed.

Lemma gates_privileged_and_not_privileged_witness :
  xorb (allows (admin_required env_boss page (LoggedIn boss)))
       (allows (user_only env_boss page (LoggedIn boss))) = true
  /\ denial (user_only env_boss page (LoggedIn boss)) = Some Forbidden
  /\ denial (admin_required env_unset page (LoggedIn boss)) = Some Forbidden.
Proof.
  split; [|split].
  - apply (proj2 (proj2 (proj2 (proj2 (proj2 (proj2
      (gates_privileged_and_not_privileged env_boss page (LoggedIn boss))))))) boss);
      reflexivity.
  - reflexivity.
  - reflexivity.
Defined.

(** ** Reconciliation *)

(** The block writes exactly when "stored role is ['admin']" and the
    allow-list verdict disagree, and what it writes is the verdict. *)
Lemma reconcile_spec (env : Environ) (address : string) (u : User.t) (db : Db) :
  reconcile env address u db =
  if Bool.eqb (is_admin_email env address) (User.get_stored_role u =? "admin")
  then (unchanged, (u, db))
  else (changed,
        User.update_role u
          (if is_admin_email env address then "admin" else "user") db).
Proof.
  unfold reconcile.
  destruct (is_admin_email env address),
    (User.get_stored_role u =? "admin"); reflexivity.
Qed.


(** C1 as stated fails: an identity off the allow-list whose stored role is
    ['admin'] has effective role equal to its stored role, yet the block
    writes ['user'] over it and reports a change. *)
Lemma reconcile_demotes_counterexample :
  is_admin_email env_unset (User.email eve) = false
  /\ User.role env_unset eve = User.get_stored_role eve
  /\ fst (reconcile env_unset (User.email eve) eve db_eve) = changed
  /\ User.get_stored_role
       (fst (snd (reconcile env_unset (User.email eve) eve db_eve))) = "user"
  /\ map UserData.role
       (users (snd (snd (reconcile env_unset (User.email eve) eve db_eve))))
     = ["user"]
  /\ reconcile env_unset (User.email eve) eve db_eve <> (unchanged, (eve, db_eve)).
Proof. repeat split; try reflexivity. discriminate. Qed.

(** ** One-time codes *)

Lemma valid_filter_same_code (t : Z) (email otp_code : string) (d : OtpData.t) :
  OTP.valid_filter t email otp_code d = true ->
  OTP.same_code email otp_code d = true.
Proof.
  unfold OTP.valid_filter, OTP.same_code.
  rewrite !andb_true_iff. tauto.
Qed.

Lemma find_valid_iff (cfg : Config) (now : Z) (email otp_code : string) (db : Db) :
  OTP.find_valid cfg now email otp_code db = true <->
  exists d : OtpData.t,
    In d (otps db) /\ OtpData.email d = email /\ OtpData.otp_code d = otp_code
    /\ OtpData.used d = false
    /\ (now - OtpData.created_at d <= OTP.minutes (OTP_EXPIRY_MINUTES cfg))%Z.
Proof.
  unfold OTP.find_valid, find_one. split.
  - destruct (find _ (otps db)) as [d|] eqn:E; [intros _ | discriminate].
    apply find_some in E. destruct E as [Hin Hf]. exists d.
    unfold OTP.valid_filter in Hf. rewrite !andb_true_iff in Hf.
    destruct Hf as [[[He Hc] Hu] Ht].
    apply String.eqb_eq in He, Hc. apply negb_true_iff in Hu.
    apply Z.leb_le in Ht. repeat split; auto. lia.
  - intros (d & Hin & He & Hc & Hu & Ht).
    destruct (find _ (otps db)) as [d'|] eqn:E; [reflexivity|].
    exfalso. apply (find_none _ _ E) in Hin. revert Hin.
    unfold OTP.valid_filter. rewrite He, Hc, Hu, !String.eqb_refl. simpl.
    assert ((now - OTP.minutes (OTP_EXPIRY_MINUTES cfg) <=? OtpData.created_at d)%Z
            = true) as -> by (apply Z.leb_le; lia).
    discriminate.
Qed.

Lemma find_valid_false (cfg : Config) (now : Z) (email otp_code : string)
    (db : Db) :
  (forall d, In d (otps db) ->
             OTP.valid_filter (now - OTP.minutes (OTP_EXPIRY_MINUTES cfg))
               email otp_code d = false) ->
  OTP.find_valid cfg now email otp_code db = false.
Proof.
  intros H. unfold OTP.find_valid, find_one.
  destruct (find _ (otps db)) as [d|] eqn:E; [|reflexivity].
  apply find_some in E. destruct E as [Hin Hf].
  rewrite (H d Hin) in Hf. discriminate.
Qed.

Lemma mark_used_none_valid (t : Z) (email otp_code : string)
    (coll : list OtpData.t) :
  (List.length (filter (OTP.same_code email otp_code) coll) <= 1)%nat ->
  forall d, In d (update_one (OTP.same_code email otp_code) OTP.set_used coll) ->
            OTP.valid_filter t email otp_code d = false.
Proof.
  induction coll as [|x rest IH]; simpl; intros Hlen d Hd; [contradiction|].
  destruct (OTP.same_code email otp_code x) eqn:Ex; simpl in *.
  - destruct Hd as [<-|Hd].
    + unfold OTP.valid_filter, OTP.set_used. simpl.
      now rewrite andb_false_r.
    + assert (filter (OTP.same_code email otp_code) rest = []) as Hnil
          by (destruct (filter _ rest); [reflexivity | simpl in Hlen; lia]).
      destruct (OTP.valid_filter t email otp_code d) eqn:Ev; [|reflexivity].
      apply valid_filter_same_code in Ev.
      assert (In d (filter (OTP.same_code email otp_code) rest)) as Hf
          by (apply filter_In; auto).
      rewrite Hnil in Hf. contradiction.
  - destruct Hd as [<-|Hd].
    + destruct (OTP.valid_filter t email otp_code x) eqn:Ev; [|reflexivity].
      apply valid_filter_same_code in Ev. congruence.
    + now apply IH.
Qed.

(** When the same code was drawn twice for one address, [mark_used] rewrites
    the older record and the fresh one stays valid after a successful
    verification. *)
Lemma mark_used_older_record_example :
  OTP.find_valid cfg10 1000000 "a@x.com" "123456" db_otp_twice = true
  /\ OTP.find_valid cfg10 1000001 "a@x.com" "123456"
       (OTP.mark_used "a@x.com" "123456" db_otp_twice) = true.
Proof. split; reflexivity. Qed.

(** C2 as stated fails at the boundary: a code whose age is exactly the
    configured window is accepted, although its age is not strictly below
    the window. *)
Lemma otp_boundary_counterexample :
  OTP.find_valid cfg10 600000 "a@x.com" "123456" db_otp = true
  /\ ~ (exists d : OtpData.t,
           In d (otps db_otp) /\ OtpData.email d = "a@x.com"
           /\ OtpData.otp_code d = "123456" /\ OtpData.used d = false
           /\ (600000 - OtpData.created_at d
               < OTP.minutes (OTP_EXPIRY_MINUTES cfg10))%Z).
Proof.
  split; [reflexivity|].
  intros (d & [<-|[]] & _ & _ & _ & H). vm_compute in H. discriminate.
Qed.

Lemma find_valid_otps (cfg : Config) (now : Z) (email otp_code : string)
    (db1 db2 : Db) :
  otps db1 = otps db2 ->
  OTP.find_valid cfg now email otp_code db1
  = OTP.find_valid cfg now email otp_code db2.
Proof. intros H. unfold OTP.find_valid. now rewrite H. Qed.

(** What [verify_otp] does with a code that is valid: it marks the first
    record for the address and code used, and goes on to the gallery when
    an identity is registered under the address, back to registration
    otherwise. *)
Lemma verify_otp_accepts (cfg : Config) (env : Environ) (now : Z)
    (form : OTPVerifyForm.t) (w : World) (e : string) :
  is_authenticated (current_user w) = false ->
  pending_email (session w) = Some e ->
  Py.truthy e = true ->
  OTPVerifyForm.validate_on_submit form = true ->
  OTP.find_valid cfg now e (OTPVerifyForm.otp_code form) (db w) = true ->
  fst (verify_otp cfg env now form w)
  = match User.find_by_email e (db w) with
    | Some _ => redirect "uploads.gallery"
    | None => redirect "auth.register"
    end
  /\ otps (db (snd (verify_otp cfg env now form w)))
     = otps (OTP.mark_used e (OTPVerifyForm.otp_code form) (db w)).
Proof.
  intros Hauth Hpe Ht Hv Hf. unfold verify_otp.
  rewrite Hauth, Hpe. simpl truthy_opt. rewrite Ht. simpl negb. cbv iota.
  rewrite Hv, Hf. cbn [with_db db].
  change (User.find_by_email e
            (OTP.mark_used e (OTPVerifyForm.otp_code form) (db w)))
    with (User.find_by_email e (db w)).
  destruct (User.find_by_email e (db w)) as [user|]; [|split; reflexivity].
  rewrite reconcile_spec.
  destruct (Bool.eqb _ _); split; reflexivity.
Qed.

(** C2, amended. A code verifies exactly when the store holds a record for
    that address and code that is unused and whose age is at most the
    configured window (the boundary included). [verify_otp] answers
    "Invalid or expired OTP code." and changes nothing else when the code
    does not verify; when it does, [verify_otp] goes on and leaves the
    store with the first record for the address and code marked used. If
    the store holds at most one record for the address and code, no later
    verification with it succeeds then: a second [verify_otp] with the same
    code gets the invalid-code answer. A code all of whose records are
    older than the window does not verify, used or not. *)
Theorem otp_valid_within_window
    (cfg : Config) (now : Z) (email otp_code : string) (db0 : Db) :
  (OTP.find_valid cfg now email otp_code db0 = true <->
   exists d : OtpData.t,
     In d (otps db0) /\ OtpData.email d = email
     /\ OtpData.otp_code d = otp_code /\ OtpData.used d = false
     /\ (now - OtpData.created_at d <= OTP.minutes (OTP_EXPIRY_MINUTES cfg))%Z)
  /\ ((List.length (records_for email otp_code db0) <= 1)%nat ->
      forall later : Z,
        OTP.find_valid cfg later email otp_code
          (OTP.mark_used email otp_code db0) = false)
  /\ ((forall d : OtpData.t,
          In d (records_for email otp_code db0) ->
          (OTP.minutes (OTP_EXPIRY_MINUTES cfg) < now - OtpData.created_at d)%Z) ->
      OTP.find_valid cfg now email otp_code db0 = false)
  /\ (forall (env : Environ) (form : OTPVerifyForm.t) (w : World),
         db w = db0 ->
         is_authenticated (current_user w) = false ->
         pending_email (session w) = Some email ->
         Py.truthy email = true ->
         OTPVerifyForm.validate_on_submit form = true ->
         OTPVerifyForm.otp_code form = otp_code ->
         OTP.find_valid cfg now email otp_code db0 = false ->
         verify_otp cfg env now form w =
         (render_template "auth/otp_verify.html",
          flash "Invalid or expired OTP code." "error" w))
  /\ (forall (env : Environ) (form : OTPVerifyForm.t) (w : World),
         db w = db0 ->
         is_authenticated (current_user w) = false ->
         pending_email (session w) = Some email ->
         Py.truthy email = true ->
         OTPVerifyForm.validate_on_submit form = true ->
         OTPVerifyForm.otp_code form = otp_code ->
         OTP.find_valid cfg now email otp_code db0 = true ->
         fst (verify_otp cfg env now form w)
         = match User.find_by_email email db0 with
           | Some _ => redirect "uploads.gallery"
           | None => redirect "auth.register"
           end
         /\ otps (db (snd (verify_otp cfg env now form w)))
            = otps (OTP.mark_used email otp_code db0)
         /\ ((List.length (records_for email otp_code db0) <= 1)%nat ->
             forall (env' : Environ) (later : Z) (form' : OTPVerifyForm.t)
                    (w' : World),
               otps (db w') = otps (db (snd (verify_otp cfg env now form w))) ->
               is_authenticated (current_user w') = false ->
               pending_email (session w') = Some email ->
               OTPVerifyForm.validate_on_submit form' = true ->
               OTPVerifyForm.otp_code form' = otp_code ->
               verify_otp cfg env' later form' w' =
               (render_template "auth/otp_verify.html",
                flash "Invalid or expired OTP code." "error" w'))).
Proof.
  assert (forall (env : Environ) (t : Z) (form : OTPVerifyForm.t) (w : World),
             is_authenticated (current_user w) = false ->
             pending_email (session w) = Some email ->
             Py.truthy email = true ->
             OTPVerifyForm.validate_on_submit form = true ->
             OTPVerifyForm.otp_code form = otp_code ->
             OTP.find_valid cfg t email otp_code (db w) = false ->
             verify_otp cfg env t form w =
             (render_template "auth/otp_verify.html",
              flash "Invalid or expired OTP code." "error" w)) as Hfail.
  { intros env t form w Hauth Hpe Ht Hv Hc Hf.
    unfold verify_otp. rewrite Hauth, Hpe. simpl. rewrite Ht. simpl.
    rewrite Hv, Hc, Hf. reflexivity. }
  assert ((List.length (records_for email otp_code db0) <= 1)%nat ->
          forall later : Z,
            OTP.find_valid cfg later email otp_code
              (OTP.mark_used email otp_code db0) = false) as Hspent.
  { intros Hlen later. apply find_valid_false. simpl.
    now apply mark_used_none_valid. }
  split; [apply find_valid_iff|].
  split; [exact Hspent|]. split; [|split].
  - intros H. apply not_true_is_false. rewrite find_valid_iff.
    intros (d & Hin & He & Hc & _ & Ht).
    assert (In d (records_for email otp_code db0)) as Hr.
    { apply filter_In. split; [exact Hin|].
      unfold OTP.same_code. now rewrite He, Hc, !String.eqb_refl. }
    specialize (H d Hr). lia.
  - intros env form w Hdb Hauth Hpe Ht Hv Hc Hf.
    apply Hfail; try assumption. now rewrite Hdb.
  - intros env form w Hdb Hauth Hpe Ht Hv Hc Hf. subst db0 otp_code.
    destruct (verify_otp_accepts cfg env now form w email Hauth Hpe Ht Hv Hf)
      as [R1 R2].
    split; [exact R1|]. split; [exact R2|].
    intros Hlen env' later form' w' Ho Hauth' Hpe' Hv' Hc'.
    apply Hfail; try assumption.
    rewrite (find_valid_otps cfg later email (OTPVerifyForm.otp_code form)
               (db w')
               (OTP.mark_used email (OTPVerifyForm.otp_code form) (db w))).
    + now apply Hspent.
    + now rewrite Ho, R2.
Qed.

Lemma otp_valid_within_window_witness :
  (forall later : Z,
      OTP.find_valid cfg10 later "a@x.com" "123456"
        (OTP.mark_used "a@x.com" "123456" db_otp) = false)
  /\ OTP.find_valid cfg10 600001 "a@x.com" "123456" db_otp = false
  /\ otps (db (snd (verify_otp cfg10 env_unset 1000 otp_form w_otp)))
     = otps (OTP.mark_used "a@x.com" "123456" db_otp).
Proof.
  split; [|split].
  - apply (proj1 (proj2
      (otp_valid_within_window cfg10 0 "a@x.com" "123456" db_otp))).
    simpl. lia.
  - apply (proj1 (proj2 (proj2
      (otp_valid_within_window cfg10 600001 "a@x.com" "123456" db_otp)))).
    intros d [<-|[]]. vm_compute. reflexivity.
  - exact (proj1 (proj2
      (proj2 (proj2 (proj2 (proj2
         (otp_valid_within_window cfg10 1000 "a@x.com" "123456" db_otp))))
         env_unset otp_form w_otp eq_refl eq_refl eq_refl eq_refl eq_refl
         eq_refl eq_refl))).
Defined.

(** ** Reconciliation at the three authentication events *)

Lemma find_by_email_some (e : string) (db : Db) (u : User.t) :
  User.find_by_email e db = Some u ->
  Py.lower (Py.strip e) <> "" /\
  exists d : UserData.t,
    find_one (fun d => UserData.email d =? Py.lower (Py.strip e)) (users db)
    = Some d
    /\ UserData.email d = Py.lower (Py.strip e)
    /\ u = User.__init__ d.
Proof.
  unfold User.find_by_email.
  destruct (Py.truthy e); simpl; [|discriminate].
  destruct (Py.truthy (Py.lower (Py.strip e))) eqn:E; simpl; [|discriminate].
  apply truthy_true in E.
  destruct (find_one _ (users db)) as [d|] eqn:F; simpl; [|discriminate].
  intros [= <-]. split; [exact E|]. exists d. repeat split.
  apply find_some in F. now apply String.eqb_eq.
Qed.

Lemma find_by_email_email (e : string) (db : Db) (u : User.t) :
  User.find_by_email e db = Some u -> User.email u = Py.lower (Py.strip e).
Proof.
  intros H. apply find_by_email_some in H.
  destruct H as (Hne & d & _ & Hd & ->). simpl. rewrite Hd.
  apply truthy_true in Hne. rewrite Hne. apply normalize_idem.
Qed.

Lemma login_reconciles (bcrypt : Bcrypt) (Email : string -> bool)
    (env : Environ) (form : LoginForm.t) (next_page : option string)
    (w : World) (user : User.t) :
  is_authenticated (current_user w) = false ->
  LoginForm.validate_on_submit Email form = true ->
  User.find_by_email (LoginForm.email form) (db w) = Some user ->
  User.check_password bcrypt user (LoginForm.password form) = true ->
  User.is_verified user = true ->
  let r := reconcile env (User.email user) user (db w) in
  snd (login bcrypt Email env form next_page w)
  = login_user (fst (snd r)) (with_db (snd (snd r)) w).
Proof.
  intros Hauth Hv Hf Hp Hver. unfold login.
  rewrite Hauth, Hv, Hf, Hp, Hver. simpl.
  destruct (reconcile env (User.email user) user (db w)) as [o [u' db']].
  reflexivity.
Qed.

Lemma verify_otp_reconciles (cfg : Config) (env : Environ) (now : Z)
    (form : OTPVerifyForm.t) (w : World) (pe : string) (user : User.t) :
  is_authenticated (current_user w) = false ->
  pending_email (session w) = Some pe ->
  Py.truthy pe = true ->
  OTPVerifyForm.validate_on_submit form = true ->
  OTP.find_valid cfg now pe (OTPVerifyForm.otp_code form) (db w) = true ->
  User.find_by_email pe
    (OTP.mark_used pe (OTPVerifyForm.otp_code form) (db w)) = Some user ->
  let r := reconcile env (User.email user) user
             (OTP.mark_used pe (OTPVerifyForm.otp_code form) (db w)) in
  db (snd (verify_otp cfg env now form w))
  = snd (User.verify (fst (snd r)) (snd (snd r))).
Proof.
  intros Hauth Hpe Ht Hv Hf Hu. unfold verify_otp.
  rewrite Hauth, Hpe. simpl. rewrite Ht. simpl. rewrite Hv, Hf. simpl.
  rewrite Hu.
  rewrite !reconcile_spec.
  rewrite (find_by_email_email _ _ _ Hu), is_admin_email_normalize.
  destruct (Bool.eqb _ _); reflexivity.
Qed.

Lemma google_callback_reconciles (bcrypt : Bcrypt) (env : Environ) (now : Z)
    (user_info : UserInfo) (w : World) :
  let found := find_or_create_user_google bcrypt env now user_info (db w) in
  let r := reconcile env (User.email (fst found)) (fst found) (snd found) in
  snd (google_callback bcrypt env now (Some user_info) w)
  = flash "Logged in with Google successfully!" "success"
      (login_user (fst (snd r)) (with_db (snd (snd r)) w)).
Proof.
  unfold google_callback.
  destruct (find_or_create_user_google bcrypt env now user_info (db w))
    as [user db1]. simpl.
  destruct (reconcile env (User.email user) user db1) as [o [u' db']].
  reflexivity.
Qed.

(** C1, amended. The block run at every successful authentication makes the
    stored role follow the allow-list: it writes ['admin'] when the address
    is on the allow-list and the stored role is not ['admin'], writes
    ['user'] when the address is off the allow-list and the stored role is
    ['admin'], and writes nothing otherwise; it reports [changed] exactly
    when it wrote. In particular an identity off the allow-list whose stored
    role is not ['admin'] is left as it is. Password login, code
    verification and federated login each end in the store this block
    leaves. *)
Theorem reconcile_follows_allow_list (env : Environ) :
  (forall (u : User.t) (db0 : Db),
      reconcile env (User.email u) u db0 =
      if Bool.eqb (is_admin_email env (User.email u))
           (User.get_stored_role u =? "admin")
      then (unchanged, (u, db0))
      else (changed,
            User.update_role u
              (if is_admin_email env (User.email u) then "admin" else "user")
              db0))
  /\ (forall (u : User.t) (db0 : Db),
         is_admin_email env (User.email u) = false ->
         User.get_stored_role u <> "admin" ->
         reconcile env (User.email u) u db0 = (unchanged, (u, db0)))
  /\ (forall (bcrypt : Bcrypt) (Email : string -> bool) (form : LoginForm.t)
             (next_page : option string) (w : World) (user : User.t),
         is_authenticated (current_user w) = false ->
         LoginForm.validate_on_submit Email form = true ->
         User.find_by_email (LoginForm.email form) (db w) = Some user ->
         User.check_password bcrypt user (LoginForm.password form) = true ->
         User.is_verified user = true ->
         let r := reconcile env (User.email user) user (db w) in
         snd (login bcrypt Email env form next_page w)
         = login_user (fst (snd r)) (with_db (snd (snd r)) w))
  /\ (forall (cfg : Config) (now : Z) (form : OTPVerifyForm.t) (w : World)
             (pe : string) (user : User.t),
         is_authenticated (current_user w) = false ->
         pending_email (session w) = Some pe ->
         Py.truthy pe = true ->
         OTPVerifyForm.validate_on_submit form = true ->
         OTP.find_valid cfg now pe (OTPVerifyForm.otp_code form) (db w) = true ->
         User.find_by_email pe
           (OTP.mark_used pe (OTPVerifyForm.otp_code form) (db w)) = Some user ->
         let r := reconcile env (User.email user) user
                    (OTP.mark_used pe (OTPVerifyForm.otp_code form) (db w)) in
         db (snd (verify_otp cfg env now form w))
         = snd (User.verify (fst (snd r)) (snd (snd r))))
  /\ (forall (bcrypt : Bcrypt) (now : Z) (user_info : UserInfo) (w : World),
         let found :=
           find_or_create_user_google bcrypt env now user_info (db w) in
         let r := reconcile env (User.email (fst found)) (fst found)
                    (snd found) in
         snd (google_callback bcrypt env now (Some user_info) w)
         = flash "Logged in with Google successfully!" "success"
             (login_user (fst (snd r)) (with_db (snd (snd r)) w))).
Proof.
  split; [intros; apply reconcile_spec|].
  split.
  { intros u db0 H1 H2. rewrite reconcile_spec, H1.
    apply String.eqb_neq in H2. now rewrite H2. }
  split; [intros; now apply login_reconciles|].
  split; [intros; now apply verify_otp_reconciles|].
  intros; apply google_callback_reconciles.
Qed.

(** ** Documents under their [_id] *)

Lemma has_id_set (f : UserData.t -> UserData.t) (i : nat) (d : UserData.t) :
  UserData._id (f d) = UserData._id d -> has_id i (f d) = has_id i d.
Proof. unfold has_id. now intros ->. Qed.

Lemma stored_update_one (f : UserData.t -> UserData.t) (i j : nat)
    (coll : list UserData.t) :
  (forall d, UserData._id (f d) = UserData._id d) ->
  stored i (update_one (has_id j) f coll) =
  if (i =? j)%nat then option_map f (stored i coll) else stored i coll.
Proof.
  intros Hf. unfold stored, find_one.
  induction coll as [|x rest IH]; simpl.
  - now destruct (i =? j)%nat.
  - destruct (has_id j x) eqn:Ej; simpl.
    + rewrite (has_id_set f i x (Hf x)).
      unfold has_id in *. apply Nat.eqb_eq in Ej.
      destruct (i =? j)%nat eqn:Eij.
      * apply Nat.eqb_eq in Eij.
        assert ((UserData._id x =? i)%nat = true) as ->
            by (apply Nat.eqb_eq; congruence).
        reflexivity.
      * apply Nat.eqb_neq in Eij.
        assert ((UserData._id x =? i)%nat = false) as ->
            by (apply Nat.eqb_neq; congruence).
        reflexivity.
    + destruct (has_id i x) eqn:Ei; [|exact IH].
      destruct (i =? j)%nat eqn:Eij; [|reflexivity].
      apply Nat.eqb_eq in Eij. subst j. congruence.
Qed.


Section Keeps.

Context {A : Type} (proj : UserData.t -> A).



Lemma keeps_update_one (j : nat) (f : UserData.t -> UserData.t)
    (coll : list UserData.t) :
  (forall d, UserData._id (f d) = UserData._id d) ->
  (forall d, proj (f d) = proj d) ->
  keeps proj coll (update_one (has_id j) f coll).
Proof.
  intros Hid Hp i d H. rewrite (stored_update_one f i j coll Hid), H.
  destruct (i =? j)%nat; simpl; eauto.
Qed.



End Keeps.


Lemma update_role_keeps_verified (u : User.t) (r : string) (db0 : Db) :
  keeps UserData.is_verified (users db0) (users (snd (User.update_role u r db0))).
Proof. apply keeps_update_one; reflexivity. Qed.



(** ** Issuing a code *)

Lemma issue_otp_effect (cfg : Config) (now : Z) (email otp_code : string)
    (net : Delivery) (w : World) :
  let r := issue_otp cfg now email otp_code net w in
  fst r = redirect "auth.verify_otp"
  /\ db (snd r) = OTP.create now email otp_code (db w)
  /\ session (snd r) =
     {| pending_email := Some email; _user_id := _user_id (session w) |}
  /\ journal (snd r) =
     (journal w ++ otp_inserted email otp_code
                     :: snd (send_otp_email cfg email net))%list
  /\ flashes (snd r) =
     (flashes w ++ [if fst (send_otp_email cfg email net) && mail_configured cfg
                    then delivery_ok_flash else delivery_failed_flash])%list.
Proof.
  unfold issue_otp.
  destruct (send_otp_email cfg email net) as [sent attempts]. simpl.
  destruct (sent && mail_configured cfg); simpl;
    rewrite <- app_assoc; repeat split.
Qed.

Lemma send_otp_email_attempts (cfg : Config) (email : string) (net : Delivery) :
  forallb is_attempt (snd (send_otp_email cfg email net)) = true.
Proof.
  unfold send_otp_email, send_email_direct_smtp.
  destruct (mail_configured cfg); [|reflexivity].
  destruct (mail_send_error net); [|reflexivity].
  destruct (negb (truthy_opt (MAIL_USERNAME cfg))
            || negb (truthy_opt (MAIL_PASSWORD cfg)));
    [reflexivity|].
  destruct (smtp_result net); reflexivity.
Qed.

Lemma find_valid_new_otp (cfg : Config) (now : Z) (email otp_code : string)
    (db0 : Db) :
  (0 <= OTP_EXPIRY_MINUTES cfg)%Z ->
  OTP.find_valid cfg now email otp_code (OTP.create now email otp_code db0)
  = true.
Proof.
  intros H. apply find_valid_iff. exists (new_otp now email otp_code).
  simpl. unfold insert_one. rewrite in_app_iff. simpl.
  repeat split; auto. unfold OTP.minutes. lia.
Qed.

(** ** Registration *)

Lemma map_update_one {A B : Type} (g : A -> B) (p : A -> bool) (f : A -> A)
    (coll : list A) :
  (forall d, g (f d) = g d) -> map g (update_one p f coll) = map g coll.
Proof.
  intros H. induction coll as [|x rest IH]; simpl; [reflexivity|].
  destruct (p x); simpl; [now rewrite H | now rewrite IH].
Qed.

Lemma find_update_one_some {A : Type} (g p : A -> bool) (f : A -> A)
    (coll : list A) :
  (forall d, g (f d) = g d) ->
  find g coll <> None -> find g (update_one p f coll) <> None.
Proof.
  intros H. induction coll as [|x rest IH]; simpl; [trivial|].
  destruct (p x); simpl.
  - rewrite H. now destruct (g x).
  - destruct (g x); [discriminate | exact IH].
Qed.

Lemma find_insert_one_some {A : Type} (g : A -> bool) (x : A) (coll : list A) :
  g x = true -> find g (insert_one x coll) <> None.
Proof.
  intros H. unfold insert_one.
  induction coll as [|y rest IH]; simpl; [now rewrite H|].
  destruct (g y); [discriminate | exact IH].
Qed.

Lemma validate_register (Email : string -> bool) (form : RegisterForm.t)
    (db0 : Db) :
  RegisterForm.validate_on_submit Email form db0 = true ->
  Py.truthy (register_email form) = true
  /\ RegisterForm.validate_email form db0 = None
  /\ Py.truthy (RegisterForm.password form) = true.
Proof.
  unfold RegisterForm.validate_on_submit, data_required.
  rewrite !andb_true_iff.
  intros [[[_ [[[_ Hs] _] Hv]] [[Hp _] _]] _].
  split; [|split; [|exact Hp]].
  - apply truthy_true. apply truthy_true in Hs. intros C.
    now apply lower_empty in C.
  - now destruct (RegisterForm.validate_email form db0).
Qed.

Lemma validate_email_none (form : RegisterForm.t) (db0 : Db) :
  RegisterForm.validate_email form db0 = None ->
  User.find_by_email (register_email form) db0 = None
  \/ exists u, User.find_by_email (register_email form) db0 = Some u
               /\ User.is_verified u = false.
Proof.
  unfold RegisterForm.validate_email, register_email.
  destruct (User.find_by_email _ db0) as [u|]; [|now left].
  destruct (User.is_verified u) eqn:E; [discriminate|].
  intros _. right. now exists u.
Qed.

Lemma register_valid_existing (cfg : Config) (bcrypt : Bcrypt) (env : Environ)
    (now : Z) (form : RegisterForm.t) (salt otp_code : string)
    (net : Delivery) (w : World) (u : User.t) :
  User.find_by_email (register_email form) (db w) = Some u ->
  User.is_verified u = false ->
  register_valid cfg bcrypt env now form salt otp_code net w =
  issue_otp cfg now (register_email form) otp_code net
    (with_db
       {| users :=
            update_one (has_id (User.id u))
              (set_password_and_role
                 (hashpw bcrypt (RegisterForm.password form) salt)
                 (if is_admin_email env (register_email form)
                  then "admin" else "user"))
              (users (db w));
          otps := otps (db w) |} w).
Proof.
  intros Hf Hv. unfold register_valid. fold (register_email form).
  now rewrite Hf, Hv.
Qed.

Lemma register_valid_new (cfg : Config) (bcrypt : Bcrypt) (env : Environ)
    (now : Z) (form : RegisterForm.t) (salt otp_code : string)
    (net : Delivery) (w : World) :
  User.find_by_email (register_email form) (db w) = None ->
  register_valid cfg bcrypt env now form salt otp_code net w =
  issue_otp cfg now (register_email form) otp_code net
    (with_db
       (snd (User.create bcrypt env now salt (register_email form)
               (Some (RegisterForm.password form)) None None (db w))) w).
Proof.
  intros Hf. unfold register_valid. fold (register_email form).
  now rewrite Hf.
Qed.

Lemma register_valid_verified (cfg : Config) (bcrypt : Bcrypt) (env : Environ)
    (now : Z) (form : RegisterForm.t) (salt otp_code : string)
    (net : Delivery) (w : World) (u : User.t) :
  User.find_by_email (register_email form) (db w) = Some u ->
  User.is_verified u = true ->
  register_valid cfg bcrypt env now form salt otp_code net w =
  (redirect "auth.login", flash already_verified_message "info" w).
Proof.
  intros Hf Hv. unfold register_valid. fold (register_email form).
  now rewrite Hf, Hv.
Qed.

(** A registration that went through leaves an identity for the address. *)
Lemma register_valid_identity_exists (cfg : Config) (bcrypt : Bcrypt)
    (env : Environ) (now : Z) (form : RegisterForm.t)
    (salt otp_code : string) (net : Delivery) (w : World) :
  Py.truthy (register_email form) = true ->
  User.find_by_email (register_email form)
    (db (snd (register_valid cfg bcrypt env now form salt otp_code net w)))
  <> None.
Proof.
  intros Ht.
  assert (forall db0 db1,
             users db1 = users db0 ->
             User.find_by_email (register_email form) db0 <> None ->
             User.find_by_email (register_email form) db1 <> None) as Hsame.
  { intros db0 db1 E. unfold User.find_by_email. now rewrite E. }
  assert (Py.lower (Py.strip (register_email form)) = register_email form)
    as Hn by apply normalize_idem.
  assert (Py.truthy (Py.lower (Py.strip (register_email form))) = true)
    as Ht' by now rewrite Hn.
  assert (Py.truthy (register_email form) = true) as Ht0 by exact Ht.
  destruct (User.find_by_email (register_email form) (db w)) as [u|] eqn:Hf.
  - destruct (User.is_verified u) eqn:Hv.
    + rewrite (register_valid_verified _ _ _ _ _ _ _ _ _ _ Hf Hv). simpl.
      now rewrite Hf.
    + rewrite (register_valid_existing _ _ _ _ _ _ _ _ _ _ Hf Hv).
      destruct (issue_otp_effect cfg now (register_email form) otp_code net
                  (with_db
                     {| users :=
                          update_one (has_id (User.id u))
                            (set_password_and_role
                               (hashpw bcrypt (RegisterForm.password form) salt)
                               (if is_admin_email env (register_email form)
                                then "admin" else "user"))
                            (users (db w));
                        otps := otps (db w) |} w))
        as (_ & -> & _).
      simpl. unfold User.find_by_email in *. rewrite Ht0, Ht' in *.
      simpl in *. unfold find_one in *.
      destruct (find _ (users (db w))) eqn:F; [|discriminate].
      pose proof (find_update_one_some
                    (fun d => UserData.email d
                              =? Py.lower (Py.strip (register_email form)))
                    (has_id (User.id u))
                    (set_password_and_role
                       (hashpw bcrypt (RegisterForm.password form) salt)
                       (if is_admin_email env (register_email form)
                        then "admin" else "user"))
                    (users (db w)) (fun d => eq_refl)) as P.
      rewrite F in P. specialize (P ltac:(discriminate)).
      destruct (find _ (update_one _ _ _)); [discriminate | now elim P].
  - rewrite (register_valid_new _ _ _ _ _ _ _ _ _ Hf).
    destruct (issue_otp_effect cfg now (register_email form) otp_code net
                (with_db
                   (snd (User.create bcrypt env now salt (register_email form)
                           (Some (RegisterForm.password form)) None None
                           (db w))) w))
      as (_ & -> & _).
    simpl. unfold User.find_by_email. rewrite Ht0, Ht'. simpl.
    unfold find_one.
    match goal with
    | |- option_map _ (find ?g (insert_one ?x ?l)) <> None =>
        pose proof (find_insert_one_some g x l) as P
    end.
    simpl in P. rewrite String.eqb_refl in P. specialize (P eq_refl).
    destruct (find _ (insert_one _ _)); [discriminate | now elim P].
Qed.

(** A registration that passes validation issues a code on a store that
    does not depend on what delivery will do. *)
Lemma register_issues (cfg : Config) (bcrypt : Bcrypt) (Email : string -> bool)
    (env : Environ) (now : Z) (form : RegisterForm.t)
    (salt otp_code : string) (w : World) :
  is_authenticated (current_user w) = false ->
  RegisterForm.validate_on_submit Email form (db w) = true ->
  exists db0 : Db,
    otps db0 = otps (db w)
    /\ (User.find_by_email (register_email form) (db w) <> None ->
        map UserData._id (users db0) = map UserData._id (users (db w))
        /\ map UserData.email (users db0) = map UserData.email (users (db w)))
    /\ forall net : Delivery,
        register cfg bcrypt Email env now form salt otp_code net w =
        issue_otp cfg now (register_email form) otp_code net (with_db db0 w).
Proof.
  intros Hauth Hv. unfold register. rewrite Hauth, Hv.
  destruct (validate_register _ _ _ Hv) as (_ & Hve & _).
  destruct (validate_email_none _ _ Hve) as [Hn | (u & Hu & Hver)].
  - eexists. split; [|split].
    3: { intros net. apply register_valid_new. exact Hn. }
    + reflexivity.
    + intros C. now elim C.
  - eexists. split; [|split].
    3: { intros net. apply (register_valid_existing _ _ _ _ _ _ _ _ _ u);
         assumption. }
    + reflexivity.
    + intros _. simpl. split; apply map_update_one; reflexivity.
Qed.

(** C6. Registration is idempotent while the identity is unverified: a
    registration for an address that already has an unverified identity
    creates no identity record (the collection keeps its [_id]s and
    addresses) and appends a new code that is valid at once; so of two
    registrations in a row for the same address the second creates none.
    A registration for an address whose identity is verified is turned down
    with the "already registered and verified" message and changes nothing:
    no identity, no code. The configured window is taken to be
    non-negative. *)
Theorem register_idempotent_while_unverified
    (cfg : Config) (bcrypt : Bcrypt) (Email : string -> bool) :
  (0 <= OTP_EXPIRY_MINUTES cfg)%Z ->
  (forall (env : Environ) (now : Z) (form : RegisterForm.t)
          (salt otp_code : string) (net : Delivery) (w : World) (u : User.t),
      is_authenticated (current_user w) = false ->
      RegisterForm.validate_on_submit Email form (db w) = true ->
      User.find_by_email (register_email form) (db w) = Some u ->
      let r := register cfg bcrypt Email env now form salt otp_code net w in
      fst r = redirect "auth.verify_otp"
      /\ map UserData._id (users (db (snd r))) = map UserData._id (users (db w))
      /\ map UserData.email (users (db (snd r)))
         = map UserData.email (users (db w))
      /\ otps (db (snd r))
         = insert_one (new_otp now (register_email form) otp_code)
             (otps (db w))
      /\ OTP.find_valid cfg now (register_email form) otp_code (db (snd r))
         = true)
  /\ (forall (env1 env2 : Environ) (now1 now2 : Z)
             (form1 form2 : RegisterForm.t)
             (salt1 salt2 code1 code2 : string) (net1 net2 : Delivery)
             (w : World),
         is_authenticated (current_user w) = false ->
         RegisterForm.validate_on_submit Email form1 (db w) = true ->
         let w1 :=
           snd (register cfg bcrypt Email env1 now1 form1 salt1 code1 net1 w) in
         is_authenticated (current_user w1) = false ->
         register_email form2 = register_email form1 ->
         RegisterForm.validate_on_submit Email form2 (db w1) = true ->
         let r2 := register cfg bcrypt Email env2 now2 form2 salt2 code2 net2 w1 in
         fst r2 = redirect "auth.verify_otp"
         /\ map UserData._id (users (db (snd r2)))
            = map UserData._id (users (db w1))
         /\ map UserData.email (users (db (snd r2)))
            = map UserData.email (users (db w1))
         /\ OTP.find_valid cfg now2 (register_email form2) code2 (db (snd r2))
            = true)
  /\ (forall (env : Environ) (now : Z) (form : RegisterForm.t)
             (salt otp_code : string) (net : Delivery) (w : World) (u : User.t),
         User.find_by_email (register_email form) (db w) = Some u ->
         User.is_verified u = true ->
         snd (register cfg bcrypt Email env now form salt otp_code net w) = w
         /\ RegisterForm.validate_email form (db w)
            = Some already_verified_message
         /\ register_valid cfg bcrypt env now form salt otp_code net w
            = (redirect "auth.login", flash already_verified_message "info" w)).
Proof.
  intros Hwin.
  assert (forall (env : Environ) (now : Z) (form : RegisterForm.t)
                 (salt otp_code : string) (net : Delivery) (w : World),
             is_authenticated (current_user w) = false ->
             RegisterForm.validate_on_submit Email form (db w) = true ->
             User.find_by_email (register_email form) (db w) <> None ->
             let r := register cfg bcrypt Email env now form salt otp_code net w in
             fst r = redirect "auth.verify_otp"
             /\ map UserData._id (users (db (snd r)))
                = map UserData._id (users (db w))
             /\ map UserData.email (users (db (snd r)))
                = map UserData.email (users (db w))
             /\ otps (db (snd r))
                = insert_one (new_otp now (register_email form) otp_code)
                    (otps (db w))
             /\ OTP.find_valid cfg now (register_email form) otp_code
                  (db (snd r)) = true) as Hre.
  { intros env now form salt otp_code net w Hauth Hv Hex. cbv zeta.
    destruct (register_issues cfg bcrypt Email env now form salt otp_code w
                Hauth Hv) as (db0 & Ho & Hm & Hr).
    rewrite Hr.
    destruct (issue_otp_effect cfg now (register_email form) otp_code net
                (with_db db0 w)) as (-> & -> & _).
    destruct (Hm Hex) as [M1 M2]. simpl. rewrite Ho.
    repeat split; try assumption.
    now apply (find_valid_new_otp cfg now _ _ db0). }
  split; [|split].
  - intros env now form salt otp_code net w u Hauth Hv Hu.
    apply Hre; [assumption | assumption | now rewrite Hu].
  - intros env1 env2 now1 now2 form1 form2 salt1 salt2 code1 code2 net1 net2
      w Hauth Hv1 w1 Hauth1 He Hv2.
    destruct (Hre env2 now2 form2 salt2 code2 net2 w1 Hauth1 Hv2)
      as (R1 & R2 & R3 & _ & R5); [|now repeat split].
    rewrite He. subst w1. unfold register. rewrite Hauth, Hv1.
    apply register_valid_identity_exists.
    now destruct (validate_register _ _ _ Hv1).
  - intros env now form salt otp_code net w u Hu Hver.
    assert (RegisterForm.validate_email form (db w)
            = Some already_verified_message) as Hve.
    { unfold RegisterForm.validate_email. fold (register_email form).
      now rewrite Hu, Hver. }
    split; [|split; [exact Hve|]].
    + unfold register.
      destruct (is_authenticated (current_user w)); [reflexivity|].
      unfold RegisterForm.validate_on_submit. rewrite Hve.
      rewrite !andb_false_r. reflexivity.
    + now apply (register_valid_verified _ _ _ _ _ _ _ _ _ u).
Qed.

Lemma register_idempotent_while_unverified_witness :
  let r := register cfg10 toy_bcrypt any_email env_unset 5000 ann_form
             "salt9" "654321" net_down w_ann in
  map UserData._id (users (db (snd r))) = [1%nat]
  /\ OTP.find_valid cfg10 5000 "a@x.com" "654321" (db (snd r)) = true.
Proof.
  assert (0 <= OTP_EXPIRY_MINUTES cfg10)%Z as H by (simpl; lia).
  destruct (proj1 (register_idempotent_while_unverified cfg10 toy_bcrypt
                     any_email H)
              env_unset 5000%Z ann_form "salt9" "654321" net_down w_ann
              (User.__init__ ann_data) eq_refl eq_refl eq_refl)
    as (_ & R2 & _ & _ & R5).
  split; [exact R2 | exact R5].
Defined.

(** C9. Whenever a registration goes through, the code is inserted in the
    store before any delivery attempt is made; the store, the session and
    the response are the same whatever the delivery does, so a failed
    delivery undoes nothing: the new code is in the store and valid, the
    pending address is carried in the session to the verification step, and
    the caller is told by the flashed message, an error when the delivery
    failed and a success when it went out. The configured window is taken
    to be non-negative. *)
Theorem register_delivery_failure_keeps_code
    (cfg : Config) (bcrypt : Bcrypt) (Email : string -> bool)
    (env : Environ) (now : Z) (form : RegisterForm.t)
    (salt otp_code : string) (net : Delivery) (w : World) :
  (0 <= OTP_EXPIRY_MINUTES cfg)%Z ->
  is_authenticated (current_user w) = false ->
  RegisterForm.validate_on_submit Email form (db w) = true ->
  let r := register cfg bcrypt Email env now form salt otp_code net w in
  let email := register_email form in
  (exists attempts : list Effect,
      journal (snd r)
      = (journal w ++ otp_inserted email otp_code :: attempts)%list
      /\ forallb is_attempt attempts = true)
  /\ (forall net' : Delivery,
         let r' := register cfg bcrypt Email env now form salt otp_code net' w in
         db (snd r') = db (snd r) /\ session (snd r') = session (snd r)
         /\ fst r' = fst r)
  /\ In (new_otp now email otp_code) (otps (db (snd r)))
  /\ OTP.find_valid cfg now email otp_code (db (snd r)) = true
  /\ pending_email (session (snd r)) = Some email
  /\ fst r = redirect "auth.verify_otp"
  /\ flashes (snd r)
     = (flashes w ++ [if fst (send_otp_email cfg email net)
                      then delivery_ok_flash else delivery_failed_flash])%list.
Proof.
  intros Hwin Hauth Hv. cbv zeta.
  destruct (register_issues cfg bcrypt Email env now form salt otp_code w
              Hauth Hv) as (db0 & Ho & _ & Hr).
  rewrite Hr.
  destruct (issue_otp_effect cfg now (register_email form) otp_code net
              (with_db db0 w)) as (E1 & E2 & E3 & E4 & E5).
  rewrite E1, E2, E3, E4, E5. simpl.
  split; [|split; [|split; [|split; [|split; [|split]]]]]; try reflexivity.
  - eexists. split; [reflexivity | apply send_otp_email_attempts].
  - intros net'. rewrite Hr.
    destruct (issue_otp_effect cfg now (register_email form) otp_code net'
                (with_db db0 w)) as (F1 & F2 & F3 & _).
    rewrite F1, F2, F3. repeat split.
  - unfold insert_one. rewrite in_app_iff. right. now left.
  - now apply (find_valid_new_otp cfg now _ _ db0).
  - f_equal. f_equal. unfold send_otp_email.
    destruct (mail_configured cfg); [|reflexivity].
    now rewrite andb_true_r.
Qed.

Lemma register_delivery_failure_keeps_code_witness :
  let r := register cfg_mail toy_bcrypt any_email env_unset 5000 ann_form
             "salt9" "654321" net_down w_empty in
  OTP.find_valid cfg_mail 5000 "a@x.com" "654321" (db (snd r)) = true
  /\ pending_email (session (snd r)) = Some "a@x.com"
  /\ flashes (snd r) = [delivery_failed_flash]
  /\ journal (snd r)
     = [otp_inserted "a@x.com" "654321"; mail_send "a@x.com";
        smtp_send "a@x.com"].
Proof.
  assert (0 <= OTP_EXPIRY_MINUTES cfg_mail)%Z as H by (simpl; lia).
  destruct (register_delivery_failure_keeps_code cfg_mail toy_bcrypt any_email
              env_unset 5000%Z ann_form "salt9" "654321" net_down w_empty
              H eq_refl eq_refl)
    as (_ & _ & _ & R4 & R5 & _ & R7).
  split; [exact R4 | split; [exact R5 | split; [exact R7 | reflexivity]]].
Defined.

Lemma reconcile_follows_allow_list_witness :
  map UserData.role
    (users (db (snd (login toy_bcrypt any_email env_boss boss_login None
                       w_boss)))) = ["admin"]
  /\ reconcile env_unset (User.email boss) boss db_boss
     = (unchanged, (boss, db_boss)).
Proof.
  split.
  - pose proof (proj1 (proj2 (proj2 (reconcile_follows_allow_list env_boss)))
                  toy_bcrypt any_email boss_login None w_boss boss
                  eq_refl eq_refl eq_refl eq_refl eq_refl) as H.
    cbv zeta in H. rewrite H. reflexivity.
  - apply (proj1 (proj2 (reconcile_follows_allow_list env_unset))).
    + reflexivity.
    + discriminate.
Defined.

(** ** Who writes [is_verified] and [role] *)





Lemma verify_otp_same_or_valid (cfg : Config) (env : Environ) (now : Z)
    (form : OTPVerifyForm.t) (w : World) :
  db (snd (verify_otp cfg env now form w)) = db w
  \/ exists pe : string,
      pending_email (session w) = Some pe
      /\ OTP.find_valid cfg now pe (OTPVerifyForm.otp_code form) (db w) = true.
Proof.
  unfold verify_otp.
  destruct (is_authenticated (current_user w)); [now left|].
  destruct (pending_email (session w)) as [pe|]; simpl; [|now left].
  destruct (Py.truthy pe); simpl; [|now left].
  destruct (OTPVerifyForm.validate_on_submit form); [|now left].
  destruct (OTP.find_valid cfg now pe _ (db w)) eqn:E; [|now left].
  right. now exists pe.
Qed.



Lemma inserted_id_fresh (coll : list UserData.t) (d : UserData.t) :
  In d coll -> (UserData._id d < inserted_id coll)%nat.
Proof.
  intros H. unfold inserted_id.
  assert (Forall (fun k => (k <= list_max (map UserData._id coll))%nat)
            (map UserData._id coll)) as F by now apply list_max_le.
  rewrite Forall_forall in F.
  specialize (F (UserData._id d) (in_map _ _ _ H)). lia.
Qed.













(** ** Who writes the stored role *)







(** ** Reconciling twice *)

Lemma update_role_reload (e r : string) (coll : list UserData.t)
    (d : UserData.t) :
  NoDup (map UserData._id coll) ->
  find_one (fun x => UserData.email x =? e) coll = Some d ->
  find_one (fun x => UserData.email x =? e)
    (update_one (has_id (UserData._id d)) (User.set_role r) coll)
  = Some (User.set_role r d).
Proof.
  unfold find_one.
  induction coll as [|x rest IH]; simpl; intros Hnd Hf; [discriminate|].
  inversion Hnd as [|? ? Hnotin Hnd']; subst.
  destruct (UserData.email x =? e) eqn:Ex.
  - injection Hf as <-. unfold has_id. rewrite Nat.eqb_refl. simpl.
    now rewrite Ex.
  - destruct (has_id (UserData._id d) x) eqn:Ei.
    + exfalso. apply Hnotin. unfold has_id in Ei. apply Nat.eqb_eq in Ei.
      rewrite Ei. apply in_map. apply (find_some _ _ Hf).
    + simpl. rewrite Ex. now apply IH.
Qed.

Lemma reconcile_reload (env : Environ) (e : string) (db0 : Db) (u : User.t) :
  NoDup (map UserData._id (users db0)) ->
  User.find_by_email e db0 = Some u ->
  User.find_by_email e (snd (snd (reconcile env (User.email u) u db0)))
  = Some (fst (snd (reconcile env (User.email u) u db0))).
Proof.
  intros Hnd Hu. rewrite reconcile_spec.
  destruct (Bool.eqb _ _); simpl; [exact Hu|].
  destruct (find_by_email_some _ _ _ Hu) as (Hne & d & Hd & He & ->).
  unfold User.find_by_email.
  apply truthy_true in Hne.
  assert (Py.truthy e = true) as ->.
  { apply truthy_true. intros ->. now apply truthy_true in Hne. }
  rewrite Hne. simpl.
  rewrite (update_role_reload _ _ _ d Hnd Hd). reflexivity.
Qed.

(** C8. Reconciling twice against the same allow-list: after the first run
    the stored role equals the effective role, and the second run writes
    nothing and reports [unchanged]; so [changed] is reported at most once.
    The same holds when the identity is looked up again in the store
    between the two runs, as two logins in a row do. *)
Theorem reconcile_idempotent (env : Environ) (u : User.t) (db0 : Db) :
  (let '(_, (u1, db1)) := reconcile env (User.email u) u db0 in
   User.get_stored_role u1 = User.role env u1
   /\ reconcile env (User.email u1) u1 db1 = (unchanged, (u1, db1)))
  /\ (forall e : string,
         NoDup (map UserData._id (users db0)) ->
         User.find_by_email e db0 = Some u ->
         let '(_, (_, db1)) := reconcile env (User.email u) u db0 in
         exists u1 : User.t,
           User.find_by_email e db1 = Some u1
           /\ User.get_stored_role u1 = User.role env u1
           /\ reconcile env (User.email u1) u1 db1 = (unchanged, (u1, db1))).
Proof.
  assert (let '(_, (u1, db1)) := reconcile env (User.email u) u db0 in
          User.get_stored_role u1 = User.role env u1
          /\ reconcile env (User.email u1) u1 db1 = (unchanged, (u1, db1)))
    as Hidem.
  { unfold reconcile, User.role, User.get_stored_role, User.update_role.
    destruct (is_admin_email env (User.email u)) eqn:E1,
      (User._role u =? "admin") eqn:E2; simpl; rewrite E1; simpl;
      try rewrite E2; simpl; split; try reflexivity.
    apply String.eqb_eq in E2. congruence. }
  split; [exact Hidem|].
  intros e Hnd Hu. pose proof (reconcile_reload env e db0 u Hnd Hu) as Hr.
  destruct (reconcile env (User.email u) u db0) as [o [u1 db1]].
  exists u1. simpl in Hr. split; [exact Hr | exact Hidem].
Qed.

Lemma reconcile_idempotent_witness :
  exists u1 : User.t,
    User.find_by_email "boss@x.com"
      (snd (snd (reconcile env_boss (User.email boss) boss db_boss))) = Some u1
    /\ User.get_stored_role u1 = "admin"
    /\ fst (reconcile env_boss (User.email u1) u1
              (snd (snd (reconcile env_boss (User.email boss) boss db_boss))))
       = unchanged.
Proof.
  pose proof (proj2 (reconcile_idempotent env_boss boss db_boss) "boss@x.com")
    as H.
  assert (NoDup (map UserData._id (users db_boss))) as Hnd.
  { simpl. constructor; [intros [] | constructor]. }
  specialize (H Hnd eq_refl).
  destruct (reconcile env_boss (User.email boss) boss db_boss)
    as [o [u0 db1]] eqn:E.
  destruct H as (u1 & H1 & H2 & H3).
  exists u1. simpl. split; [exact H1|]. split.
  - rewrite H2.
    injection E as _ _ E3. subst db1.
    vm_compute in H1. injection H1 as <-. reflexivity.
  - now rewrite H3.
Defined.

(** * Further properties of the code *)

(** ** Strings *)

Lemma rstrip_app_nonspace (t : string) (q : ascii) :
  Py.isspace q = false ->
  Py.rstrip (t ++ String q "") = t ++ String q "".
Proof.
  intros Hq. induction t as [|c t IH]; simpl.
  - now rewrite Hq.
  - rewrite IH. destruct t; reflexivity.
Qed.

Lemma endswith_app (t : string) (q : ascii) :
  Str.endswith q (t ++ String q "") = true.
Proof.
  induction t as [|c t IH]; simpl.
  - apply Ascii.eqb_refl.
  - destruct (t ++ String q "") eqn:E; [destruct t; discriminate | exact IH].
Qed.

Lemma drop_last_app (t : string) (q : ascii) :
  Str.drop_last (t ++ String q "") = t.
Proof.
  induction t as [|c t IH]; simpl; [reflexivity|].
  destruct (t ++ String q "") eqn:E; [destruct t; discriminate|].
  now rewrite IH.
Qed.

Lemma strip_all_nonspace (s : string) :
  string_forall (fun c => negb (Py.isspace c)) s = true -> Py.strip s = s.
Proof.
  intros H. unfold Py.strip.
  assert (Py.lstrip s = s) as ->.
  { destruct s as [|c r]; simpl in *; [reflexivity|].
    apply andb_true_iff in H. destruct H as [H _].
    apply negb_true_iff in H. now rewrite H. }
  induction s as [|c r IH]; simpl in *; [reflexivity|].
  apply andb_true_iff in H. destruct H as [Hc Hr].
  rewrite (IH Hr). apply negb_true_iff in Hc. rewrite Hc.
  now destruct r.
Qed.

Lemma strip_stripped_nonempty (s : string) :
  Py.strip s = s -> s <> "" -> Py.truthy s = true.
Proof. intros _ H. now apply truthy_true. Qed.

(** ** Cleaning a configuration value *)

Lemma clean_env_value_some (v : option string) (s : string) :
  clean_env_value v = Some s -> s <> "" /\ Py.strip s = s.
Proof.
  unfold clean_env_value. destruct v as [value|]; [|discriminate].
  destruct (Py.truthy value); simpl; [|discriminate].
  destruct ((Str.startswith dquote (Py.strip value)
             && Str.endswith dquote (Py.strip value))
            || (Str.startswith squote (Py.strip value)
                && Str.endswith squote (Py.strip value))).
  - destruct (Py.truthy (Py.strip (Str.slice_1_m1 (Py.strip value)))) eqn:E;
      [|discriminate].
    intros [= <-]. split; [now apply truthy_true | apply strip_idem].
  - destruct (Py.truthy (Py.strip value)) eqn:E; [|discriminate].
    intros [= <-]. split; [now apply truthy_true | apply strip_idem].
Qed.

Lemma clean_env_value_quoted (q : ascii) (s : string) :
  q = dquote \/ q = squote ->
  Py.strip s = s -> s <> "" ->
  clean_env_value (Some (String q (s ++ String q ""))) = Some s.
Proof.
  intros Hq Hs Hne.
  assert (Py.isspace q = false) as Hsp by (destruct Hq; subst; reflexivity).
  assert (Py.strip (String q (s ++ String q "")) = String q (s ++ String q ""))
    as Hstrip.
  { unfold Py.strip. simpl Py.lstrip. rewrite Hsp.
    change (String q (s ++ String q "")) with ((String q s) ++ String q "").
    now apply rstrip_app_nonspace. }
  unfold clean_env_value. simpl Py.truthy. cbv beta iota. simpl negb.
  cbv beta iota zeta. rewrite Hstrip.
  assert ((Str.startswith dquote (String q (s ++ String q ""))
           && Str.endswith dquote (String q (s ++ String q "")))
          || (Str.startswith squote (String q (s ++ String q ""))
              && Str.endswith squote (String q (s ++ String q ""))) = true)
    as ->.
  { change (String q (s ++ String q "")) with ((String q s) ++ String q "").
    destruct Hq; subst q.
    - rewrite endswith_app. reflexivity.
    - rewrite (endswith_app (String squote s) squote).
      change (Str.startswith squote (String squote s ++ String squote ""))
        with true.
      change (Str.startswith dquote (String squote s ++ String squote ""))
        with false.
      reflexivity. }
  simpl Str.slice_1_m1. rewrite drop_last_app, Hs.
  apply truthy_true in Hne. now rewrite Hne.
Qed.

(** X1. A cleaned configuration value is either absent or a non-empty
    string without surrounding white space: [None], the empty string and a
    blank string all clean to [None]. One layer of matching quotes, double or
    single, is taken off, so a quoted value cleans to the text between the
    quotes, and a value that is nothing but a pair of quotes, or a single
    quote character, cleans to [None]. *)
Theorem clean_env_value_clean :
  (forall (v : option string) (s : string),
      clean_env_value v = Some s -> s <> "" /\ Py.strip s = s)
  /\ (forall v : string, Py.strip v = "" -> clean_env_value (Some v) = None)
  /\ (forall (q : ascii) (s : string),
         q = dquote \/ q = squote ->
         Py.strip s = s -> s <> "" ->
         clean_env_value (Some (String q (s ++ String q ""))) = Some s)
  /\ (forall q : ascii,
         q = dquote \/ q = squote ->
         clean_env_value (Some (String q "")) = None
         /\ clean_env_value (Some (String q (String q ""))) = None).
Proof.
  split; [exact clean_env_value_some|].
  split; [|split; [exact clean_env_value_quoted|]].
  - intros v Hv. unfold clean_env_value.
    destruct (Py.truthy v); simpl; [|reflexivity].
    rewrite Hv. reflexivity.
  - intros q [->| ->]; split; reflexivity.
Qed.

Lemma clean_env_value_clean_witness :
  clean_env_value (Some (String dquote ("bhv@x.com" ++ String dquote "")))
  = Some "bhv@x.com"
  /\ clean_env_value (Some "   ") = None.
Proof.
  split.
  - apply (proj1 (proj2 (proj2 clean_env_value_clean))).
    + now left.
    + reflexivity.
    + discriminate.
  - apply (proj1 (proj2 clean_env_value_clean)). reflexivity.
Defined.

(** ** File names *)

Lemma rsplit1_no_sep (sep : ascii) (s : string) :
  Str.has_char sep s = false -> Str.rsplit1 sep s = [s].
Proof.
  induction s as [|x r IH]; simpl; [reflexivity|].
  intros H. apply orb_false_iff in H. destruct H as [Hx Hr].
  rewrite (IH Hr), Hx. reflexivity.
Qed.

Lemma rsplit1_last (sep : ascii) (base ext : string) :
  Str.has_char sep ext = false ->
  Str.rsplit1 sep (base ++ String sep ext) = [base; ext].
Proof.
  intros H. induction base as [|x b IH]; simpl.
  - rewrite (rsplit1_no_sep sep ext H), Ascii.eqb_refl. reflexivity.
  - rewrite IH. reflexivity.
Qed.

Lemma has_char_app (c : ascii) (a b : string) :
  Str.has_char c (a ++ b) = Str.has_char c a || Str.has_char c b.
Proof.
  induction a as [|x a IH]; simpl; [reflexivity|].
  now rewrite IH, orb_assoc.
Qed.

(** X2. [allowed_file] looks only at the text after the last dot, in lower
    case: a name without a dot is refused whatever the allowed set, and a
    name [base.ext] whose [ext] has no dot is allowed exactly when the
    lower-cased [ext] is in the set, so of several extensions only the last
    counts. *)
Theorem allowed_file_last_extension (allowed_extensions : list string) :
  (forall filename : string,
      Str.has_char "." filename = false ->
      allowed_file filename allowed_extensions = false)
  /\ (forall base ext : string,
         Str.has_char "." ext = false ->
         allowed_file (base ++ String "." ext) allowed_extensions
         = Py.contains (Py.lower ext) allowed_extensions).
Proof.
  split.
  - intros filename H. unfold allowed_file. now rewrite H.
  - intros base ext H. unfold allowed_file.
    rewrite has_char_app. simpl Str.has_char at 2.
    rewrite orb_true_r. simpl andb.
    now rewrite rsplit1_last.
Qed.

Lemma allowed_file_last_extension_witness :
  allowed_file ("holiday.photo" ++ String "." "PNG") ["png"; "jpg"] = true
  /\ allowed_file ("photo.png" ++ String "." "exe") ["png"; "jpg"] = false
  /\ allowed_file "README" ["png"; "jpg"] = false.
Proof.
  split; [|split].
  - rewrite (proj2 (allowed_file_last_extension ["png"; "jpg"])
               "holiday.photo" "PNG" eq_refl). reflexivity.
  - rewrite (proj2 (allowed_file_last_extension ["png"; "jpg"])
               "photo.png" "exe" eq_refl). reflexivity.
  - apply (proj1 (allowed_file_last_extension ["png"; "jpg"])). reflexivity.
Defined.

(** ** One-time codes as generated *)

Lemma choice_digit (r : nat) : is_digit (choice digits r) = true.
Proof.
  unfold choice. change (String.length digits) with 10%nat.
  assert (r mod 10 < 10)%nat as H by (apply Nat.mod_upper_bound; discriminate).
  remember (r mod 10)%nat as k eqn:E. clear E.
  do 10 (destruct k as [|k]; [reflexivity|]). lia.
Qed.

Lemma generate_otp_from_spec (rand : nat -> nat) (n i : nat) :
  String.length (generate_otp_from rand i n) = n
  /\ string_forall is_digit (generate_otp_from rand i n) = true.
Proof.
  revert i. induction n as [|n IH]; intros i; simpl; [now split|].
  destruct (IH (S i)) as [H1 H2]. rewrite H1, H2, choice_digit. now split.
Qed.

Lemma digit_not_space (c : ascii) :
  is_digit c = true -> negb (Py.isspace c) = true.
Proof.
  destruct c as [[] [] [] [] [] [] [] []]; vm_compute; intros H;
    first [reflexivity | discriminate H].
Qed.

Lemma string_forall_impl (p q : ascii -> bool) (s : string) :
  (forall c, p c = true -> q c = true) ->
  string_forall p s = true -> string_forall q s = true.
Proof.
  intros H. induction s as [|c r IH]; simpl; [trivial|].
  rewrite !andb_true_iff. intros [Hc Hr]. split; auto.
Qed.

(** X3. A generated code has exactly the requested length and consists of
    decimal digits only, whatever the random source draws; a code of the
    default length 6 therefore passes the validation of the verification
    form as it was generated (required, nothing to trim, length 6). *)
Theorem generate_otp_digits (rand : nat -> nat) :
  (forall length : nat,
      String.length (generate_otp rand length) = length
      /\ string_forall is_digit (generate_otp rand length) = true)
  /\ Py.strip (generate_otp rand 6) = generate_otp rand 6
  /\ OTPVerifyForm.validate_on_submit
       {| OTPVerifyForm.submitted := true;
          OTPVerifyForm.otp_code := generate_otp rand 6 |} = true.
Proof.
  split; [intros length; apply generate_otp_from_spec|].
  destruct (generate_otp_from_spec rand 6 0) as [Hlen Hdig].
  fold (generate_otp rand 6) in Hlen, Hdig.
  assert (Py.strip (generate_otp rand 6) = generate_otp rand 6) as Hs.
  { apply strip_all_nonspace.
    apply (string_forall_impl is_digit); [apply digit_not_space | exact Hdig]. }
  split; [exact Hs|].
  unfold OTPVerifyForm.validate_on_submit, data_required.
  cbn [OTPVerifyForm.submitted OTPVerifyForm.otp_code].
  rewrite Hs, Hlen.
  assert (Py.truthy (generate_otp rand 6) = true) as ->; [|reflexivity].
  apply truthy_true. intros C. rewrite C in Hlen. discriminate.
Qed.

(** ** Gates and redirects *)

(** X4. The verified-user gate and [login_required_custom] let through
    exactly the logged-in, verified actors and never fail on the anonymous
    user. Whoever passes the admin gate or the user-only gate also passes the
    verified-user gate, and an unverified actor gets the same answer from
    all three request-aware gates. *)
Theorem verified_gate_is_weakest
    (env : Environ) (request : Request) (actor : Actor) :
  allows (verified_user_required request actor) =
    match actor with
    | AnonymousUser => false
    | LoggedIn u => User.is_verified u
    end
  /\ allows (login_required_custom actor)
     = allows (verified_user_required request actor)
  /\ verified_user_required request actor <> AttributeError
  /\ login_required_custom actor <> AttributeError
  /\ (allows (admin_required env request actor) = true ->
      allows (verified_user_required request actor) = true)
  /\ (allows (user_only env request actor) = true ->
      allows (verified_user_required request actor) = true)
  /\ (forall u : User.t,
         actor = LoggedIn u -> User.is_verified u = false ->
         admin_required env request actor = deny_not_verified request
         /\ user_only env request actor = deny_not_verified request
         /\ verified_user_required request actor = deny_not_verified request).
Proof.
  destruct actor as [|u].
  - repeat split; try reflexivity; try discriminate.
  - unfold verified_user_required, login_required_custom, admin_required,
      user_only, login_required, verified_user_required_view,
      login_required_custom_view, admin_required_view, user_only_view,
      deny_not_verified. simpl.
    destruct (User.is_verified u) eqn:Ev; simpl;
      destruct (gate_is_admin env u); simpl;
      destruct (expects_json request); simpl;
      repeat split; try reflexivity; try congruence;
      intros; first [reflexivity | congruence].
Qed.

Lemma verified_gate_is_weakest_witness :
  admin_required env_boss api_call (LoggedIn (User.__init__ boss_pending_data))
  = Deny NotVerified None (jsonify "Email verification required" 403)
  /\ allows (verified_user_required page (LoggedIn boss)) = true.
Proof.
  destruct (verified_gate_is_weakest env_boss api_call
              (LoggedIn (User.__init__ boss_pending_data)))
    as (_ & _ & _ & _ & _ & _ & H).
  destruct (verified_gate_is_weakest env_boss page (LoggedIn boss))
    as (_ & _ & _ & _ & H5 & _).
  split.
  - exact (proj1 (H _ eq_refl eq_refl)).
  - apply H5. reflexivity.
Defined.

(** X5. A denial of a logged-in actor by the admin, user-only or
    verified-user gate is answered in the kind the request expects: a JSON
    error with status 403 and no flashed message for a JSON or [/api/]
    request, and a redirect with a flashed message otherwise. *)
Theorem gate_denials_answer_in_kind
    (env : Environ) (request : Request) (u : User.t) (g : Gate) :
  g = admin_required env request (LoggedIn u)
  \/ g = user_only env request (LoggedIn u)
  \/ g = verified_user_required request (LoggedIn u) ->
  match g with
  | Deny _ flashed response =>
      if expects_json request
      then flashed = None /\ exists e : string, response = jsonify e 403
      else (exists f : Flash, flashed = Some f)
           /\ exists endpoint : string, response = redirect endpoint
  | Allow => True
  | AttributeError => False
  end.
Proof.
  intros [-> | [-> | ->]];
    unfold admin_required, user_only, verified_user_required, login_required,
      admin_required_view, user_only_view, verified_user_required_view,
      deny_not_verified; simpl;
    destruct (User.is_verified u); simpl;
    try destruct (gate_is_admin env u); simpl;
    destruct (expects_json request); simpl; eauto.
Qed.

Lemma gate_denials_answer_in_kind_witness :
  exists e : string,
    user_only env_boss api_call (LoggedIn boss)
    = Deny Forbidden None (jsonify e 403).
Proof.
  pose proof (gate_denials_answer_in_kind env_boss api_call boss
                (user_only env_boss api_call (LoggedIn boss))
                (or_intror (or_introl eq_refl))) as H.
  vm_compute in H. destruct H as [_ [e He]].
  exists e. vm_compute. f_equal. injection He as <-. reflexivity.
Defined.

(** X6. The redirects lead a verified actor to a page that lets the actor
    in. The home page sends an admin to the dashboard and anyone else to the
    gallery, and the gate of that page allows them; when the admin gate
    turns a verified non-admin away from a page it redirects to the gallery,
    which the user-only gate opens to that actor, and when the user-only
    gate turns a verified admin away it redirects to the dashboard, which
    the admin gate opens. The anonymous user is sent to the login page. *)
Theorem redirects_reach_an_open_gate
    (env : Environ) (request : Request) (u : User.t) :
  User.is_verified u = true ->
  (exists (endpoint : string) (g : Actor -> Gate),
      index_route env (LoggedIn u) = redirect endpoint
      /\ gate_of env request endpoint = Some g
      /\ allows (g (LoggedIn u)) = true)
  /\ (expects_json request = false ->
      forall (gate : Actor -> Gate) (r : Response),
        gate = admin_required env request \/ gate = user_only env request ->
        gate_response (gate (LoggedIn u)) = Some r ->
        exists (endpoint : string) (g : Actor -> Gate),
          r = redirect endpoint
          /\ gate_of env request endpoint = Some g
          /\ allows (g (LoggedIn u)) = true)
  /\ index_route env AnonymousUser = redirect "auth.login".
Proof.
  intros Hv. split; [|split; [|reflexivity]].
  - unfold index_route. rewrite role_is_admin.
    destruct (gate_is_admin env u) eqn:Ea.
    + exists "admin.dashboard", (admin_required env request).
      repeat split.
      unfold admin_required, login_required, admin_required_view. simpl.
      now rewrite Hv, Ea.
    + exists "uploads.gallery", (user_only env request).
      repeat split.
      unfold user_only, login_required, user_only_view. simpl.
      now rewrite Hv, Ea.
  - intros Hj gate r [-> | ->];
      unfold admin_required, user_only, login_required, admin_required_view,
        user_only_view; simpl; rewrite Hv; simpl;
      destruct (gate_is_admin env u) eqn:Ea; simpl; rewrite ?Hj; simpl;
      try discriminate; intros [= <-].
    + exists "uploads.gallery", (user_only env request).
      repeat split.
      unfold user_only, login_required, user_only_view. simpl.
      now rewrite Hv, Ea.
    + exists "admin.dashboard", (admin_required env request).
      repeat split.
      unfold admin_required, login_required, admin_required_view. simpl.
      now rewrite Hv, Ea.
Qed.

Lemma redirects_reach_an_open_gate_witness :
  exists (endpoint : string) (g : Actor -> Gate),
    index_route env_boss (LoggedIn boss) = redirect endpoint
    /\ gate_of env_boss page endpoint = Some g
    /\ allows (g (LoggedIn boss)) = true.
Proof.
  exact (proj1 (redirects_reach_an_open_gate env_boss page boss eq_refl)).
Defined.

(** ** The allow-list as configured *)

Lemma collect_emails_filter (entries emails : list string) :
  collect_emails entries emails =
  (emails ++ map Py.lower (filter Py.truthy (map Py.strip entries)))%list.
Proof.
  revert emails. induction entries as [|e rest IH]; intros emails; simpl.
  - now rewrite app_nil_r.
  - destruct (Py.truthy (Py.strip e)); rewrite IH; simpl;
      [now rewrite <- app_assoc | reflexivity].
Qed.

Lemma in_collected (n : string) (entries : list string) :
  In n (map Py.lower (filter Py.truthy (map Py.strip entries))) <->
  exists x : string,
    In x entries /\ Py.strip x <> "" /\ Py.lower (Py.strip x) = n.
Proof.
  rewrite in_map_iff. split.
  - intros (s & Hs & Hin). apply filter_In in Hin. destruct Hin as [Hin Ht].
    apply in_map_iff in Hin. destruct Hin as (x & <- & Hx).
    exists x. repeat split; [exact Hx | now apply truthy_true | exact Hs].
  - intros (x & Hx & Hne & Hn). exists (Py.strip x). split; [exact Hn|].
    apply filter_In. split; [now apply in_map | now apply truthy_true].
Qed.

(** X7. What the configuration means. When [ADMIN_EMAILS] is not blank, an
    address is admin exactly when, trimmed and lower-cased, it equals the
    trimmed, lower-cased text of one of the comma-separated entries, blank
    entries being skipped; [ADMIN_EMAIL] is then not consulted at all. When
    [ADMIN_EMAILS] is blank or unset, an address is admin exactly when it
    equals, trimmed and lower-cased, the single non-blank [ADMIN_EMAIL]. *)
Theorem allow_list_as_configured (env : Environ) (e : string) :
  (Py.strip (environ_get env "ADMIN_EMAILS" "") <> "" ->
   (is_admin_email env e = true <->
    exists x : string,
      In x (listed_entries env) /\ Py.strip x <> ""
      /\ Py.lower (Py.strip x) = Py.lower (Py.strip e)))
  /\ (Py.strip (environ_get env "ADMIN_EMAILS" "") = "" ->
      (is_admin_email env e = true <->
       Py.strip (environ_get env "ADMIN_EMAIL" "") <> ""
       /\ Py.lower (Py.strip e)
          = Py.lower (Py.strip (environ_get env "ADMIN_EMAIL" ""))))
  /\ (forall env' : Environ,
         Py.strip (environ_get env "ADMIN_EMAILS" "") <> "" ->
         environ_get env' "ADMIN_EMAILS" "" = environ_get env "ADMIN_EMAILS" "" ->
         is_admin_email env' e = is_admin_email env e).
Proof.
  assert (forall env0 : Environ,
             Py.strip (environ_get env0 "ADMIN_EMAILS" "") <> "" ->
             (is_admin_email env0 e = true <->
              exists x : string,
                In x (listed_entries env0) /\ Py.strip x <> ""
                /\ Py.lower (Py.strip x) = Py.lower (Py.strip e))) as Hlist.
  { intros env0 Hne. rewrite is_admin_email_spec. unfold get_admin_emails.
    apply truthy_true in Hne. rewrite Hne. simpl negb. cbv iota.
    rewrite collect_emails_filter. simpl app. rewrite in_collected.
    fold (listed_entries env0). split.
    - intros [_ H]. exact H.
    - intros (x & Hx & Hxne & Hn). split; [|now exists x].
      rewrite <- Hn. intros C. now apply lower_empty in C. }
  split; [apply Hlist|]. split.
  - intros Hb. rewrite is_admin_email_spec. unfold get_admin_emails.
    rewrite Hb. simpl negb. cbv iota.
    destruct (Py.truthy (Py.strip (environ_get env "ADMIN_EMAIL" ""))) eqn:E.
    + apply truthy_true in E. simpl. split.
      * intros [_ [H|[]]]. now split.
      * intros [_ H]. split; [|now left].
        rewrite H. intros C. now apply lower_empty in C.
    + apply truthy_false in E. simpl. split; [intros [_ []]|].
      intros [H _]. now elim H.
  - intros env' Hne He. apply eq_true_iff_eq.
    rewrite (Hlist env Hne).
    assert (Py.strip (environ_get env' "ADMIN_EMAILS" "") <> "") as Hne'
        by now rewrite He.
    rewrite (Hlist env' Hne'). unfold listed_entries. now rewrite He.
Qed.

Lemma allow_list_as_configured_witness :
  is_admin_email env_boss " ROOT@X.com " = true.
Proof.
  apply (proj1 (allow_list_as_configured env_boss " ROOT@X.com ")).
  - discriminate.
  - exists " root@x.com". split; [|split].
    + vm_compute. right. left. reflexivity.
    + discriminate.
    + reflexivity.
Defined.

(** ** Looking identities up *)

(** X8. Lookup by address ignores case and surrounding white space: two
    queries that agree once trimmed and lower-cased get the same answer, a
    blank query finds nothing, and the address of the identity found is the
    trimmed, lower-cased query. *)
Theorem find_by_email_normalizes (db0 : Db) :
  (forall e1 e2 : string,
      Py.lower (Py.strip e1) = Py.lower (Py.strip e2) ->
      User.find_by_email e1 db0 = User.find_by_email e2 db0)
  /\ (forall e : string, Py.strip e = "" -> User.find_by_email e db0 = None)
  /\ (forall (e : string) (u : User.t),
         User.find_by_email e db0 = Some u ->
         User.email u = Py.lower (Py.strip e)).
Proof.
  assert (forall e : string,
             User.find_by_email e db0 =
             if Py.truthy (Py.lower (Py.strip e))
             then option_map User.__init__
                    (find_one (fun d => UserData.email d =? Py.lower (Py.strip e))
                       (users db0))
             else None) as Hform.
  { intros e. unfold User.find_by_email.
    destruct (Py.truthy e) eqn:E; simpl.
    - now destruct (Py.truthy (Py.lower (Py.strip e))).
    - apply truthy_false in E. subst e. reflexivity. }
  split; [|split].
  - intros e1 e2 H. now rewrite (Hform e1), (Hform e2), H.
  - intros e H. rewrite Hform, H. reflexivity.
  - intros e u. apply find_by_email_email.
Qed.

Lemma find_by_email_normalizes_witness :
  User.find_by_email "  EVE@x.com " db_eve = User.find_by_email "eve@x.com" db_eve
  /\ User.find_by_email "   " db_eve = None.
Proof.
  split.
  - apply (proj1 (find_by_email_normalizes db_eve)). reflexivity.
  - apply (proj1 (proj2 (find_by_email_normalizes db_eve))). reflexivity.
Defined.

(** ** Password login *)

(** X9. [login] opens a session only for a verified identity whose
    password matched: whenever it changes the session, the identity found
    under the submitted address is verified, its password check succeeded,
    and the session now carries that identity's id and nothing else
    changed in it. *)
Theorem login_session_only_for_verified
    (bcrypt : Bcrypt) (Email : string -> bool) (env : Environ)
    (form : LoginForm.t) (next_page : option string) (w : World) :
  session (snd (login bcrypt Email env form next_page w)) <> session w ->
  exists user : User.t,
    User.find_by_email (LoginForm.email form) (db w) = Some user
    /\ User.check_password bcrypt user (LoginForm.password form) = true
    /\ User.is_verified user = true
    /\ session (snd (login bcrypt Email env form next_page w))
       = {| pending_email := pending_email (session w);
            _user_id := Some (User.id user) |}.
Proof.
  unfold login.
  destruct (is_authenticated (current_user w)); [intros H; now elim H|].
  destruct (LoginForm.validate_on_submit Email form);
    [|intros H; now elim H].
  destruct (User.find_by_email (LoginForm.email form) (db w)) as [user|];
    [|intros H; now elim H].
  destruct (User.check_password bcrypt user (LoginForm.password form)) eqn:Ec;
    [|intros H; now elim H].
  destruct (User.is_verified user) eqn:Ev; simpl negb; cbv iota;
    [|intros H; now elim H].
  rewrite reconcile_spec.
  destruct (Bool.eqb _ _); simpl; intros _; exists user; repeat split;
    assumption.
Qed.

Lemma login_session_only_for_verified_witness :
  exists user : User.t,
    User.find_by_email (LoginForm.email boss_login) (db w_boss) = Some user
    /\ User.check_password toy_bcrypt user (LoginForm.password boss_login) = true
    /\ User.is_verified user = true
    /\ session (snd (login toy_bcrypt any_email env_boss boss_login None w_boss))
       = {| pending_email := pending_email (session w_boss);
            _user_id := Some (User.id user) |}.
Proof.
  apply (login_session_only_for_verified toy_bcrypt any_email env_boss
           boss_login None w_boss).
  vm_compute. discriminate.
Defined.

(** X10. A failed password login gives one and the same answer, the login
    page with "Invalid email or password.", whether the address is unknown,
    the password is wrong, or the identity has no password at all (it was
    created by federated login); the store and the session are left as they
    were. *)
Theorem login_refusals_look_alike
    (bcrypt : Bcrypt) (Email : string -> bool) (env : Environ)
    (form : LoginForm.t) (next_page : option string) (w : World) :
  is_authenticated (current_user w) = false ->
  LoginForm.validate_on_submit Email form = true ->
  User.find_by_email (LoginForm.email form) (db w) = None
  \/ (exists user : User.t,
         User.find_by_email (LoginForm.email form) (db w) = Some user
         /\ (User.password_hash user = None
             \/ User.check_password bcrypt user (LoginForm.password form)
                = false)) ->
  login bcrypt Email env form next_page w = login_refused w
  /\ db (snd (login bcrypt Email env form next_page w)) = db w
  /\ session (snd (login bcrypt Email env form next_page w)) = session w.
Proof.
  intros Hauth Hv H.
  assert (login bcrypt Email env form next_page w = login_refused w) as E.
  { unfold login. rewrite Hauth, Hv.
    destruct H as [-> | (user & -> & Hp)]; [reflexivity|].
    assert (User.check_password bcrypt user (LoginForm.password form) = false)
      as ->; [|reflexivity].
    destruct Hp as [Hp | Hp]; [|exact Hp].
    unfold User.check_password. now rewrite Hp. }
  rewrite E. repeat split.
Qed.

Lemma login_refusals_look_alike_witness :
  login toy_bcrypt any_email env_unset gina_login None w_gina
  = login_refused w_gina.
Proof.
  apply (login_refusals_look_alike toy_bcrypt any_email env_unset gina_login
           None w_gina eq_refl eq_refl).
  right. exists (User.__init__ gina_data). split; [reflexivity|].
  left. reflexivity.
Defined.

(** ** Using a code *)

Lemma find_update_one_other {A : Type} (g p : A -> bool) (f : A -> A)
    (coll : list A) :
  (forall d, p d = true -> g d = false) ->
  (forall d, p d = true -> g (f d) = false) ->
  find g (update_one p f coll) = find g coll.
Proof.
  intros H1 H2. induction coll as [|d rest IH]; simpl; [reflexivity|].
  destruct (p d) eqn:Ep; simpl.
  - now rewrite (H1 d Ep), (H2 d Ep).
  - now rewrite IH.
Qed.

Lemma update_one_no_match {A : Type} (p : A -> bool) (f : A -> A)
    (coll : list A) :
  filter p coll = [] -> update_one p f coll = coll.
Proof.
  induction coll as [|d rest IH]; simpl; [reflexivity|].
  destruct (p d); [discriminate|]. intros H. now rewrite IH.
Qed.

Lemma same_code_eq (email otp_code : string) (d : OtpData.t) :
  OTP.same_code email otp_code d = true ->
  OtpData.email d = email /\ OtpData.otp_code d = otp_code.
Proof.
  unfold OTP.same_code. rewrite andb_true_iff, !String.eqb_eq. tauto.
Qed.

(** X11. Using a code leaves every other code as valid as it was: after
    [mark_used] for one address and code, the validity of any other address
    or code is unchanged at every time, so several outstanding codes for one
    address stay usable one after the other. The user collection is not
    touched, and marking a code that has no record changes nothing. *)
Theorem mark_used_leaves_other_codes
    (cfg : Config) (now : Z) (email otp_code : string) (db0 : Db) :
  (forall email' otp_code' : string,
      email' <> email \/ otp_code' <> otp_code ->
      OTP.find_valid cfg now email' otp_code'
        (OTP.mark_used email otp_code db0)
      = OTP.find_valid cfg now email' otp_code' db0)
  /\ users (OTP.mark_used email otp_code db0) = users db0
  /\ (records_for email otp_code db0 = [] ->
      OTP.mark_used email otp_code db0 = db0).
Proof.
  split; [|split; [reflexivity|]].
  - intros email' otp_code' Hne. unfold OTP.find_valid, find_one. simpl.
    rewrite find_update_one_other; [reflexivity| |].
    + intros d Hd.
      destruct (OTP.valid_filter _ email' otp_code' d) eqn:Ev; [|reflexivity].
      apply valid_filter_same_code in Ev.
      apply same_code_eq in Hd, Ev. destruct Hd, Ev, Hne; congruence.
    + intros d Hd. unfold OTP.valid_filter, OTP.set_used. simpl.
      now rewrite andb_false_r.
  - unfold records_for, OTP.mark_used. intros H.
    rewrite (update_one_no_match _ _ _ H). now destruct db0.
Qed.

Lemma mark_used_leaves_other_codes_witness :
  OTP.find_valid cfg10 2000 "a@x.com" "222222"
    (OTP.mark_used "a@x.com" "123456" db_two_codes) = true.
Proof.
  rewrite (proj1 (mark_used_leaves_other_codes cfg10 2000%Z "a@x.com" "123456"
                    db_two_codes) "a@x.com" "222222").
  - reflexivity.
  - right. discriminate.
Defined.

(** ** Creating and finding identities *)

Lemma find_app_none {A : Type} (g : A -> bool) (l : list A) (x : A) :
  find g l = None -> find g (l ++ [x]) = if g x then Some x else None.
Proof.
  induction l as [|y l IH]; simpl; [reflexivity|].
  destruct (g y); [discriminate | exact IH].
Qed.

Lemma find_app_some {A : Type} (g : A -> bool) (l l' : list A) (d : A) :
  find g l = Some d -> find g (l ++ l') = Some d.
Proof.
  induction l as [|y l IH]; simpl; [discriminate|].
  destruct (g y); [trivial | exact IH].
Qed.

Lemma find_has_id_none (coll : list UserData.t) (i : nat) :
  (forall d, In d coll -> UserData._id d <> i) ->
  find (has_id i) coll = None.
Proof.
  intros H. destruct (find (has_id i) coll) as [d|] eqn:E; [|reflexivity].
  apply find_some in E. destruct E as [Hin Hid].
  unfold has_id in Hid. apply Nat.eqb_eq in Hid. now elim (H d Hin).
Qed.

Lemma find_by_email_form (e : string) (db0 : Db) :
  Py.lower (Py.strip e) <> "" ->
  User.find_by_email e db0 =
  option_map User.__init__
    (find (fun d => UserData.email d =? Py.lower (Py.strip e)) (users db0)).
Proof.
  intros H. unfold User.find_by_email, find_one.
  assert (Py.truthy e = true) as ->.
  { apply truthy_true. intros ->. now elim H. }
  apply truthy_true in H. now rewrite H.
Qed.

(** X12. Creating an identity and looking it up: when the address is not
    blank and no identity has it yet, [User.create] appends one document,
    and afterwards lookup by that address and lookup by the new id both
    return the very object [create] returned, whose address is the trimmed,
    lower-cased input; identities that could be found by address before are
    still found, unchanged. *)
Theorem create_then_find
    (bcrypt : Bcrypt) (env : Environ) (now : Z) (salt email : string)
    (password role google_id : option string) (db0 : Db) :
  Py.lower (Py.strip email) <> "" ->
  User.find_by_email email db0 = None ->
  let r := User.create bcrypt env now salt email password role google_id db0 in
  User.find_by_email email (snd r) = Some (fst r)
  /\ User.find_by_id (User.id (fst r)) (snd r) = Some (fst r)
  /\ User.email (fst r) = Py.lower (Py.strip email)
  /\ List.length (users (snd r)) = S (List.length (users db0))
  /\ (forall (e : string) (u : User.t),
         User.find_by_email e db0 = Some u ->
         User.find_by_email e (snd r) = Some u).
Proof.
  intros Hne Hnone. cbv zeta.
  assert (Py.truthy email = true) as Ht.
  { apply truthy_true. intros ->. now elim Hne. }
  pose proof Hne as Hne'. apply truthy_true in Hne'.
  rewrite (find_by_email_form email db0 Hne) in Hnone.
  destruct (find _ (users db0)) as [x|] eqn:F; [discriminate|].
  unfold User.create. rewrite Ht. cbv beta iota zeta.
  cbn [fst snd users].
  split; [|split; [|split; [|split]]].
  - rewrite (find_by_email_form email _ Hne). cbn [users].
    unfold insert_one. rewrite (find_app_none _ _ _ F).
    cbn [UserData.email]. rewrite String.eqb_refl. reflexivity.
  - unfold User.find_by_id, find_one. cbn [users User.__init__ User.id
      UserData._id].
    unfold insert_one. rewrite find_app_none.
    + unfold has_id. cbn [UserData._id]. rewrite Nat.eqb_refl. reflexivity.
    + apply find_has_id_none. intros d Hd.
      pose proof (inserted_id_fresh _ _ Hd). lia.
  - cbn [User.__init__ User.email UserData.email].
    rewrite Hne'. apply normalize_idem.
  - unfold insert_one. rewrite length_app. simpl. lia.
  - intros e u Hu.
    destruct (find_by_email_some _ _ _ Hu) as (He & d & Hd & _ & ->).
    rewrite (find_by_email_form e _ He). cbn [users].
    unfold insert_one, find_one in *. now rewrite (find_app_some _ _ _ _ Hd).
Qed.

Lemma create_then_find_witness :
  let r := User.create toy_bcrypt env_boss 7000 "salt" " Root@X.com"
             (Some "secret7") None None db_boss in
  User.find_by_email " Root@X.com" (snd r) = Some (fst r)
  /\ User.email (fst r) = "root@x.com".
Proof.
  destruct (create_then_find toy_bcrypt env_boss 7000%Z "salt" " Root@X.com"
              (Some "secret7") None None db_boss)
    as (H1 & _ & H3 & _); [discriminate | reflexivity |].
  split; [exact H1 | exact H3].
Defined.

(** ** Addresses stay unique *)

Lemma emails_update_one (p : UserData.t -> bool) (f : UserData.t -> UserData.t)
    (coll : list UserData.t) :
  (forall d, UserData.email (f d) = UserData.email d) ->
  emails (update_one p f coll) = emails coll.
Proof. intros H. unfold emails. now apply map_update_one. Qed.

Lemma emails_reconcile (env : Environ) (a : string) (u : User.t) (db0 : Db) :
  emails (users (snd (snd (reconcile env a u db0)))) = emails (users db0).
Proof.
  rewrite reconcile_spec. destruct (Bool.eqb _ _); simpl; [reflexivity|].
  now apply emails_update_one.
Qed.

Lemma emails_verify (u : User.t) (db0 : Db) :
  emails (users (snd (User.verify u db0))) = emails (users db0).
Proof. simpl. now apply emails_update_one. Qed.

Lemma find_by_email_none_not_in (e : string) (db0 : Db) :
  Py.lower (Py.strip e) <> "" ->
  User.find_by_email e db0 = None ->
  ~ In (Py.lower (Py.strip e)) (emails (users db0)).
Proof.
  intros Hne Hnone Hin. rewrite (find_by_email_form e db0 Hne) in Hnone.
  destruct (find _ (users db0)) as [x|] eqn:F; [discriminate|].
  unfold emails in Hin. apply in_map_iff in Hin.
  destruct Hin as (d & Hd & Hin).
  pose proof (find_none _ _ F d Hin) as C. simpl in C.
  rewrite Hd, String.eqb_refl in C. discriminate.
Qed.

Lemma emails_create (bcrypt : Bcrypt) (env : Environ) (now : Z)
    (salt email : string) (password role google_id : option string)
    (db0 : Db) :
  Py.lower (Py.strip email) <> "" ->
  User.find_by_email email db0 = None ->
  emails_step (users db0)
    (users (snd (User.create bcrypt env now salt email password role
                   google_id db0))).
Proof.
  intros Hne Hnone. right. exists (Py.lower (Py.strip email)).
  assert (Py.truthy email = true) as Ht.
  { apply truthy_true. intros ->. now elim Hne. }
  split; [|split; [apply normalize_idem | split; [exact Hne|]]].
  - unfold User.create. simpl. rewrite Ht.
    unfold emails, insert_one. now rewrite map_app.
  - now apply find_by_email_none_not_in.
Qed.

Lemma emails_step_then (coll coll' coll'' : list UserData.t) :
  emails_step coll coll' -> emails coll'' = emails coll' ->
  emails_step coll coll''.
Proof.
  intros [H | (e & H & Hr)] E; [left | right; exists e; split; [|exact Hr]];
    congruence.
Qed.

Lemma emails_step_ok (db0 db1 : Db) :
  emails_step (users db0) (users db1) -> emails_ok db0 -> emails_ok db1.
Proof.
  unfold emails_ok. fold (emails (users db0)) (emails (users db1)).
  intros [H | (e & H & Hn & Hne & Hnin)] [Hnd Hall]; rewrite H.
  - now split.
  - split.
    + clear H Hall. induction (emails (users db0)) as [|x l IH]; simpl.
      * constructor; [intros [] | constructor].
      * inversion Hnd as [|? ? Hx Hl]; subst. constructor.
        -- rewrite in_app_iff. intros [C | [C | []]]; [now elim Hx|].
           subst. apply Hnin. now left.
        -- apply IH; [|exact Hl]. intros C. apply Hnin. now right.
    + apply Forall_app. split; [exact Hall|]. constructor; [now split|].
      constructor.
Qed.

Lemma register_emails_step (cfg : Config) (bcrypt : Bcrypt)
    (Email : string -> bool) (env : Environ) (now : Z) (form : RegisterForm.t)
    (salt otp_code : string) (net : Delivery) (w : World) :
  emails_step (users (db w))
    (users (db (snd (register cfg bcrypt Email env now form salt otp_code
                       net w)))).
Proof.
  unfold register.
  destruct (is_authenticated (current_user w)); [now left|].
  destruct (RegisterForm.validate_on_submit Email form (db w)) eqn:Hv;
    [|now left].
  destruct (validate_register _ _ _ Hv) as (Ht & Hve & _).
  apply truthy_true in Ht.
  destruct (validate_email_none _ _ Hve) as [Hn | (u & Hu & Hver)].
  - rewrite (register_valid_new _ _ _ _ _ _ _ _ _ Hn).
    match goal with
    | |- context [issue_otp ?c ?n ?e ?o ?t ?w0] =>
        destruct (issue_otp_effect c n e o t w0) as (_ & -> & _)
    end.
    cbn [OTP.create users with_db db].
    apply emails_create; [|exact Hn].
    unfold register_email in *. now rewrite normalize_idem.
  - rewrite (register_valid_existing _ _ _ _ _ _ _ _ _ u Hu Hver).
    match goal with
    | |- context [issue_otp ?c ?n ?e ?o ?t ?w0] =>
        destruct (issue_otp_effect c n e o t w0) as (_ & -> & _)
    end.
    left. simpl. now apply emails_update_one.
Qed.

Lemma login_emails (bcrypt : Bcrypt) (Email : string -> bool) (env : Environ)
    (form : LoginForm.t) (next_page : option string) (w : World) :
  emails (users (db (snd (login bcrypt Email env form next_page w))))
  = emails (users (db w)).
Proof.
  unfold login.
  destruct (is_authenticated (current_user w)); [reflexivity|].
  destruct (LoginForm.validate_on_submit Email form); [|reflexivity].
  destruct (User.find_by_email _ (db w)) as [u|]; [|reflexivity].
  destruct (User.check_password bcrypt u _); [|reflexivity].
  destruct (negb (User.is_verified u)); [reflexivity|].
  pose proof (emails_reconcile env (User.email u) u (db w)) as K.
  destruct (reconcile env (User.email u) u (db w)) as [o [u' db']].
  exact K.
Qed.

Lemma verify_otp_emails (cfg : Config) (env : Environ) (now : Z)
    (form : OTPVerifyForm.t) (w : World) :
  emails (users (db (snd (verify_otp cfg env now form w))))
  = emails (users (db w)).
Proof.
  unfold verify_otp.
  destruct (is_authenticated (current_user w)); [reflexivity|].
  destruct (negb (truthy_opt (pending_email (session w)))); [reflexivity|].
  destruct (OTPVerifyForm.validate_on_submit form); [|reflexivity].
  destruct (OTP.find_valid cfg now _ _ (db w)); [|reflexivity].
  cbn [with_db db].
  destruct (User.find_by_email _ _) as [u|]; [|reflexivity].
  match goal with
  | |- context [reconcile env ?a ?x ?y] =>
      pose proof (emails_reconcile env a x y) as K;
      destruct (reconcile env a x y) as [o [u' db']]
  end.
  pose proof (emails_verify u' db') as K2.
  destruct (User.verify u' db') as [u2 db2].
  simpl in *. congruence.
Qed.

Lemma google_callback_emails_step (bcrypt : Bcrypt) (env : Environ) (now : Z)
    (token : option UserInfo) (w : World) :
  op_has_address (op_google_callback token) = true ->
  emails_step (users (db w))
    (users (db (snd (google_callback bcrypt env now token w)))).
Proof.
  destruct token as [user_info|]; [|now left].
  simpl. intros Ha. apply truthy_true in Ha.
  unfold google_callback, find_or_create_user_google.
  destruct (User.find_by_google_id (sub user_info) (db w)) as [u|].
  - left.
    pose proof (emails_reconcile env (User.email u) u (db w)) as K.
    destruct (reconcile env (User.email u) u (db w)) as [o [u' db']].
    exact K.
  - destruct (User.find_by_email (info_email user_info) (db w)) as [u|] eqn:Ee.
    + left. cbv beta iota.
      match goal with
      | |- context [reconcile env ?a ?x ?y] =>
          pose proof (emails_reconcile env a x y) as K;
          destruct (reconcile env a x y) as [o [u' db']]
      end.
      simpl in *. rewrite K. now apply emails_update_one.
    + pose proof (emails_create bcrypt env now "" (info_email user_info) None
                    None (Some (sub user_info)) (db w) Ha Ee) as K1.
      destruct (User.create bcrypt env now "" (info_email user_info) None None
                  (Some (sub user_info)) (db w)) as [u1 db1].
      pose proof (emails_reconcile env (User.email u1) u1 db1) as K2.
      destruct (reconcile env (User.email u1) u1 db1) as [o [u' db']].
      simpl in *. eapply emails_step_then; [exact K1 | exact K2].
Qed.

Lemma create_admin_user_emails_step (bcrypt : Bcrypt) (env : Environ)
    (now : Z) (email password salt : string) (db0 : Db) :
  emails_step (users db0)
    (users (snd (create_admin_user bcrypt env now email password salt db0))).
Proof.
  unfold create_admin_user.
  destruct (is_admin_email env email) eqn:Ea; simpl negb; cbv iota;
    [|now left].
  apply is_admin_email_spec in Ea. destruct Ea as [Hne _].
  destruct (User.find_by_email email db0) as [u|] eqn:Ee.
  - destruct (User.is_admin env u); [|now left].
    destruct (negb (User.is_verified u)); [|now left].
    left. apply emails_verify.
  - pose proof (emails_create bcrypt env now salt email (Some password)
                  (Some "admin") None db0 Hne Ee) as K.
    destruct (User.create _ _ _ _ _ _ _ _ db0) as [admin db1].
    eapply emails_step_then; [exact K | apply emails_verify].
Qed.

Lemma seed_database_emails_step (bcrypt : Bcrypt) (env : Environ) (now : Z)
    (salt : string) (db0 : Db) :
  emails_step (users db0) (users (seed_database bcrypt env now salt db0)).
Proof.
  unfold seed_database.
  destruct (User.find_by_email "user@example.com" db0) as [u|] eqn:Ee;
    [now left|].
  assert (Py.lower (Py.strip "user@example.com") <> "") as Hne by discriminate.
  pose proof (emails_create bcrypt env now salt "user@example.com"
                (Some "user123") (Some "user") None db0 Hne Ee) as K.
  destruct (User.create _ _ _ _ _ _ _ _ db0) as [test_user db1].
  eapply emails_step_then; [exact K | apply emails_verify].
Qed.

Lemma not_NoDup_snoc {A : Type} (l : list A) (x : A) :
  In x l -> ~ NoDup (l ++ [x]).
Proof.
  induction l as [|y l IH]; simpl; [intros []|].
  intros [-> | H] Hnd; inversion Hnd as [|? ? Hy Hl]; subst.
  - apply Hy. rewrite in_app_iff. right. now left.
  - now apply IH.
Qed.

(** X13. Addresses stay unique. If the addresses of the store are trimmed,
    lower-cased, non-empty and pairwise different, they still are after any
    registration, login, code verification, federated login that comes
    with a non-blank address, or run of an administrative script: each of
    them either leaves the list of addresses as it is or appends one new
    normalized address. A federated login without an address is the one
    exception: when its subject is unknown it always appends an identity
    with the empty address, so a second such login leaves two identities
    with the same, empty address. *)
Theorem emails_stay_unique
    (cfg : Config) (bcrypt : Bcrypt) (Email : string -> bool)
    (env : Environ) (now : Z) (op : Op) (w : World) :
  (emails_ok (db w) ->
   op_has_address op = true ->
   emails_step (users (db w)) (users (db (run cfg bcrypt Email env now op w)))
   /\ emails_ok (db (run cfg bcrypt Email env now op w)))
  /\ (forall user_info : UserInfo,
         info_email user_info = "" ->
         User.find_by_google_id (sub user_info) (db w) = None ->
         let w' := snd (google_callback bcrypt env now (Some user_info) w) in
         emails (users (db w')) = (emails (users (db w)) ++ [""])%list
         /\ (In "" (emails (users (db w))) ->
             ~ NoDup (emails (users (db w'))))).
Proof.
  split.
  - intros Hok Ha.
    assert (emails_step (users (db w))
              (users (db (run cfg bcrypt Email env now op w)))) as Hstep.
    { destruct op as [form salt otp_code net | form next_page | form | token
                     | email password salt | salt]; simpl.
      - apply register_emails_step.
      - left. apply login_emails.
      - left. apply verify_otp_emails.
      - now apply google_callback_emails_step.
      - apply create_admin_user_emails_step.
      - apply seed_database_emails_step. }
    split; [exact Hstep | now apply (emails_step_ok (db w))].
  - intros user_info Hblank Hg. cbv zeta.
    assert (emails (users (db (snd (google_callback bcrypt env now
                                      (Some user_info) w))))
            = (emails (users (db w)) ++ [""])%list) as E.
    { unfold google_callback, find_or_create_user_google.
      rewrite Hg, Hblank.
      change (User.find_by_email "" (db w)) with (@None User.t).
      assert (emails (users (snd (User.create bcrypt env now "" "" None None
                                    (Some (sub user_info)) (db w))))
              = (emails (users (db w)) ++ [""])%list) as K1.
      { unfold User.create. simpl. unfold emails, insert_one.
        now rewrite map_app. }
      destruct (User.create bcrypt env now "" "" None None
                  (Some (sub user_info)) (db w)) as [u1 db1].
      pose proof (emails_reconcile env (User.email u1) u1 db1) as K2.
      destruct (reconcile env (User.email u1) u1 db1) as [o [u' db']].
      simpl in *. congruence. }
    split; [exact E|]. rewrite E. apply not_NoDup_snoc.
Qed.

Lemma emails_stay_unique_witness :
  emails_ok (db (run cfg10 toy_bcrypt any_email env_unset 5000
                   (op_register ann_form "salt9" "654321" net_down) w_boss)).
Proof.
  apply (proj1 (emails_stay_unique cfg10 toy_bcrypt any_email env_unset 5000%Z
                  (op_register ann_form "salt9" "654321" net_down) w_boss)).
  - split.
    + simpl. constructor; [intros [] | constructor].
    + simpl. constructor; [|constructor]. split; [reflexivity | discriminate].
  - reflexivity.
Defined.

(** ** Updating a document found by another key *)

Lemma update_by_id_reload (g : UserData.t -> bool)
    (f : UserData.t -> UserData.t) (coll : list UserData.t) (d : UserData.t) :
  NoDup (map UserData._id coll) ->
  (forall x, g (f x) = g x) ->
  find g coll = Some d ->
  find g (update_one (has_id (UserData._id d)) f coll) = Some (f d).
Proof.
  intros Hnd Hg.
  induction coll as [|x rest IH]; simpl; intros Hf; [discriminate|].
  inversion Hnd as [|? ? Hnotin Hnd']; subst.
  destruct (g x) eqn:Ex.
  - injection Hf as <-. unfold has_id. rewrite Nat.eqb_refl. simpl.
    now rewrite Hg, Ex.
  - destruct (has_id (UserData._id d) x) eqn:Ei.
    + exfalso. apply Hnotin. unfold has_id in Ei. apply Nat.eqb_eq in Ei.
      rewrite Ei. apply in_map. apply (find_some _ _ Hf).
    + simpl. rewrite Ex. now apply IH.
Qed.

Lemma ids_update_one (p : UserData.t -> bool) (f : UserData.t -> UserData.t)
    (coll : list UserData.t) :
  (forall d, UserData._id (f d) = UserData._id d) ->
  map UserData._id (update_one p f coll) = map UserData._id coll.
Proof. intros H. now apply map_update_one. Qed.

Lemma NoDup_snoc {A : Type} (l : list A) (x : A) :
  NoDup l -> ~ In x l -> NoDup (l ++ [x]).
Proof.
  induction l as [|y l IH]; simpl; intros Hnd Hx.
  - constructor; [intros [] | constructor].
  - inversion Hnd as [|? ? Hy Hl]; subst. constructor.
    + rewrite in_app_iff. intros [C | [C | []]]; [now elim Hy|].
      subst. apply Hx. now left.
    + apply IH; [exact Hl|]. intros C. apply Hx. now right.
Qed.

Lemma unique_ids_create (bcrypt : Bcrypt) (env : Environ) (now : Z)
    (salt email : string) (password role google_id : option string)
    (db0 : Db) :
  unique_ids db0 ->
  unique_ids (snd (User.create bcrypt env now salt email password role
                     google_id db0)).
Proof.
  unfold unique_ids, User.create. simpl. unfold insert_one.
  rewrite map_app. simpl. intros H. apply NoDup_snoc; [exact H|].
  intros C. apply in_map_iff in C. destruct C as (d & Hd & Hin).
  pose proof (inserted_id_fresh _ _ Hin). lia.
Qed.

Lemma find_by_email_after_update (e : string) (db0 : Db) (u : User.t)
    (f : UserData.t -> UserData.t) :
  unique_ids db0 ->
  (forall x, UserData.email (f x) = UserData.email x) ->
  User.find_by_email e db0 = Some u ->
  exists d : UserData.t,
    u = User.__init__ d
    /\ User.find_by_email e
         {| users := update_one (has_id (User.id u)) f (users db0);
            otps := otps db0 |}
       = Some (User.__init__ (f d)).
Proof.
  intros Hnd Hf Hu.
  destruct (find_by_email_some _ _ _ Hu) as (Hne & d & Hd & _ & ->).
  exists d. split; [reflexivity|].
  rewrite (find_by_email_form e _ Hne). cbn [users User.__init__ User.id].
  unfold find_one in Hd.
  rewrite (update_by_id_reload _ f _ d Hnd); [reflexivity | | exact Hd].
  intros x. simpl. now rewrite Hf.
Qed.

Lemma create_find_by_email (bcrypt : Bcrypt) (env : Environ) (now : Z)
    (salt email : string) (password role google_id : option string)
    (db0 : Db) :
  Py.lower (Py.strip email) <> "" ->
  User.find_by_email email db0 = None ->
  User.find_by_email email
    (snd (User.create bcrypt env now salt email password role google_id db0))
  = Some (fst (User.create bcrypt env now salt email password role google_id
                 db0)).
Proof.
  intros Hne Hnone.
  assert (Py.truthy email = true) as Ht.
  { apply truthy_true. intros ->. now elim Hne. }
  rewrite (find_by_email_form email db0 Hne) in Hnone.
  destruct (find _ (users db0)) as [x|] eqn:F; [discriminate|].
  rewrite (find_by_email_form email _ Hne).
  unfold User.create. rewrite Ht. cbn [fst snd users].
  unfold insert_one. rewrite (find_app_none _ _ _ F).
  cbn [UserData.email]. rewrite String.eqb_refl. reflexivity.
Qed.

(** ** The administrative scripts *)

Lemma is_admin_of_found (env : Environ) (e : string) (db0 : Db) (u : User.t) :
  User.find_by_email e db0 = Some u ->
  User.is_admin env u = is_admin_email env e || (User._role u =? "admin").
Proof.
  intros Hu. unfold User.is_admin.
  rewrite (find_by_email_email _ _ _ Hu), is_admin_email_normalize.
  now destruct (is_admin_email env e).
Qed.

(** X14. [create_admin_user] answers [True] exactly when the address is on
    the allow-list; for an address off the list it changes nothing. For an
    address on the list, in a store with unique ids, the identity under that
    address is afterwards verified and admin, whether the script created it
    (with stored role ['admin']) or found it. *)
Theorem create_admin_user_follows_allow_list
    (bcrypt : Bcrypt) (env : Environ) (now : Z)
    (email password salt : string) (db0 : Db) :
  let r := create_admin_user bcrypt env now email password salt db0 in
  fst r = is_admin_email env email
  /\ (is_admin_email env email = false -> snd r = db0)
  /\ (is_admin_email env email = true -> unique_ids db0 ->
      exists u : User.t,
        User.find_by_email email (snd r) = Some u
        /\ User.is_verified u = true
        /\ User.is_admin env u = true).
Proof.
  cbv zeta. unfold create_admin_user.
  destruct (is_admin_email env email) eqn:Ea; simpl negb; cbv iota.
  2: { split; [reflexivity|]. split; [reflexivity | discriminate]. }
  pose proof Ea as Hspec. apply is_admin_email_spec in Hspec.
  destruct Hspec as [Hne _].
  destruct (User.find_by_email email db0) as [u|] eqn:Eu.
  - assert (User.is_admin env u = true) as Hadm
        by (rewrite (is_admin_of_found env email db0 u Eu), Ea; reflexivity).
    rewrite Hadm.
    destruct (User.is_verified u) eqn:Ev; simpl negb; cbv iota.
    + split; [reflexivity|]. split; [discriminate|]. intros _ _.
      now exists u.
    + split; [reflexivity|]. split; [discriminate|]. intros _ Hnd.
      cbn [snd User.verify].
      destruct (find_by_email_after_update email db0 u
                  (User.set_is_verified true) Hnd (fun x => eq_refl) Eu)
        as (d & -> & Hf).
      eexists. split; [exact Hf|]. split; [reflexivity|].
      unfold User.is_admin in *. exact Hadm.
  - pose proof (create_find_by_email bcrypt env now salt email (Some password)
                  (Some "admin") None db0 Hne Eu) as Hc.
    pose proof (unique_ids_create bcrypt env now salt email (Some password)
                  (Some "admin") None db0) as Hu.
    destruct (User.create bcrypt env now salt email (Some password)
                (Some "admin") None db0) as [admin db1].
    cbn [fst snd] in *.
    split; [reflexivity|]. split; [discriminate|]. intros _ Hnd.
    destruct (find_by_email_after_update email db1 admin
                (User.set_is_verified true) (Hu Hnd) (fun x => eq_refl) Hc)
      as (d & -> & Hf).
    eexists. split; [exact Hf|]. split; [reflexivity|].
    rewrite (is_admin_of_found env email _ _ Hf), Ea. reflexivity.
Qed.

Lemma create_admin_user_follows_allow_list_witness :
  exists u : User.t,
    User.find_by_email "boss@x.com"
      (snd (create_admin_user toy_bcrypt env_boss 9000 "boss@x.com" "secret2"
              "salt" (db w_boss_pending))) = Some u
    /\ User.is_verified u = true
    /\ User.is_admin env_boss u = true.
Proof.
  apply (proj2 (proj2 (create_admin_user_follows_allow_list toy_bcrypt env_boss
                         9000%Z "boss@x.com" "secret2" "salt"
                         (db w_boss_pending)))).
  - reflexivity.
  - unfold unique_ids. simpl. constructor; [intros [] | constructor].
Defined.

(** X15. Seeding is idempotent: a second run of [seed_database], at any
    later time and under any configuration, leaves the store exactly as the
    first run left it, and after a run the test identity
    [user@example.com] exists. A run on a store that already has that
    identity changes nothing. *)
Theorem seed_database_idempotent
    (bcrypt : Bcrypt) (env1 env2 : Environ) (now1 now2 : Z)
    (salt1 salt2 : string) (db0 : Db) :
  let db1 := seed_database bcrypt env1 now1 salt1 db0 in
  seed_database bcrypt env2 now2 salt2 db1 = db1
  /\ User.find_by_email "user@example.com" db1 <> None
  /\ (User.find_by_email "user@example.com" db0 <> None -> db1 = db0).
Proof.
  cbv zeta.
  assert (User.find_by_email "user@example.com"
            (seed_database bcrypt env1 now1 salt1 db0) <> None) as Hex.
  { unfold seed_database.
    destruct (User.find_by_email "user@example.com" db0) as [u|] eqn:Eu;
      [now rewrite Eu|].
    assert (Py.lower (Py.strip "user@example.com") <> "") as Hne
        by discriminate.
    pose proof (create_find_by_email bcrypt env1 now1 salt1 "user@example.com"
                  (Some "user123") (Some "user") None db0 Hne Eu) as Hc.
    destruct (User.create bcrypt env1 now1 salt1 "user@example.com"
                (Some "user123") (Some "user") None db0) as [u1 db1].
    cbn [fst snd] in *.
    rewrite (find_by_email_form "user@example.com" db1 Hne) in Hc.
    rewrite (find_by_email_form "user@example.com" _ Hne).
    cbn [snd User.verify users].
    destruct (find (fun d => UserData.email d
                             =? Py.lower (Py.strip "user@example.com"))
                (users db1)) as [d|] eqn:F; [|discriminate].
    pose proof (find_update_one_some
                  (fun x => UserData.email x
                            =? Py.lower (Py.strip "user@example.com"))
                  (has_id (User.id u1)) (User.set_is_verified true)
                  (users db1) (fun x => eq_refl)) as P.
    rewrite F in P. specialize (P ltac:(discriminate)).
    destruct (find _ (update_one _ _ _)); [discriminate | now elim P]. }
  split; [|split; [exact Hex|]].
  - unfold seed_database at 1.
    destruct (User.find_by_email "user@example.com"
                (seed_database bcrypt env1 now1 salt1 db0));
      [reflexivity | now elim Hex].
  - intros H. unfold seed_database.
    destruct (User.find_by_email "user@example.com" db0);
      [reflexivity | now elim H].
Qed.

(** ** Federated login *)

Lemma find_update_one_hit {A : Type} (g p : A -> bool) (f : A -> A)
    (coll : list A) :
  (forall d, g (f d) = true) ->
  (exists d, In d coll /\ p d = true) ->
  find g (update_one p f coll) <> None.
Proof.
  intros Hg. induction coll as [|x rest IH]; simpl.
  - intros (d & [] & _).
  - intros (d & [<- | Hin] & Hp).
    + rewrite Hp. simpl. now rewrite Hg.
    + destruct (p x); simpl; [now rewrite Hg|].
      destruct (g x); [discriminate|]. apply IH. now exists d.
Qed.

Lemma find_by_google_id_form (g : string) (db0 : Db) :
  User.find_by_google_id g db0
  = option_map User.__init__ (find (has_google_id g) (users db0)).
Proof. reflexivity. Qed.

Lemma reconcile_keeps_google (env : Environ) (a g : string) (u : User.t)
    (db0 : Db) :
  find (has_google_id g) (users db0) <> None ->
  find (has_google_id g) (users (snd (snd (reconcile env a u db0)))) <> None.
Proof.
  rewrite reconcile_spec. destruct (Bool.eqb _ _); simpl; [trivial|].
  apply find_update_one_some. reflexivity.
Qed.

Lemma reconcile_ids (env : Environ) (a : string) (u : User.t) (db0 : Db) :
  map UserData._id (users (snd (snd (reconcile env a u db0))))
  = map UserData._id (users db0).
Proof.
  rewrite reconcile_spec. destruct (Bool.eqb _ _); simpl; [reflexivity|].
  now apply ids_update_one.
Qed.

Lemma google_callback_known (bcrypt : Bcrypt) (env : Environ) (now : Z)
    (user_info : UserInfo) (w : World) :
  User.find_by_google_id (sub user_info)
    (db (snd (google_callback bcrypt env now (Some user_info) w))) <> None.
Proof.
  assert (forall db1, find (has_google_id (sub user_info)) (users db1) <> None ->
                      User.find_by_google_id (sub user_info) db1 <> None)
    as Hform.
  { intros db1 H. rewrite find_by_google_id_form.
    destruct (find _ (users db1)); [discriminate | now elim H]. }
  apply Hform.
  unfold google_callback, find_or_create_user_google.
  destruct (User.find_by_google_id (sub user_info) (db w)) as [u|] eqn:Eg.
  - pose proof (reconcile_keeps_google env (User.email u) (sub user_info) u
                  (db w)) as K.
    destruct (reconcile env (User.email u) u (db w)) as [o [u' db']].
    apply K. rewrite find_by_google_id_form in Eg.
    destruct (find _ (users (db w))); [discriminate | discriminate].
  - destruct (User.find_by_email (info_email user_info) (db w)) as [u|] eqn:Ee.
    + cbv beta iota.
      match goal with
      | |- context [reconcile env ?a ?x ?y] =>
          pose proof (reconcile_keeps_google env a (sub user_info) x y) as K;
          destruct (reconcile env a x y) as [o [u' db']]
      end.
      apply K. cbn [users].
      apply find_update_one_hit.
      * intros d. unfold has_google_id, link_google. simpl.
        apply String.eqb_refl.
      * destruct (find_by_email_some _ _ _ Ee) as (_ & d & Hd & _ & ->).
        exists d. split; [apply (find_some _ _ Hd)|].
        unfold has_id. simpl. apply Nat.eqb_refl.
    + assert (find (has_google_id (sub user_info))
                (users (snd (User.create bcrypt env now ""
                               (info_email user_info) None None
                               (Some (sub user_info)) (db w)))) <> None) as K1.
      { unfold User.create. cbn [snd users].
        apply find_insert_one_some. unfold has_google_id. simpl.
        apply String.eqb_refl. }
      destruct (User.create bcrypt env now "" (info_email user_info) None None
                  (Some (sub user_info)) (db w)) as [u1 db1].
      pose proof (reconcile_keeps_google env (User.email u1) (sub user_info)
                    u1 db1 K1) as K2.
      destruct (reconcile env (User.email u1) u1 db1) as [o [u' db']].
      exact K2.
Qed.

(** X16. A federated identity is created at most once. After any
    federated login the subject is known to the store, and a later login
    with the same subject, whatever address or name the provider sends
    then, creates no identity: the collection keeps its ids and its
    addresses, and the session is opened for an identity of the store. *)
Theorem google_login_creates_once
    (bcrypt : Bcrypt) (env1 env2 : Environ) (now1 now2 : Z)
    (first second : UserInfo) (w : World) :
  sub second = sub first ->
  let w1 := snd (google_callback bcrypt env1 now1 (Some first) w) in
  let w2 := snd (google_callback bcrypt env2 now2 (Some second) w1) in
  User.find_by_google_id (sub first) (db w1) <> None
  /\ map UserData._id (users (db w2)) = map UserData._id (users (db w1))
  /\ emails (users (db w2)) = emails (users (db w1))
  /\ exists u : User.t,
      User.find_by_google_id (sub first) (db w1) = Some u
      /\ _user_id (session w2) = Some (User.id u).
Proof.
  intros Hsub. cbv zeta.
  pose proof (google_callback_known bcrypt env1 now1 first w) as Hk.
  split; [exact Hk|].
  remember (snd (google_callback bcrypt env1 now1 (Some first) w)) as w1.
  clear Heqw1.
  unfold google_callback, find_or_create_user_google. rewrite Hsub.
  destruct (User.find_by_google_id (sub first) (db w1)) as [u|];
    [|now elim Hk].
  pose proof (reconcile_ids env2 (User.email u) u (db w1)) as K1.
  pose proof (emails_reconcile env2 (User.email u) u (db w1)) as K2.
  rewrite reconcile_spec in *.
  destruct (Bool.eqb _ _); simpl in *; repeat split; try assumption;
    exists u; now split.
Qed.

Lemma google_login_creates_once_witness :
  let w1 := snd (google_callback toy_bcrypt env_unset 5000 (Some ann_google)
                   w_empty) in
  let w2 := snd (google_callback toy_bcrypt env_unset 6000 (Some ann_google)
                   w1) in
  map UserData._id (users (db w2)) = map UserData._id (users (db w1)).
Proof.
  exact (proj1 (proj2 (google_login_creates_once toy_bcrypt env_unset env_unset
                         5000%Z 6000%Z ann_google ann_google w_empty
                         eq_refl))).
Defined.

(** ** Delivery *)

(** X17. Delivery of a code succeeds exactly when mail is configured and
    either the first send goes through or the direct SMTP fallback does.
    Without mail credentials nothing is attempted, by the fallback either;
    the fallback is attempted only after the first send failed; and every
    attempt goes to the address the code was issued for. *)
Theorem delivery_outcome (cfg : Config) (email : string) (net : Delivery) :
  let r := send_otp_email cfg email net in
  (fst r = true <->
   mail_configured cfg = true
   /\ (mail_send_error net = None \/ smtp_result net = smtp_sent))
  /\ (mail_configured cfg = false ->
      snd r = [] /\ snd (send_email_direct_smtp cfg email net) = [])
  /\ (In (smtp_send email) (snd r) <->
      mail_configured cfg = true /\ mail_send_error net <> None)
  /\ (forall e : Effect,
         In e (snd r) -> e = mail_send email \/ e = smtp_send email).
Proof.
  cbv zeta. unfold send_otp_email, send_email_direct_smtp, mail_configured.
  destruct (truthy_opt (MAIL_USERNAME cfg)), (truthy_opt (MAIL_PASSWORD cfg));
    simpl;
    destruct (mail_send_error net) as [err|]; simpl;
    try destruct (smtp_result net); simpl;
    repeat split; intros; try discriminate; try tauto; try congruence;
    repeat match goal with
           | H : _ /\ _ |- _ => destruct H
           | H : _ \/ _ |- _ => destruct H
           end;
    try discriminate; try congruence; try contradiction; subst; auto.
Qed.

(** ** From registration to login *)

Lemma find_by_email_users (e : string) (db1 db2 : Db) :
  users db1 = users db2 ->
  User.find_by_email e db1 = User.find_by_email e db2.
Proof. intros H. unfold User.find_by_email. now rewrite H. Qed.

Lemma find_by_email_norm (e : string) (db0 : Db) :
  User.find_by_email (Py.lower (Py.strip e)) db0 = User.find_by_email e db0.
Proof.
  destruct (String.eqb_spec (Py.lower (Py.strip e)) "") as [E|E].
  - rewrite E. unfold User.find_by_email. simpl.
    destruct (Py.truthy e); simpl; [|reflexivity].
    apply truthy_false in E. now rewrite E.
  - rewrite (find_by_email_form e db0 E).
    rewrite find_by_email_form; rewrite normalize_idem; [reflexivity | exact E].
Qed.

Lemma logged_out_anonymous (w : World) :
  _user_id (session w) = None -> is_authenticated (current_user w) = false.
Proof. intros H. unfold current_user. now rewrite H. Qed.

Lemma register_outcome (cfg : Config) (bcrypt : Bcrypt)
    (Email : string -> bool) (env : Environ) (now : Z) (form : RegisterForm.t)
    (salt otp_code : string) (net : Delivery) (w : World) :
  _user_id (session w) = None ->
  unique_ids (db w) ->
  RegisterForm.validate_on_submit Email form (db w) = true ->
  exists (db0 : Db) (d0 : UserData.t),
    db (snd (register cfg bcrypt Email env now form salt otp_code net w))
    = OTP.create now (register_email form) otp_code db0
    /\ session (snd (register cfg bcrypt Email env now form salt otp_code
                       net w))
       = {| pending_email := Some (register_email form); _user_id := None |}
    /\ unique_ids db0
    /\ User.find_by_email (register_email form) db0 = Some (User.__init__ d0)
    /\ UserData.password_hash d0
       = Some (hashpw bcrypt (RegisterForm.password form) salt)
    /\ UserData.is_verified d0 = false
    /\ UserData.role d0
       = (if is_admin_email env (register_email form) then "admin" else "user").
Proof.
  intros Hout Hnd Hv.
  pose proof (logged_out_anonymous w Hout) as Hauth.
  destruct (validate_register _ _ _ Hv) as (Ht & Hve & Hpw).
  assert (Py.lower (Py.strip (register_email form)) = register_email form)
    as Hn by apply normalize_idem.
  assert (Py.lower (Py.strip (register_email form)) <> "") as Hne.
  { rewrite Hn. now apply truthy_true. }
  unfold register. rewrite Hauth, Hv.
  destruct (validate_email_none _ _ Hve) as [Hnone | (u & Hu & Hver)].
  - rewrite (register_valid_new _ _ _ _ _ _ _ _ _ Hnone).
    match goal with
    | |- context [issue_otp ?c ?n ?e ?o ?t ?w0] =>
        destruct (issue_otp_effect c n e o t w0) as (_ & -> & -> & _)
    end.
    cbn [with_db db session]. rewrite Hout.
    pose proof (create_find_by_email bcrypt env now salt (register_email form)
                  (Some (RegisterForm.password form)) None None (db w)
                  Hne Hnone) as Hc.
    pose proof (unique_ids_create bcrypt env now salt (register_email form)
                  (Some (RegisterForm.password form)) None None (db w) Hnd)
      as Hu.
    unfold User.create in *. rewrite Ht, Hn in *. cbn [fst snd] in *.
    eexists. eexists. split; [reflexivity|]. split; [reflexivity|].
    split; [exact Hu|]. split; [exact Hc|].
    cbn [UserData.password_hash UserData.is_verified UserData.role truthy_opt].
    rewrite Hpw. repeat split.
  - rewrite (register_valid_existing _ _ _ _ _ _ _ _ _ u Hu Hver).
    match goal with
    | |- context [issue_otp ?c ?n ?e ?o ?t ?w0] =>
        destruct (issue_otp_effect c n e o t w0) as (_ & -> & -> & _)
    end.
    cbn [with_db db session]. rewrite Hout.
    destruct (find_by_email_after_update (register_email form) (db w) u
                (set_password_and_role
                   (hashpw bcrypt (RegisterForm.password form) salt)
                   (if is_admin_email env (register_email form)
                    then "admin" else "user"))
                Hnd (fun x => eq_refl) Hu) as (d & -> & Hf).
    eexists. eexists. split; [reflexivity|]. split; [reflexivity|].
    split; [|split; [exact Hf|]].
    + unfold unique_ids. cbn [users]. now rewrite ids_update_one.
    + repeat split. exact Hver.
Qed.

Lemma verify_otp_outcome (cfg : Config) (env : Environ) (now : Z)
    (form : OTPVerifyForm.t) (w : World) (e : string) (d0 : UserData.t) :
  _user_id (session w) = None ->
  pending_email (session w) = Some e ->
  Py.lower (Py.strip e) = e -> e <> "" ->
  OTPVerifyForm.validate_on_submit form = true ->
  OTP.find_valid cfg now e (OTPVerifyForm.otp_code form) (db w) = true ->
  unique_ids (db w) ->
  User.find_by_email e (db w) = Some (User.__init__ d0) ->
  let r := verify_otp cfg env now form w in
  fst r = redirect "uploads.gallery"
  /\ session (snd r)
     = {| pending_email := None; _user_id := Some (UserData._id d0) |}
  /\ unique_ids (db (snd r))
  /\ otps (db (snd r))
     = otps (OTP.mark_used e (OTPVerifyForm.otp_code form) (db w))
  /\ exists d2 : UserData.t,
      User.find_by_email e (db (snd r)) = Some (User.__init__ d2)
      /\ UserData.is_verified d2 = true
      /\ UserData._id d2 = UserData._id d0
      /\ UserData.password_hash d2 = UserData.password_hash d0
      /\ UserData.role d2 = reconciled_role env e (UserData.role d0).
Proof.
  intros Hout Hpe Hn Hne Hv Hf Hnd Hu. cbv zeta.
  pose proof (logged_out_anonymous w Hout) as Hauth.
  assert (Py.truthy e = true) as Ht by now apply truthy_true.
  set (db1 := OTP.mark_used e (OTPVerifyForm.otp_code form) (db w)).
  assert (User.find_by_email e db1 = Some (User.__init__ d0)) as Hu1.
  { rewrite <- Hu. now apply find_by_email_users. }
  assert (unique_ids db1) as Hnd1 by exact Hnd.
  assert (User.email (User.__init__ d0) = e) as Hemail.
  { rewrite (find_by_email_email _ _ _ Hu1). exact Hn. }
  pose proof (reconcile_reload env e db1 (User.__init__ d0) Hnd1 Hu1) as Hr.
  pose proof (reconcile_ids env e (User.__init__ d0) db1) as Hids.
  rewrite Hemail in Hr.
  unfold verify_otp. rewrite Hauth, Hpe. simpl truthy_opt. rewrite Ht.
  simpl negb. cbv iota. rewrite Hv, Hf.
  cbn [with_db db]. fold db1. rewrite Hu1.
  assert (User._role (fst (snd (reconcile env e (User.__init__ d0) db1)))
          = reconciled_role env e (UserData.role d0)
          /\ User.id (fst (snd (reconcile env e (User.__init__ d0) db1)))
             = UserData._id d0
          /\ User.password_hash
               (fst (snd (reconcile env e (User.__init__ d0) db1)))
             = UserData.password_hash d0
          /\ otps (snd (snd (reconcile env e (User.__init__ d0) db1)))
             = otps db1) as (Hrole & Hid & Hpw & Hotps).
  { rewrite reconcile_spec. unfold reconciled_role, User.get_stored_role.
    cbn [User.__init__ User._role].
    destruct (is_admin_email env e), (UserData.role d0 =? "admin") eqn:E;
      simpl; repeat split.
    apply String.eqb_eq in E. now rewrite E. }
  destruct (reconcile env e (User.__init__ d0) db1) as [o [u1 db2]].
  cbn [fst snd] in *.
  assert (unique_ids db2) as Hnd2 by (unfold unique_ids; now rewrite Hids).
  destruct (find_by_email_after_update e db2 u1 (User.set_is_verified true)
              Hnd2 (fun x => eq_refl) Hr) as (d1 & -> & Hf2).
  cbn [User.verify fst snd login_user pop_pending_email flash with_db
         with_session db session _user_id pending_email User.id].
  cbn [User.__init__ User.id User._role User.password_hash] in *.
  split; [reflexivity|]. split; [now rewrite Hid|].
  split; [unfold unique_ids; cbn [users]; now rewrite ids_update_one|].
  split; [exact Hotps|].
  exists (User.set_is_verified true d1).
  split; [exact Hf2|]. repeat split; assumption.
Qed.

(** X18. A successful code verification does what the user expects: with a
    pending address in a logged-out session, a valid code for it and an
    identity under it (in a store with unique ids), [verify_otp] answers
    with a redirect to the gallery, clears the pending address, opens the
    session for that identity, and leaves the identity verified, with its
    password unchanged and its stored role reconciled with the allow-list.
    If the store held no second record for this address and code, the code
    is spent: no later verification with it succeeds. *)
Theorem verify_otp_success (cfg : Config) (env : Environ) (now : Z)
    (form : OTPVerifyForm.t) (w : World) (e : string) (d0 : UserData.t) :
  _user_id (session w) = None ->
  pending_email (session w) = Some e ->
  Py.lower (Py.strip e) = e -> e <> "" ->
  OTPVerifyForm.validate_on_submit form = true ->
  OTP.find_valid cfg now e (OTPVerifyForm.otp_code form) (db w) = true ->
  unique_ids (db w) ->
  User.find_by_email e (db w) = Some (User.__init__ d0) ->
  let r := verify_otp cfg env now form w in
  fst r = redirect "uploads.gallery"
  /\ session (snd r)
     = {| pending_email := None; _user_id := Some (UserData._id d0) |}
  /\ unique_ids (db (snd r))
  /\ (exists d2 : UserData.t,
         User.find_by_email e (db (snd r)) = Some (User.__init__ d2)
         /\ UserData.is_verified d2 = true
         /\ UserData._id d2 = UserData._id d0
         /\ UserData.password_hash d2 = UserData.password_hash d0
         /\ UserData.role d2 = reconciled_role env e (UserData.role d0))
  /\ ((List.length (records_for e (OTPVerifyForm.otp_code form) (db w)) <= 1)%nat ->
      forall later : Z,
        OTP.find_valid cfg later e (OTPVerifyForm.otp_code form) (db (snd r))
        = false).
Proof.
  intros Hout Hpe Hn Hne Hv Hf Hnd Hu. cbv zeta.
  destruct (verify_otp_outcome cfg env now form w e d0 Hout Hpe Hn Hne Hv Hf
              Hnd Hu) as (R1 & R2 & R3 & R4 & R5).
  split; [exact R1|]. split; [exact R2|]. split; [exact R3|].
  split; [exact R5|].
  intros Hone later.
  rewrite (find_valid_otps cfg later e (OTPVerifyForm.otp_code form) _
             (OTP.mark_used e (OTPVerifyForm.otp_code form) (db w)) R4).
  apply find_valid_false. simpl. now apply mark_used_none_valid.
Qed.

Lemma verify_otp_success_witness :
  let r := verify_otp cfg10 env_boss 8000 (code_form "654321")
             w_ann_registered in
  fst r = redirect "uploads.gallery"
  /\ session (snd r) = {| pending_email := None; _user_id := Some 1%nat |}.
Proof.
  destruct (verify_otp_success cfg10 env_boss 8000%Z (code_form "654321")
              w_ann_registered "a@x.com" ann_new_data
              eq_refl eq_refl eq_refl ltac:(discriminate) eq_refl eq_refl)
    as (H1 & H2 & _).
  - unfold unique_ids. simpl. constructor; [intros [] | constructor].
  - reflexivity.
  - split; [exact H1 | exact H2].
Defined.

Lemma validate_login_of_register (Email : string -> bool)
    (form : RegisterForm.t) (db0 : Db) :
  RegisterForm.validate_on_submit Email form db0 = true ->
  LoginForm.validate_on_submit Email (login_form_of form) = true.
Proof.
  unfold RegisterForm.validate_on_submit, LoginForm.validate_on_submit,
    login_form_of. simpl. rewrite !andb_true_iff.
  intros [[[_ [[H1 H2] _]] [H3 _]] _]. repeat split; assumption.
Qed.

(** X19. The whole path works: in a logged-out browser and a store with
    unique ids, a registration that passes validation, followed by a
    verification with the issued code no later than the configured window
    after it, ends on the gallery with the identity verified and logged in;
    and after logging out, a password login with the registered address and
    password succeeds for the same identity. The stored role after
    verification is ['admin'] exactly when the address is on the allow-list
    at that moment. It is assumed that [bcrypt] accepts the password against
    the hash it made of it and that the hash is not empty. *)
Theorem register_verify_login
    (cfg : Config) (bcrypt : Bcrypt) (Email : string -> bool)
    (env1 env2 env3 : Environ) (now1 now2 : Z) (form : RegisterForm.t)
    (salt otp_code : string) (net : Delivery) (w : World) :
  _user_id (session w) = None ->
  unique_ids (db w) ->
  RegisterForm.validate_on_submit Email form (db w) = true ->
  OTPVerifyForm.validate_on_submit (code_form otp_code) = true ->
  (now2 - now1 <= OTP.minutes (OTP_EXPIRY_MINUTES cfg))%Z ->
  Py.truthy (hashpw bcrypt (RegisterForm.password form) salt) = true ->
  checkpw bcrypt (RegisterForm.password form)
    (hashpw bcrypt (RegisterForm.password form) salt) = true ->
  let w1 := snd (register cfg bcrypt Email env1 now1 form salt otp_code net w) in
  let r2 := verify_otp cfg env2 now2 (code_form otp_code) w1 in
  let r3 := login bcrypt Email env3 (login_form_of form) None
              (logout (snd r2)) in
  fst r2 = redirect "uploads.gallery"
  /\ fst r3 = redirect "uploads.gallery"
  /\ exists d : UserData.t,
      User.find_by_email (register_email form) (db (snd r2))
      = Some (User.__init__ d)
      /\ UserData.is_verified d = true
      /\ UserData.role d
         = (if is_admin_email env2 (register_email form)
            then "admin" else "user")
      /\ _user_id (session (snd r2)) = Some (UserData._id d)
      /\ _user_id (session (snd r3)) = Some (UserData._id d).
Proof.
  intros Hout Hnd Hv Hcv Hwin Hhash Hcheck. cbv zeta.
  destruct (register_outcome cfg bcrypt Email env1 now1 form salt otp_code net
              w Hout Hnd Hv)
    as (db0 & d0 & Hdb & Hsess & Hnd0 & Hfind & Hpw & Hunv & Hrole).
  destruct (validate_register _ _ _ Hv) as (Ht & _ & _).
  set (w1 := snd (register cfg bcrypt Email env1 now1 form salt otp_code net w))
    in *.
  set (e := register_email form) in *.
  assert (Py.lower (Py.strip e) = e) as Hn by apply normalize_idem.
  assert (e <> "") as Hne by now apply truthy_true.
  assert (OTP.find_valid cfg now2 e otp_code (db w1) = true) as Hvalid.
  { rewrite Hdb. apply find_valid_iff. exists (new_otp now1 e otp_code).
    simpl. unfold insert_one. rewrite in_app_iff. simpl.
    repeat split; auto. }
  assert (unique_ids (db w1)) as Hnd1 by (rewrite Hdb; exact Hnd0).
  assert (User.find_by_email e (db w1) = Some (User.__init__ d0)) as Hf1.
  { rewrite <- Hfind. apply find_by_email_users. now rewrite Hdb. }
  destruct (verify_otp_outcome cfg env2 now2 (code_form otp_code) w1 e d0)
    as (R1 & R2 & R3 & _ & d2 & Hf2 & Hver2 & Hid2 & Hpw2 & Hrole2);
    try assumption.
  { now rewrite Hsess. }
  { now rewrite Hsess. }
  set (w2 := snd (verify_otp cfg env2 now2 (code_form otp_code) w1)) in *.
  split; [exact R1|].
  assert (UserData.role d2
          = (if is_admin_email env2 e then "admin" else "user")) as Hrole3.
  { rewrite Hrole2, Hrole. unfold reconciled_role.
    destruct (is_admin_email env2 e), (is_admin_email env1 e); reflexivity. }
  assert (login bcrypt Email env3 (login_form_of form) None (logout w2)
          = (redirect "uploads.gallery",
             login_user
               (fst (snd (reconcile env3 (User.email (User.__init__ d2))
                            (User.__init__ d2) (db w2))))
               (with_db
                  (snd (snd (reconcile env3 (User.email (User.__init__ d2))
                               (User.__init__ d2) (db w2))))
                  (logout w2)))) as Hlogin.
  { unfold login.
    assert (is_authenticated (current_user (logout w2)) = false) as ->
        by (apply logged_out_anonymous; reflexivity).
    rewrite (validate_login_of_register Email form (db w) Hv).
    cbn [login_form_of LoginForm.email LoginForm.password logout with_session
           db].
    rewrite <- (find_by_email_norm (RegisterForm.email form) (db w2)).
    fold (register_email form). fold e. rewrite Hf2.
    assert (User.check_password bcrypt (User.__init__ d2)
              (RegisterForm.password form) = true) as ->.
    { unfold User.check_password. cbn [User.__init__ User.password_hash].
      now rewrite Hpw2, Hpw, Hhash. }
    cbn [User.__init__ User.is_verified]. rewrite Hver2. simpl negb. cbv iota.
    destruct (reconcile env3 _ (User.__init__ d2) (db w2)) as [o [u3 db3]].
    reflexivity. }
  rewrite Hlogin. cbn [fst snd].
  split; [reflexivity|].
  exists d2. split; [exact Hf2|]. split; [exact Hver2|].
  split; [exact Hrole3|]. split; [now rewrite R2, Hid2|].
  rewrite reconcile_spec. destruct (Bool.eqb _ _); simpl; now rewrite Hid2.
Qed.

Lemma register_verify_login_witness :
  let w1 := snd (register cfg10 toy_bcrypt any_email env_unset 5000 ann_form
                   "salt9" "654321" net_down w_empty) in
  let r2 := verify_otp cfg10 env_unset 8000 (code_form "654321") w1 in
  let r3 := login toy_bcrypt any_email env_unset (login_form_of ann_form) None
              (logout (snd r2)) in
  fst r2 = redirect "uploads.gallery" /\ fst r3 = redirect "uploads.gallery".
Proof.
  assert (unique_ids (db w_empty)) as Hnd by constructor.
  assert (8000 - 5000 <= OTP.minutes (OTP_EXPIRY_MINUTES cfg10))%Z as Hwin
      by (vm_compute; discriminate).
  destruct (register_verify_login cfg10 toy_bcrypt any_email env_unset
              env_unset env_unset 5000%Z 8000%Z ann_form "salt9" "654321"
              net_down w_empty eq_refl Hnd eq_refl eq_refl Hwin eq_refl
              eq_refl)
    as (H1 & H2 & _).
  split; [exact H1 | exact H2].
Defined.

(** ** Sentiment labels *)

Lemma polarity_gt_lt (a b : QArith_base.Q) :
  polarity_gt a b = true <-> QArith_base.Qlt b a.
Proof.
  unfold polarity_gt, QArith_base.Qle_bool, QArith_base.Qlt.
  rewrite negb_true_iff, Z.leb_gt. reflexivity.
Qed.

Lemma polarity_lt_lt (a b : QArith_base.Q) :
  polarity_lt a b = true <-> QArith_base.Qlt a b.
Proof.
  unfold polarity_lt, QArith_base.Qle_bool, QArith_base.Qlt.
  rewrite negb_true_iff, Z.leb_gt. reflexivity.
Qed.

Lemma label_cases (p : QArith_base.Q) :
  (QArith_base.Qlt point_one p /\ label_sentiment p = "positive")
  \/ (QArith_base.Qlt p (QArith_base.Qopp point_one)
      /\ label_sentiment p = "negative")
  \/ (QArith_base.Qle (QArith_base.Qopp point_one) p
      /\ QArith_base.Qle p point_one /\ label_sentiment p = "neutral").
Proof.
  unfold label_sentiment.
  destruct (polarity_gt p point_one) eqn:E1.
  - left. split; [now apply polarity_gt_lt | reflexivity].
  - destruct (polarity_lt p (QArith_base.Qopp point_one)) eqn:E2.
    + right. left. split; [now apply polarity_lt_lt | reflexivity].
    + right. right.
      unfold polarity_gt, polarity_lt in *.
      apply negb_false_iff in E1, E2.
      apply QArith_base.Qle_bool_iff in E1, E2. now repeat split.
Qed.

(** X20. The label follows the two thresholds: ['positive'] exactly when
    the polarity is above 0.1, ['negative'] exactly when it is below -0.1,
    ['neutral'] in between, both bounds included. Hence the label is always
    one of the three, it never decreases when the polarity increases, and
    the opposite polarity gets the mirrored label. A missing or empty text
    is neutral with polarity 0 without TextBlob being asked. *)
Theorem label_sentiment_thresholds (p : QArith_base.Q) :
  (label_sentiment p = "positive" <-> QArith_base.Qlt point_one p)
  /\ (label_sentiment p = "negative"
      <-> QArith_base.Qlt p (QArith_base.Qopp point_one))
  /\ (label_sentiment p = "neutral"
      <-> QArith_base.Qle (QArith_base.Qopp point_one) p
          /\ QArith_base.Qle p point_one)
  /\ is_label (label_sentiment p) = true
  /\ label_sentiment (QArith_base.Qopp p) = mirror (label_sentiment p)
  /\ (forall q : QArith_base.Q,
         QArith_base.Qle p q ->
         (rank (label_sentiment p) <= rank (label_sentiment q))%Z)
  /\ (forall (blob_polarity : string -> QArith_base.Q) (text : option string),
         is_label (label (analyze blob_polarity text)) = true
         /\ (text = None \/ text = Some "" ->
             analyze blob_polarity text
             = {| polarity := zero_polarity; label := "neutral" |})).
Proof.
  assert (forall x y, QArith_base.Qlt x y -> QArith_base.Qle y x -> False)
    as Hno.
  { intros x y H1 H2. unfold QArith_base.Qlt, QArith_base.Qle in *. lia. }
  assert (QArith_base.Qlt (QArith_base.Qopp point_one) point_one) as Hpm
      by (unfold QArith_base.Qlt; simpl; lia).
  assert (forall x y z, QArith_base.Qlt x y -> QArith_base.Qlt y z ->
                        QArith_base.Qlt x z) as Htr
      by (intros x y z; apply QArith_base.Qlt_trans).
  split; [|split; [|split; [|split; [|split; [|split]]]]].
  - destruct (label_cases p) as [[H E] | [[H E] | (H1 & H2 & E)]];
      rewrite E; split; intros C; try reflexivity; try discriminate;
      try assumption; exfalso.
    + apply (Hno _ _ (Htr _ _ _ H Hpm)).
      unfold QArith_base.Qlt, QArith_base.Qle in *. lia.
    + now apply (Hno _ _ C).
  - destruct (label_cases p) as [[H E] | [[H E] | (H1 & H2 & E)]];
      rewrite E; split; intros C; try reflexivity; try discriminate;
      try assumption; exfalso.
    + apply (Hno _ _ (Htr _ _ _ C Hpm)).
      unfold QArith_base.Qlt, QArith_base.Qle in *. lia.
    + now apply (Hno _ _ C).
  - destruct (label_cases p) as [[H E] | [[H E] | (H1 & H2 & E)]];
      rewrite E; split; try discriminate; try (intros _; now split);
      try reflexivity; intros [C1 C2]; exfalso.
    + now apply (Hno _ _ H).
    + now apply (Hno _ _ H).
  - destruct (label_cases p) as [[H E] | [[H E] | (H1 & H2 & E)]];
      rewrite E; reflexivity.
  - destruct (label_cases p) as [[H E] | [[H E] | (H1 & H2 & E)]];
      destruct (label_cases (QArith_base.Qopp p))
        as [[H' E'] | [[H' E'] | (H1' & H2' & E')]];
      rewrite E, E'; try reflexivity; exfalso;
      destruct p as [n d];
      unfold QArith_base.Qlt, QArith_base.Qle, QArith_base.Qopp, point_one
        in *; simpl in *; lia.
  - intros q Hq.
    destruct (label_cases p) as [[H E] | [[H E] | (H1 & H2 & E)]];
      destruct (label_cases q) as [[H' E'] | [[H' E'] | (H1' & H2' & E')]];
      rewrite E, E'; try (vm_compute; discriminate); exfalso.
    + apply (Hno _ _ H'). apply (QArith_base.Qle_trans _ p); [|exact Hq].
      apply QArith_base.Qlt_le_weak. now apply (Htr _ point_one).
    + apply (Hno _ _ H). now apply (QArith_base.Qle_trans _ q).
    + apply (Hno _ _ H'). now apply (QArith_base.Qle_trans _ p).
  - intros blob_polarity text. split.
    + unfold analyze. destruct text as [t|]; [|reflexivity].
      destruct (negb (Py.truthy t)); [reflexivity|]. simpl.
      destruct (label_cases (blob_polarity t))
        as [[H E] | [[H E] | (H1 & H2 & E)]]; rewrite E; reflexivity.
    + intros [-> | ->]; reflexivity.
Qed.

Lemma label_sentiment_thresholds_witness :
  label_sentiment point_one = "neutral"
  /\ analyze polarity_of_words (Some "")
     = {| polarity := zero_polarity; label := "neutral" |}.
Proof.
  split.
  - apply (proj1 (proj2 (proj2 (label_sentiment_thresholds point_one)))).
    split; unfold QArith_base.Qle; simpl; lia.
  - apply (proj2 (proj2 (proj2 (proj2 (proj2 (proj2
             (label_sentiment_thresholds point_one)))))) polarity_of_words
             (Some "")).
    now right.
Defined.

(** ** Dictionaries and the aggregation *)

Lemma dict_lookup_set {V : Type} (k k' : string) (v : V)
    (d : list (string * V)) :
  dict_lookup k (dict_set k' v d)
  = if k' =? k then Some v else dict_lookup k d.
Proof.
  induction d as [|[k0 v0] rest IH]; simpl.
  - reflexivity.
  - destruct (k0 =? k') eqn:E0; simpl.
    + apply String.eqb_eq in E0. subst k0. now destruct (k' =? k).
    + rewrite IH. destruct (k0 =? k) eqn:E1; [|reflexivity].
      apply String.eqb_eq in E1. subst k0. now rewrite String.eqb_sym, E0.
Qed.

Lemma dict_set_keys {V : Type} (k : string) (v : V) (d : list (string * V)) :
  dict_has k d = true -> map fst (dict_set k v d) = map fst d.
Proof.
  unfold dict_has. induction d as [|[k0 v0] rest IH]; simpl; [discriminate|].
  destruct (k0 =? k) eqn:E; simpl; [reflexivity|].
  intros H. now rewrite IH.
Qed.

Lemma dict_lookup_not_in {V : Type} (k : string) (d : list (string * V)) :
  ~ In k (map fst d) -> dict_lookup k d = None.
Proof.
  induction d as [|[k0 v0] rest IH]; simpl; [reflexivity|].
  intros H. destruct (String.eqb_spec k0 k) as [E|E].
  - elim H. now left.
  - apply IH. intros C. apply H. now right.
Qed.

Lemma dict_lookup_group_add (k key : string) (g : Dict) :
  dict_lookup k (group_add key g)
  = if key =? k then Some (S (dict_get key 0 g)) else dict_lookup k g.
Proof.
  unfold dict_get. induction g as [|[k0 n0] rest IH]; simpl.
  - reflexivity.
  - destruct (k0 =? key) eqn:E0; simpl.
    + apply String.eqb_eq in E0. subst k0. now destruct (key =? k).
    + rewrite IH. destruct (k0 =? k) eqn:E1; [|reflexivity].
      apply String.eqb_eq in E1. subst k0. now rewrite String.eqb_sym, E0.
Qed.

Lemma group_add_keys (key : string) (g : Dict) :
  NoDup (map fst g) -> NoDup (map fst (group_add key g)).
Proof.
  intros H.
  assert (map fst (group_add key g)
          = if dict_has key g then map fst g else (map fst g ++ [key])%list)
    as E.
  { unfold dict_has. clear H. induction g as [|[k0 n0] rest IH]; simpl.
    - reflexivity.
    - destruct (k0 =? key) eqn:E0; simpl; [reflexivity|].
      rewrite IH. now destruct (dict_lookup key rest). }
  rewrite E. destruct (dict_has key g) eqn:Eh; [exact H|].
  apply NoDup_snoc; [exact H|]. intros C.
  unfold dict_has in Eh. clear E H.
  induction g as [|[k0 n0] rest IH]; simpl in *; [contradiction|].
  destruct (String.eqb_spec k0 key) as [E|E]; [discriminate|].
  destruct C as [C|C]; [now elim E | now apply IH].
Qed.

Lemma aggregate_count_snoc (keys : list string) (key : string) :
  aggregate_count (keys ++ [key]) = group_add key (aggregate_count keys).
Proof. unfold aggregate_count. now rewrite fold_left_app. Qed.

Lemma occurrences_snoc (k key : string) (keys : list string) :
  occurrences k (keys ++ [key])
  = (occurrences k keys + if (key =? k)%string then 1 else 0)%nat.
Proof.
  unfold occurrences. rewrite count_occ_app. simpl.
  destruct (string_dec key k) as [E|E].
  - subst. now rewrite String.eqb_refl.
  - apply String.eqb_neq in E. now rewrite E.
Qed.

Lemma aggregate_count_spec (keys : list string) :
  NoDup (map fst (aggregate_count keys))
  /\ forall k : string,
      dict_lookup k (aggregate_count keys)
      = if (occurrences k keys =? 0)%nat then None
        else Some (occurrences k keys).
Proof.
  induction keys as [|key keys IH] using rev_ind.
  - split; [constructor | reflexivity].
  - destruct IH as [Hnd Hl]. rewrite aggregate_count_snoc. split.
    + now apply group_add_keys.
    + intros k. rewrite dict_lookup_group_add, occurrences_snoc.
      destruct (key =? k) eqn:E.
      * apply String.eqb_eq in E. subst k. unfold dict_get. rewrite Hl.
        destruct (occurrences key keys) as [|n] eqn:En; simpl.
        -- reflexivity.
        -- rewrite Nat.add_1_r. reflexivity.
      * rewrite Hl, Nat.add_0_r. reflexivity.
Qed.

Lemma absorb_all (results counts : Dict) :
  NoDup (map fst results) ->
  map fst (fold_left absorb results counts) = map fst counts
  /\ forall k : string,
      dict_has k counts = true ->
      dict_lookup k (fold_left absorb results counts)
      = match dict_lookup k results with
        | Some n => Some n
        | None => dict_lookup k counts
        end.
Proof.
  revert counts.
  induction results as [|[k1 n1] rest IH]; intros counts Hnd; simpl.
  - split; [reflexivity|]. reflexivity.
  - inversion Hnd as [|? ? Hnotin Hnd']; subst.
    destruct (IH (absorb counts (k1, n1)) Hnd') as [Hk Hl].
    assert (map fst (absorb counts (k1, n1)) = map fst counts) as Hkeys.
    { unfold absorb. simpl. destruct (dict_has k1 counts) eqn:E;
        [now apply dict_set_keys | reflexivity]. }
    assert (forall k, dict_has k (absorb counts (k1, n1)) = dict_has k counts)
      as Hhas.
    { intros k. unfold absorb, dict_has. simpl.
      destruct (dict_lookup k1 counts) eqn:E; [|reflexivity].
      rewrite dict_lookup_set. destruct (k1 =? k) eqn:E1; [|reflexivity].
      apply String.eqb_eq in E1. subst k. now rewrite E. }
    split; [now rewrite Hk|].
    intros k Hin. rewrite Hl by now rewrite Hhas.
    destruct (k1 =? k) eqn:E1.
    + apply String.eqb_eq in E1. subst k.
      rewrite (dict_lookup_not_in k1 rest Hnotin).
      unfold absorb. simpl. rewrite Hin, dict_lookup_set.
      now rewrite String.eqb_refl.
    + destruct (dict_lookup k rest); [reflexivity|].
      unfold absorb. simpl. destruct (dict_has k1 counts); [|reflexivity].
      rewrite dict_lookup_set. now rewrite E1.
Qed.

Lemma occurrences_sum (keys : list string) :
  (occurrences "positive" keys + occurrences "neutral" keys
   + occurrences "negative" keys <= List.length keys)%nat
  /\ (forallb is_label keys = true ->
      (occurrences "positive" keys + occurrences "neutral" keys
       + occurrences "negative" keys = List.length keys)%nat).
Proof.
  unfold occurrences. induction keys as [|k keys [IH1 IH2]]; simpl.
  - split; [lia | reflexivity].
  - destruct (string_dec k "positive") as [E1|E1];
      destruct (string_dec k "neutral") as [E2|E2];
      destruct (string_dec k "negative") as [E3|E3];
      try (subst; discriminate); split; try lia;
      intros H; apply andb_true_iff in H; destruct H as [Hk Hr];
      try (specialize (IH2 Hr); lia).
    exfalso. unfold is_label in Hk.
    apply String.eqb_neq in E1, E2, E3. now rewrite E1, E2, E3 in Hk.
Qed.

(** X21. The sentiment statistics count what is stored. The dictionary
    [count_by_sentiment] returns always has exactly the keys ['positive'],
    ['neutral'], ['negative'], and under each of them the number of uploads
    whose sentiment is that label; uploads with any other sentiment are
    left out. So the three numbers add up to at most the total number of
    uploads, and to exactly the total when every upload carries one of the
    three labels; the chart of the dashboard shows these three numbers. *)
Theorem count_by_sentiment_counts (uploads : list UploadData.t) :
  let sentiments := map UploadData.sentiment uploads in
  let counts := Upload.count_by_sentiment uploads in
  map fst counts = ["positive"; "neutral"; "negative"]
  /\ (forall l : string,
         is_label l = true -> dict_get l 0 counts = occurrences l sentiments)
  /\ (dict_get "positive" 0 counts + dict_get "neutral" 0 counts
      + dict_get "negative" 0 counts <= Upload.get_total_count uploads)%nat
  /\ (forallb is_label sentiments = true ->
      (dict_get "positive" 0 counts + dict_get "neutral" 0 counts
       + dict_get "negative" 0 counts = Upload.get_total_count uploads)%nat)
  /\ (forall users : list UserData.t,
         chart_data (dashboard_view uploads users)
         = [occurrences "positive" sentiments;
            occurrences "neutral" sentiments;
            occurrences "negative" sentiments]).
Proof.
  cbv zeta.
  destruct (aggregate_count_spec (map UploadData.sentiment uploads))
    as [Hnd Hl].
  destruct (absorb_all (aggregate_count (map UploadData.sentiment uploads))
              [("positive", 0%nat); ("neutral", 0%nat); ("negative", 0%nat)]
              Hnd) as [Hk Hv].
  assert (forall l : string,
             is_label l = true ->
             dict_get l 0 (Upload.count_by_sentiment uploads)
             = occurrences l (map UploadData.sentiment uploads)) as Hget.
  { intros l Hlab. unfold dict_get, Upload.count_by_sentiment.
    fold absorb.
    change (fun (counts : Dict) (result : string * nat) =>
              let sentiment := fst result in
              if dict_has sentiment counts
              then dict_set sentiment (snd result) counts
              else counts) with absorb.
    rewrite Hv.
    - rewrite Hl.
      destruct (occurrences l (map UploadData.sentiment uploads)) eqn:E;
        simpl; [|reflexivity].
      unfold is_label in Hlab. rewrite !orb_true_iff in Hlab.
      destruct Hlab as [[H|H]|H]; apply String.eqb_eq in H; subst l;
        reflexivity.
    - unfold is_label in Hlab. rewrite !orb_true_iff in Hlab.
      destruct Hlab as [[H|H]|H]; apply String.eqb_eq in H; subst l;
        reflexivity. }
  destruct (occurrences_sum (map UploadData.sentiment uploads)) as [S1 S2].
  split; [exact Hk|]. split; [exact Hget|].
  rewrite !Hget by reflexivity.
  unfold Upload.get_total_count.
  rewrite length_map in S1, S2.
  split; [exact S1|]. split; [exact S2|].
  intros users. unfold dashboard_view. cbn [chart_data].
  now rewrite !Hget by reflexivity.
Qed.

Lemma count_by_sentiment_counts_witness :
  (dict_get "positive" 0 (Upload.count_by_sentiment some_uploads)
   + dict_get "neutral" 0 (Upload.count_by_sentiment some_uploads)
   + dict_get "negative" 0 (Upload.count_by_sentiment some_uploads)
   = Upload.get_total_count some_uploads)%nat
  /\ dict_get "positive" 0 (Upload.count_by_sentiment some_uploads) = 2%nat.
Proof.
  split.
  - apply (proj1 (proj2 (proj2 (proj2
             (count_by_sentiment_counts some_uploads))))). reflexivity.
  - rewrite (proj1 (proj2 (count_by_sentiment_counts some_uploads))
               "positive" eq_refl). reflexivity.
Defined.

(** ** Sorted cursors *)

Lemma in_firstn {A : Type} (k : nat) (l : list A) (x : A) :
  In x (firstn k l) -> In x l.
Proof.
  intros H. rewrite <- (firstn_skipn k l). apply in_or_app. now left.
Qed.

Lemma in_skipn {A : Type} (k : nat) (l : list A) (x : A) :
  In x (skipn k l) -> In x l.
Proof.
  intros H. rewrite <- (firstn_skipn k l). apply in_or_app. now right.
Qed.

Section Sorting.

Context {A : Type} (before : A -> A -> bool).
Hypothesis before_total : forall x y, before x y = false -> before y x = true.
Hypothesis before_trans :
  forall x y z, before x y = true -> before y z = true -> before x z = true.

Lemma insert_sorted_In (x y : A) (l : list A) :
  In y (insert_sorted before x l) <-> y = x \/ In y l.
Proof.
  induction l as [|z l IH]; simpl.
  - intuition.
  - destruct (before z x); simpl; rewrite ?IH; intuition.
Qed.

Lemma insert_sorted_length (x : A) (l : list A) :
  List.length (insert_sorted before x l) = S (List.length l).
Proof.
  induction l as [|z l IH]; simpl; [reflexivity|].
  destruct (before z x); simpl; [now rewrite IH | reflexivity].
Qed.

Lemma forallb_insert_sorted (p : A -> bool) (x : A) (l : list A) :
  forallb p (insert_sorted before x l) = p x && forallb p l.
Proof.
  induction l as [|z l IH]; simpl.
  - reflexivity.
  - destruct (before z x); simpl; [|reflexivity].
    rewrite IH. now destruct (p z), (p x).
Qed.

Lemma insert_sorted_sorted (x : A) (l : list A) :
  is_sorted before l = true -> is_sorted before (insert_sorted before x l) = true.
Proof.
  induction l as [|z l IH]; simpl; [reflexivity|].
  rewrite andb_true_iff. intros [Hz Hl].
  destruct (before z x) eqn:E; simpl.
  - rewrite forallb_insert_sorted, E, Hz, (IH Hl). reflexivity.
  - rewrite (before_total _ _ E), Hz, Hl. simpl.
    rewrite !andb_true_r. apply forallb_forall. intros y Hy.
    rewrite forallb_forall in Hz.
    apply (before_trans x z y); [now apply before_total | now apply Hz].
Qed.

Lemma cursor_sort_spec (l : list A) :
  (forall y, In y (cursor_sort before l) <-> In y l)
  /\ List.length (cursor_sort before l) = List.length l
  /\ is_sorted before (cursor_sort before l) = true.
Proof.
  unfold cursor_sort. induction l as [|x l IH] using rev_ind; simpl.
  - repeat split; tauto.
  - destruct IH as (H1 & H2 & H3). rewrite fold_left_app. simpl.
    split; [|split].
    + intros y. rewrite insert_sorted_In, H1, in_app_iff. simpl.
      split; [intros [->|H]; auto | intros [H|[->|[]]]; auto].
    + rewrite insert_sorted_length, H2, length_app. simpl. lia.
    + now apply insert_sorted_sorted.
Qed.

Lemma is_sorted_skipn (k : nat) (l : list A) :
  is_sorted before l = true -> is_sorted before (skipn k l) = true.
Proof.
  revert l. induction k as [|k IH]; intros l; simpl; [trivial|].
  destruct l as [|x l]; simpl; [trivial|].
  rewrite andb_true_iff. intros [_ H]. now apply IH.
Qed.

Lemma is_sorted_firstn (k : nat) (l : list A) :
  is_sorted before l = true -> is_sorted before (firstn k l) = true.
Proof.
  revert l. induction k as [|k IH]; intros l; simpl; [trivial|].
  destruct l as [|x l]; simpl; [trivial|].
  rewrite !andb_true_iff. intros [Hx H]. split; [|now apply IH].
  apply forallb_forall. intros y Hy. rewrite forallb_forall in Hx.
  apply Hx. now apply (in_firstn k).
Qed.

End Sorting.

Lemma newer_total (x y : UploadData.t) :
  Upload.newer x y = false -> Upload.newer y x = true.
Proof. unfold Upload.newer. rewrite Z.leb_gt, Z.leb_le. lia. Qed.

Lemma newer_trans (x y z : UploadData.t) :
  Upload.newer x y = true -> Upload.newer y z = true ->
  Upload.newer x z = true.
Proof. unfold Upload.newer. rewrite !Z.leb_le. lia. Qed.

Lemma older_total (x y : ChatData.t) :
  ChatMessage.older x y = false -> ChatMessage.older y x = true.
Proof. unfold ChatMessage.older. rewrite Z.leb_gt, Z.leb_le. lia. Qed.

Lemma older_trans (x y z : ChatData.t) :
  ChatMessage.older x y = true -> ChatMessage.older y z = true ->
  ChatMessage.older x z = true.
Proof. unfold ChatMessage.older. rewrite !Z.leb_le. lia. Qed.

Lemma insert_sorted_perm {A : Type} (before : A -> A -> bool) (x : A)
    (l : list A) :
  Permutation.Permutation (insert_sorted before x l) (x :: l).
Proof.
  induction l as [|z l IH]; simpl; [apply Permutation.Permutation_refl|].
  destruct (before z x); [|apply Permutation.Permutation_refl].
  eapply Permutation.perm_trans;
    [apply Permutation.perm_skip, IH | apply Permutation.perm_swap].
Qed.

Lemma cursor_sort_perm {A : Type} (before : A -> A -> bool) (l : list A) :
  Permutation.Permutation (cursor_sort before l) l.
Proof.
  unfold cursor_sort. induction l as [|x l IH] using rev_ind; simpl.
  - apply Permutation.perm_nil.
  - rewrite fold_left_app. simpl.
    eapply Permutation.perm_trans; [apply insert_sorted_perm|].
    eapply Permutation.perm_trans; [apply Permutation.perm_skip, IH|].
    apply Permutation.Permutation_cons_append.
Qed.

Lemma is_sorted_app {A : Type} (before : A -> A -> bool) (a b : list A) :
  is_sorted before (a ++ b) = true ->
  forall x y : A, In x a -> In y b -> before x y = true.
Proof.
  induction a as [|z a IH]; simpl; [contradiction|].
  rewrite andb_true_iff. intros [Hz Ha] x y [<-|Hx] Hy.
  - rewrite forallb_forall in Hz. apply Hz, in_or_app. now right.
  - now apply IH.
Qed.

Lemma is_sorted_app_r {A : Type} (before : A -> A -> bool) (a b : list A) :
  is_sorted before (a ++ b) = true -> is_sorted before b = true.
Proof.
  induction a as [|z a IH]; simpl; [trivial|].
  rewrite andb_true_iff. intros [_ Ha]. now apply IH.
Qed.

(** X22. [Upload.find_all] works on the stored uploads put in order, newest
    first: that order holds every stored upload exactly as often as the
    store does. The result is the stretch of it that follows the first
    [skip] uploads, so every upload left out in front is at least as new as
    every upload returned; a positive [limit] ends the stretch after that
    many, so every upload returned is at least as new as every upload cut
    off behind. A [limit] of 0 is taken as no limit, just like no limit at
    all, and nothing is cut off behind. [Upload.find_by_user] returns
    exactly the stored uploads of that user, each as often as stored,
    newest first. *)
Theorem find_all_newest_first
    (limit : option nat) (skip : nat) (uploads : list UploadData.t) :
  let all := Upload.find_all None 0 uploads in
  let found := Upload.find_all limit skip uploads in
  Permutation.Permutation all uploads
  /\ is_sorted Upload.newer all = true
  /\ (exists skipped cut : list UploadData.t,
         all = (skipped ++ found ++ cut)%list
         /\ List.length skipped = Nat.min skip (List.length uploads)
         /\ (forall a b : UploadData.t,
                In a skipped -> In b found -> Upload.newer a b = true)
         /\ (forall b c : UploadData.t,
                In b found -> In c cut -> Upload.newer b c = true)
         /\ match limit with
            | Some (S n) =>
                List.length found
                = Nat.min (S n) (List.length uploads - skip)
            | _ => cut = []
            end)
  /\ (forall d : UploadData.t, In d found -> In d uploads)
  /\ is_sorted Upload.newer found = true
  /\ List.length found
     = match limit with
       | Some (S n) => Nat.min (S n) (List.length uploads - skip)
       | _ => (List.length uploads - skip)%nat
       end
  /\ Upload.find_all (Some 0%nat) skip uploads
     = Upload.find_all None skip uploads
  /\ (forall d : UploadData.t, In d uploads <-> In d all)
  /\ (forall user_id : nat,
         Permutation.Permutation (Upload.find_by_user user_id uploads)
           (filter (fun d => (UploadData.user_id d =? user_id)%nat) uploads))
  /\ (forall (user_id : nat) (d : UploadData.t),
         In d (Upload.find_by_user user_id uploads)
         <-> In d uploads /\ UploadData.user_id d = user_id)
  /\ (forall user_id : nat,
         is_sorted Upload.newer (Upload.find_by_user user_id uploads) = true).
Proof.
  cbv zeta.
  destruct (cursor_sort_spec Upload.newer newer_total newer_trans uploads)
    as (H1 & H2 & H3).
  assert (Upload.find_all None 0 uploads = cursor_sort Upload.newer uploads)
    as Eall by reflexivity.
  rewrite Eall.
  assert (forall d, In d (skipn skip (cursor_sort Upload.newer uploads)) ->
                    In d uploads) as Hin.
  { intros d Hd. apply H1. now apply (in_skipn skip). }
  pose proof (is_sorted_skipn Upload.newer skip _ H3) as Hs.
  split; [apply cursor_sort_perm|]. split; [exact H3|].
  split; [|split; [|split; [|split; [|split; [|split; [|split; [|split]]]]]]].
  - set (sorted := cursor_sort Upload.newer uploads) in *.
    exists (firstn skip sorted).
    exists (match limit with
            | Some (S n) => skipn (S n) (skipn skip sorted)
            | _ => []
            end).
    assert (sorted
            = (firstn skip sorted
               ++ Upload.find_all limit skip uploads
               ++ match limit with
                  | Some (S n) => skipn (S n) (skipn skip sorted)
                  | _ => []
                  end)%list) as Esplit.
    { unfold Upload.find_all. fold sorted.
      destruct limit as [[|n]|]; rewrite ?app_nil_r, ?firstn_skipn;
        reflexivity. }
    split; [exact Esplit|]. split.
    { rewrite length_firstn. fold sorted in H2. now rewrite H2. }
    rewrite Esplit in H3. split; [|split].
    + intros a b Ha Hb.
      apply (is_sorted_app Upload.newer _ _ H3 a b Ha).
      apply in_or_app. now left.
    + intros b c Hb Hc.
      apply (is_sorted_app Upload.newer _ _
               (is_sorted_app_r Upload.newer _ _ H3) b c Hb Hc).
    + destruct limit as [[|n]|]; try reflexivity.
      unfold Upload.find_all. fold sorted.
      now rewrite length_firstn, length_skipn, H2.
  - intros d. unfold Upload.find_all. destruct limit as [[|n]|]; try apply Hin.
    intros Hd. apply Hin. now apply (in_firstn (S n)).
  - unfold Upload.find_all. destruct limit as [[|n]|]; try exact Hs.
    now apply is_sorted_firstn.
  - unfold Upload.find_all. destruct limit as [[|n]|];
      rewrite ?length_firstn, length_skipn, H2; reflexivity.
  - reflexivity.
  - intros d. symmetry. apply H1.
  - intros user_id. unfold Upload.find_by_user. apply cursor_sort_perm.
  - intros user_id d. unfold Upload.find_by_user.
    destruct (cursor_sort_spec Upload.newer newer_total newer_trans
                (filter (fun x => (UploadData.user_id x =? user_id)%nat)
                   uploads)) as (F1 & _ & _).
    rewrite F1, filter_In. now rewrite Nat.eqb_eq.
  - intros user_id. unfold Upload.find_by_user.
    now destruct (cursor_sort_spec Upload.newer newer_total newer_trans
                    (filter (fun x => (UploadData.user_id x =? user_id)%nat)
                       uploads)) as (_ & _ & F3).
Qed.

(** ** Chat *)

(** X23. Who may write where. [send_message] stores a message only for a
    logged-in, verified actor, and then appends exactly one message: its
    text is the trimmed text of the request and is not empty, it is marked
    ['admin'] exactly when the sender's effective role is ['admin'], and
    it goes to the thread named in the request or, by default, to the
    sender's own; a sender who is not admin can only write to their own
    thread. Every other answer (a denial by the gate, "Unauthorized",
    "Message cannot be empty") leaves the messages untouched, and a request
    for someone else's thread is refused as unauthorized before its text is
    looked at. *)
Theorem send_message_own_thread
    (str : nat -> string) (env : Environ) (request : Request) (now : Z)
    (data : ChatPayload) (actor : Actor) (chat_messages : list ChatData.t) :
  let r := send_message str env request now data actor chat_messages in
  match fst r with
  | chat_sent message_id message sender_role =>
      exists (u : User.t) (m : ChatData.t),
        actor = LoggedIn u /\ User.is_verified u = true
        /\ snd r = insert_one m chat_messages
        /\ ChatData._id m = message_id
        /\ ChatData.message m = message
        /\ message = Py.strip (get_or (payload_message data) "")
        /\ message <> ""
        /\ ChatData.sender_role m = sender_role
        /\ sender_role
           = (if User.role env u =? "admin" then "admin" else "user")
        /\ ChatData.user_id m
           = get_or (payload_user_id data) (str (User.id u))
        /\ (User.role env u <> "admin" ->
            ChatData.user_id m = str (User.id u))
  | chat_error error status =>
      snd r = chat_messages
      /\ (exists u : User.t,
             actor = LoggedIn u
             /\ (get_or (payload_user_id data) (str (User.id u))
                 <> str (User.id u) ->
                 User.role env u <> "admin" ->
                 error = "Unauthorized" /\ status = 403%Z))
  | _ => snd r = chat_messages
  end.
Proof.
  cbv zeta. unfold send_message, verified_user_required, login_required,
    verified_user_required_view, deny_not_verified.
  destruct actor as [|u]; simpl; [reflexivity|].
  destruct (User.is_verified u) eqn:Ev; simpl.
  2: { destruct (expects_json request); reflexivity. }
  unfold send_message_view.
  destruct (get_or (payload_user_id data) (str (User.id u)) =? str (User.id u))
    eqn:Eid;
    destruct (User.role env u =? "admin") eqn:Er; simpl;
    destruct (Py.truthy (Py.strip (get_or (payload_message data) ""))) eqn:Et;
    simpl;
    try (split; [reflexivity|]; exists u; split; [reflexivity|];
         intros C1 C2;
         first [ apply String.eqb_eq in Eid; now elim C1
               | apply String.eqb_eq in Er; now elim C2
               | now split ]);
    eexists u, _; repeat split; try reflexivity;
    try (now apply truthy_true);
    try (intros C; apply String.eqb_eq in Er; now elim C);
    try (intros _; now apply String.eqb_eq in Eid);
    try assumption; try (now rewrite Er).
Qed.

(** X24. Who may read what. [list_messages] answers with messages only for
    a logged-in, verified actor who asks for their own thread or is admin;
    the answer then holds exactly the stored messages of the requested
    thread, oldest first. A verified actor who is not admin and asks for
    another thread gets "Unauthorized" (403). [list_all_messages] answers
    with messages only for a verified admin, and then with all of them,
    oldest first. Neither changes the store. *)
Theorem list_messages_own_thread
    (str : nat -> string) (env : Environ) (request : Request)
    (user_id : string) (actor : Actor) (chat_messages : list ChatData.t) :
  match list_messages str env request user_id actor chat_messages with
  | chat_list messages =>
      (exists u : User.t,
          actor = LoggedIn u /\ User.is_verified u = true
          /\ (user_id = str (User.id u) \/ User.role env u = "admin"))
      /\ (forall m : ChatData.t,
             In m messages <->
             In m chat_messages /\ ChatData.user_id m = user_id)
      /\ is_sorted ChatMessage.older messages = true
  | chat_error error status =>
      error = "Unauthorized" /\ status = 403%Z
      /\ exists u : User.t,
          actor = LoggedIn u /\ User.is_verified u = true
          /\ user_id <> str (User.id u) /\ User.role env u <> "admin"
  | chat_denied g =>
      allows (verified_user_required request actor) = false
  | chat_sent _ _ _ => False
  end
  /\ match list_all_messages env request actor chat_messages with
     | chat_list messages =>
         (exists u : User.t,
             actor = LoggedIn u /\ User.is_verified u = true
             /\ User.role env u = "admin")
         /\ (forall m : ChatData.t, In m messages <-> In m chat_messages)
         /\ is_sorted ChatMessage.older messages = true
     | chat_denied g => allows (admin_required env request actor) = false
     | _ => False
     end.
Proof.
  split.
  - unfold list_messages, verified_user_required, login_required,
      verified_user_required_view, deny_not_verified.
    destruct actor as [|u]; simpl; [reflexivity|].
    destruct (User.is_verified u) eqn:Ev; simpl.
    2: { destruct (expects_json request); reflexivity. }
    destruct (user_id =? str (User.id u)) eqn:Eid;
      destruct (User.role env u =? "admin") eqn:Er; simpl.
    4: { split; [reflexivity|]. split; [reflexivity|]. exists u.
         split; [reflexivity|]. split; [exact Ev|].
         split; now apply String.eqb_neq. }
    all: destruct (cursor_sort_spec ChatMessage.older older_total older_trans
                     (filter (fun d => ChatData.user_id d =? user_id)
                        chat_messages)) as (H1 & _ & H3);
      (split; [exists u; split; [reflexivity|]; split; [exact Ev|];
               first [ left; now apply String.eqb_eq
                     | right; now apply String.eqb_eq ] |]);
      split; [|exact H3];
      intros m; unfold ChatMessage.find_by_user; rewrite H1, filter_In;
      now rewrite String.eqb_eq.
  - unfold list_all_messages, admin_required, login_required,
      admin_required_view, deny_not_verified.
    destruct actor as [|u]; simpl; [reflexivity|].
    destruct (User.is_verified u) eqn:Ev; simpl.
    2: { destruct (expects_json request); reflexivity. }
    rewrite <- role_is_admin.
    destruct (User.role env u =? "admin") eqn:Er; simpl.
    2: { destruct (expects_json request); reflexivity. }
    destruct (cursor_sort_spec ChatMessage.older older_total older_trans
                chat_messages) as (H1 & _ & H3).
    split; [exists u; split; [reflexivity|]; split;
            [exact Ev | now apply String.eqb_eq]|].
    split; [exact H1 | exact H3].
Qed.

(** ** Uploading *)

Lemma label_sentiment_is_label (p : QArith_base.Q) :
  is_label (label_sentiment p) = true.
Proof.
  destruct (label_cases p) as [[H E] | [[H E] | (H1 & H2 & E)]];
    rewrite E; reflexivity.
Qed.

Lemma analyze_is_label (blob_polarity : string -> QArith_base.Q)
    (text : option string) :
  is_label (label (analyze blob_polarity text)) = true.
Proof.
  unfold analyze. destruct text as [t|]; [|reflexivity].
  destruct (negb (Py.truthy t)); [reflexivity|]. simpl.
  apply label_sentiment_is_label.
Qed.

Lemma validate_upload (FileAllowed : list string -> FileStorage -> bool)
    (form : UploadForm.t) :
  UploadForm.validate_on_submit FileAllowed form = true ->
  Py.truthy (UploadForm.description form) = true
  /\ (10 <= String.length (UploadForm.description form))%nat
  /\ file_present (UploadForm.image form) = true.
Proof.
  unfold UploadForm.validate_on_submit, data_required.
  rewrite !andb_true_iff.
  intros [[[[_ _] [[Hd _] Hl]] [Hi _]] _].
  repeat split; try assumption. now apply Nat.leb_le.
Qed.

Lemma upload_view_outcome
    (FileAllowed : list string -> FileStorage -> bool)
    (blob_polarity : string -> QArith_base.Q) (now : Z)
    (form : UploadForm.t) (oracle : UploadOracle) (u : User.t) (c : Content) :
  let r := upload_view FileAllowed blob_polarity now form oracle u c in
  match fst (fst r) with
  | page_redirect endpoint upload_id =>
      endpoint = "uploads.detail"
      /\ UploadForm.validate_on_submit FileAllowed form = true
      /\ image_put_failure oracle = None
      /\ exists d : UploadData.t,
          uploads (snd r) = insert_one d (uploads c)
          /\ UploadData._id d = upload_id
          /\ UploadData.user_id d = User.id u
          /\ UploadData.title d = UploadForm.title form
          /\ UploadData.description d = UploadForm.description form
          /\ UploadData.created_at d = now
          /\ UploadData.sentiment d
             = label_sentiment (blob_polarity (UploadForm.description form))
          /\ exists b : Blob,
              In b (fs (snd r)) /\ blob_id b = UploadData.image_file_id d
  | _ => uploads (snd r) = uploads c
  end.
Proof.
  cbv zeta. unfold upload_view.
  destruct (UploadForm.validate_on_submit FileAllowed form) eqn:Hv;
    [|reflexivity].
  destruct (validate_upload _ _ Hv) as (Hd & _ & Hi).
  destruct (UploadForm.image form) as [image_file|]; [|reflexivity].
  simpl in Hi. rewrite Hi. simpl negb. cbv iota.
  unfold fs_put at 1.
  destruct (image_put_failure oracle) as [e|] eqn:Ei; [reflexivity|].
  cbv beta iota zeta.
  set (image_blob := {| blob_id := S (list_max (map blob_id (fs c)));
                        blob_filename := filename image_file;
                        blob_content_type := content_type image_file |}).
  assert (label (analyze blob_polarity (Some (UploadForm.description form)))
          = label_sentiment (blob_polarity (UploadForm.description form)))
    as Hlab.
  { unfold analyze. now rewrite Hd. }
  destruct (UploadForm.audio form) as [audio_file|].
  - destruct (Py.truthy (filename audio_file)).
    + unfold fs_put.
      destruct (audio_put_failure oracle) as [e|]; [reflexivity|].
      cbn [Upload.create fst snd uploads fs].
      split; [reflexivity|]. split; [reflexivity|]. split; [reflexivity|].
      eexists. repeat split; [exact Hlab|].
      exists image_blob. split; [|reflexivity].
      cbn. unfold insert_one. rewrite ?in_app_iff. cbn. auto 6.
    + cbn [Upload.create fst snd uploads fs].
      split; [reflexivity|]. split; [reflexivity|]. split; [reflexivity|].
      eexists. repeat split; [exact Hlab|].
      exists image_blob. split; [|reflexivity].
      cbn. unfold insert_one. rewrite ?in_app_iff. cbn. auto 6.
  - cbn [Upload.create fst snd uploads fs].
    split; [reflexivity|]. split; [reflexivity|]. split; [reflexivity|].
    eexists. repeat split; [exact Hlab|].
    exists image_blob. split; [|reflexivity].
    cbn. unfold insert_one. rewrite ?in_app_iff. cbn. auto 6.
Qed.

(** X25. What an upload stores. [upload] appends a record only for a
    logged-in, verified actor who is not admin and whose form passed
    validation; the record belongs to that actor, carries the submitted
    title and description, a sentiment that is the label of the
    description's polarity (one of the three labels) and the id of an image
    blob that is in the blob store. Every other outcome leaves the uploads
    untouched, so uploads keep having one of the three labels. When the
    image was stored and storing the audio then fails, no record is written
    but the image stays in the blob store. *)
Theorem upload_stores_labelled_record
    (FileAllowed : list string -> FileStorage -> bool)
    (blob_polarity : string -> QArith_base.Q)
    (env : Environ) (request : Request) (now : Z) (form : UploadForm.t)
    (oracle : UploadOracle) (actor : Actor) (c : Content) :
  let r := upload FileAllowed blob_polarity env request now form oracle actor c in
  match fst (fst r) with
  | page_redirect endpoint upload_id =>
      endpoint = "uploads.detail"
      /\ UploadForm.validate_on_submit FileAllowed form = true
      /\ exists (u : User.t) (d : UploadData.t),
          actor = LoggedIn u /\ User.is_verified u = true
          /\ User.role env u <> "admin"
          /\ uploads (snd r) = insert_one d (uploads c)
          /\ UploadData._id d = upload_id
          /\ UploadData.user_id d = User.id u
          /\ UploadData.title d = UploadForm.title form
          /\ UploadData.description d = UploadForm.description form
          /\ UploadData.created_at d = now
          /\ UploadData.sentiment d
             = label_sentiment (blob_polarity (UploadForm.description form))
          /\ is_label (UploadData.sentiment d) = true
          /\ exists b : Blob,
              In b (fs (snd r)) /\ blob_id b = UploadData.image_file_id d
  | _ => uploads (snd r) = uploads c
  end
  /\ (forallb is_label (map UploadData.sentiment (uploads c)) = true ->
      forallb is_label (map UploadData.sentiment (uploads (snd r))) = true)
  /\ (forall (u : User.t) (e : string),
         actor = LoggedIn u ->
         allows (user_only env request actor) = true ->
         UploadForm.validate_on_submit FileAllowed form = true ->
         image_put_failure oracle = None ->
         file_present (UploadForm.audio form) = true ->
         audio_put_failure oracle = Some e ->
         fst (fst r) = page_render "uploads/upload.html"
         /\ uploads (snd r) = uploads c
         /\ List.length (fs (snd r)) = S (List.length (fs c))).
Proof.
  cbv zeta.
  assert (match fst (fst (upload FileAllowed blob_polarity env request now form
                            oracle actor c)) with
          | page_redirect endpoint upload_id =>
              endpoint = "uploads.detail"
              /\ UploadForm.validate_on_submit FileAllowed form = true
              /\ exists (u : User.t) (d : UploadData.t),
                  actor = LoggedIn u /\ User.is_verified u = true
                  /\ User.role env u <> "admin"
                  /\ uploads (snd (upload FileAllowed blob_polarity env request
                                     now form oracle actor c))
                     = insert_one d (uploads c)
                  /\ UploadData._id d = upload_id
                  /\ UploadData.user_id d = User.id u
                  /\ UploadData.title d = UploadForm.title form
                  /\ UploadData.description d = UploadForm.description form
                  /\ UploadData.created_at d = now
                  /\ UploadData.sentiment d
                     = label_sentiment
                         (blob_polarity (UploadForm.description form))
                  /\ is_label (UploadData.sentiment d) = true
                  /\ exists b : Blob,
                      In b (fs (snd (upload FileAllowed blob_polarity env
                                       request now form oracle actor c)))
                      /\ blob_id b = UploadData.image_file_id d
          | _ => uploads (snd (upload FileAllowed blob_polarity env request now
                                 form oracle actor c)) = uploads c
          end) as Hmain.
  { unfold upload, user_only, login_required, user_only_view,
      deny_not_verified.
    destruct actor as [|u]; simpl; [reflexivity|].
    destruct (User.is_verified u) eqn:Ev; simpl.
    2: { destruct (expects_json request); reflexivity. }
    rewrite <- role_is_admin.
    destruct (User.role env u =? "admin") eqn:Er; simpl.
    1: { destruct (expects_json request); reflexivity. }
    pose proof (upload_view_outcome FileAllowed blob_polarity now form oracle
                  u c) as H. cbv zeta in H.
    destruct (fst (fst (upload_view FileAllowed blob_polarity now form oracle
                          u c))) as [g|t|endpoint upload_id];
      try exact H.
    destruct H as (H1 & H2 & _ & d & H4 & H5 & H6 & H7 & H8 & H9 & H10 & H11).
    split; [exact H1|]. split; [exact H2|].
    exists u, d. split; [reflexivity|]. split; [exact Ev|].
    split; [now apply String.eqb_neq|].
    repeat (split; [assumption|]).
    split; [rewrite H10; apply label_sentiment_is_label | exact H11]. }
  split; [exact Hmain|]. split.
  - intros Hall.
    destruct (fst (fst (upload FileAllowed blob_polarity env request now form
                          oracle actor c))) as [g|t|endpoint upload_id];
      try (now rewrite Hmain).
    destruct Hmain as (_ & _ & u & d & _ & _ & _ & -> & _ & _ & _ & _ & _ & _
                       & Hl & _).
    unfold insert_one. rewrite map_app, forallb_app, Hall. simpl.
    now rewrite Hl.
  - intros u e -> Hallow Hv Hi Ha He.
    unfold upload. destruct (user_only env request (LoggedIn u));
      try discriminate.
    unfold upload_view. rewrite Hv.
    destruct (validate_upload _ _ Hv) as (_ & _ & Hp).
    destruct (UploadForm.image form) as [image_file|]; [|discriminate].
    simpl in Hp. rewrite Hp. simpl negb. cbv iota.
    unfold fs_put at 1. rewrite Hi. cbv beta iota zeta.
    destruct (UploadForm.audio form) as [audio_file|]; [|discriminate].
    simpl in Ha. rewrite Ha. unfold fs_put. rewrite He.
    cbn [fst snd uploads fs]. repeat split.
    unfold insert_one. rewrite length_app. simpl. lia.
Qed.

Lemma upload_stores_labelled_record_witness :
  let r := upload any_file polarity_of_words env_unset page 100 cat_form
             audio_fails (LoggedIn eve_user_only) empty_content in
  fst (fst r) = page_render "uploads/upload.html"
  /\ uploads (snd r) = []
  /\ List.length (fs (snd r)) = 1%nat.
Proof.
  exact (proj2 (proj2 (upload_stores_labelled_record any_file polarity_of_words
                         env_unset page 100%Z cat_form audio_fails
                         (LoggedIn eve_user_only) empty_content))
           eve_user_only "disk full" eq_refl eq_refl eq_refl eq_refl eq_refl
           eq_refl).
Defined.

(** ** Files and the detail page *)

Lemma find_key_fresh {A : Type} (key : A -> nat) (l : list A) (i : nat) :
  (list_max (map key l) < i)%nat ->
  find (fun x => (key x =? i)%nat) l = None.
Proof.
  induction l as [|x l IH]; simpl; [reflexivity|].
  intros H. destruct (Nat.eqb_spec (key x) i) as [E|E]; [lia|].
  apply IH. lia.
Qed.

Lemma find_snoc_fresh {A : Type} (key : A -> nat) (l : list A) (x : A) :
  key x = S (list_max (map key l)) ->
  find (fun y => (key y =? key x)%nat) (l ++ [x]) = Some x.
Proof.
  intros H. rewrite find_app_none.
  - now rewrite Nat.eqb_refl.
  - apply find_key_fresh. lia.
Qed.

Lemma open_page_for_verified (env : Environ) (request : Request) (u : User.t) :
  User.is_verified u = true ->
  exists gate : Actor -> Gate,
    gate_of env request
      (if User.role env u =? "admin" then "admin.dashboard"
       else "uploads.gallery") = Some gate
    /\ allows (gate (LoggedIn u)) = true.
Proof.
  intros Hv. rewrite role_is_admin.
  destruct (gate_is_admin env u) eqn:Ea.
  - exists (admin_required env request). split; [reflexivity|].
    unfold admin_required, login_required, admin_required_view. simpl.
    now rewrite Hv, Ea.
  - exists (user_only env request). split; [reflexivity|].
    unfold user_only, login_required, user_only_view. simpl.
    now rewrite Hv, Ea.
Qed.

Lemma fs_get_none (file_id : nat) (blobs : list Blob) :
  fs_get file_id blobs = None ->
  forall b : Blob, In b blobs -> blob_id b <> file_id.
Proof.
  intros H b Hin E.
  pose proof (find_none _ _ H b Hin) as F. simpl in F.
  apply Nat.eqb_neq in F. contradiction.
Qed.

Lemma fs_get_some (file_id : nat) (blobs : list Blob) (b : Blob) :
  fs_get file_id blobs = Some b -> In b blobs /\ blob_id b = file_id.
Proof.
  intros H. apply find_some in H. destruct H as [Hin E].
  split; [exact Hin | now apply Nat.eqb_eq].
Qed.

(** X26. Who is served which file. [get_image] sends a file only to a
    logged-in, verified actor, and the file sent is the stored one whose id
    the requested text denotes, under its stored name and content type; any
    verified actor is served any stored file, uploader or not. When the id
    is malformed or no file has it, an error is flashed and the actor is
    redirected to a page whose gate lets that actor in. [get_audio] sends
    exactly the files [get_image] sends: neither looks at the kind of the
    file. *)
Theorem file_routes_serve_stored_files
    (ObjectId : string -> option nat) (error_text : string -> string)
    (env : Environ) (request : Request) (file_id : string) (actor : Actor)
    (blobs : list Blob) :
  match get_image ObjectId error_text env request file_id actor blobs with
  | send_file grid_file mimetype download_name =>
      allows (verified_user_required request actor) = true
      /\ In grid_file blobs
      /\ ObjectId file_id = Some (blob_id grid_file)
      /\ mimetype = blob_content_type grid_file
      /\ download_name = blob_filename grid_file
  | file_redirect flashed endpoint =>
      category flashed = "error"
      /\ (forall b : Blob, In b blobs -> ObjectId file_id <> Some (blob_id b))
      /\ exists gate : Actor -> Gate,
          gate_of env request endpoint = Some gate
          /\ allows (gate actor) = true
  | file_denied g =>
      g = verified_user_required request actor /\ allows g = false
  end
  /\ (forall (grid_file : Blob) (mimetype download_name : string),
         get_audio ObjectId error_text env request file_id actor blobs
         = send_file grid_file mimetype download_name
         <-> get_image ObjectId error_text env request file_id actor blobs
             = send_file grid_file mimetype download_name)
  /\ (forall (viewer : User.t) (b : Blob),
         User.is_verified viewer = true ->
         ObjectId file_id = Some (blob_id b) ->
         fs_get (blob_id b) blobs = Some b ->
         get_image ObjectId error_text env request file_id (LoggedIn viewer)
           blobs
         = send_file b (blob_content_type b) (blob_filename b)).
Proof.
  split; [|split].
  - unfold get_image, verified_user_required, login_required,
      verified_user_required_view, deny_not_verified.
    destruct actor as [|u]; simpl; [split; reflexivity|].
    destruct (User.is_verified u) eqn:Ev; simpl.
    2: { destruct (expects_json request); split; reflexivity. }
    destruct (ObjectId file_id) as [oid|] eqn:Eo.
    + destruct (fs_get oid blobs) as [b|] eqn:Eg.
      * destruct (fs_get_some _ _ _ Eg) as [Hin Hid].
        split; [reflexivity|]. split; [exact Hin|].
        split; [now rewrite Hid|]. split; reflexivity.
      * split; [reflexivity|]. split.
        -- intros b Hin [= E]. now apply (fs_get_none _ _ Eg b Hin).
        -- now apply open_page_for_verified.
    + split; [reflexivity|]. split; [discriminate|].
      now apply open_page_for_verified.
  - intros grid_file mimetype download_name.
    unfold get_audio, get_image.
    destruct (verified_user_required request actor); try tauto.
    destruct actor as [|u]; try tauto.
    destruct (ObjectId file_id) as [oid|].
    + destruct (fs_get oid blobs); [tauto|]. split; discriminate.
    + split; discriminate.
  - intros viewer b Hv Ho Hg.
    unfold get_image, verified_user_required, login_required,
      verified_user_required_view. simpl.
    now rewrite Hv, Ho, Hg.
Qed.

Lemma decimal_round_trip (n : nat) : ObjectId_decimal (str_decimal n) = Some n.
Proof.
  unfold ObjectId_decimal, str_decimal.
  rewrite DecimalString.NilEmpty.usu. simpl.
  now rewrite DecimalNat.Unsigned.of_to.
Qed.

Lemma upload_view_files
    (FileAllowed : list string -> FileStorage -> bool)
    (blob_polarity : string -> QArith_base.Q) (now : Z)
    (form : UploadForm.t) (oracle : UploadOracle) (u : User.t) (c : Content)
    (endpoint : string) (upload_id : nat) :
  let r := upload_view FileAllowed blob_polarity now form oracle u c in
  fst (fst r) = page_redirect endpoint upload_id ->
  exists (d : UploadData.t) (image_file : FileStorage),
    UploadForm.image form = Some image_file
    /\ find_one (fun x => (UploadData._id x =? upload_id)%nat) (uploads (snd r))
       = Some d
    /\ UploadData.title d = UploadForm.title form
    /\ UploadData.description d = UploadForm.description form
    /\ fs_get (UploadData.image_file_id d) (fs (snd r))
       = Some {| blob_id := UploadData.image_file_id d;
                 blob_filename := filename image_file;
                 blob_content_type := content_type image_file |}
    /\ match UploadData.audio_file_id d with
       | Some audio_id =>
           exists audio_file : FileStorage,
             UploadForm.audio form = Some audio_file
             /\ fs_get audio_id (fs (snd r))
                = Some {| blob_id := audio_id;
                          blob_filename := filename audio_file;
                          blob_content_type := content_type audio_file |}
       | None => file_present (UploadForm.audio form) = false
       end.
Proof.
  cbv zeta. unfold upload_view.
  destruct (UploadForm.validate_on_submit FileAllowed form) eqn:Hv;
    [|discriminate].
  destruct (validate_upload _ _ Hv) as (_ & _ & Hi).
  destruct (UploadForm.image form) as [image_file|]; [|discriminate].
  simpl in Hi. rewrite Hi. simpl negb. cbv iota.
  unfold fs_put at 1.
  destruct (image_put_failure oracle) as [e|] eqn:Ei; [discriminate|].
  cbv beta iota zeta.
  set (image_blob := {| blob_id := S (list_max (map blob_id (fs c)));
                        blob_filename := filename image_file;
                        blob_content_type := content_type image_file |}).
  assert (find (fun b => (blob_id b =? blob_id image_blob)%nat)
            (fs c ++ [image_blob]) = Some image_blob) as Himg
    by (now apply find_snoc_fresh).
  destruct (UploadForm.audio form) as [audio_file|] eqn:Ea.
  - destruct (Py.truthy (filename audio_file)) eqn:Et.
    + unfold fs_put.
      destruct (audio_put_failure oracle) as [e|]; [discriminate|].
      cbn [Upload.create fst snd uploads fs]. intros [= _ <-].
      eexists. exists image_file. split; [reflexivity|].
      split; [unfold find_one, insert_one;
             match goal with
             | |- find _ (?l ++ [?x]) = _ =>
                 apply (find_snoc_fresh UploadData._id l x); reflexivity
             end|].
      split; [reflexivity|]. split; [reflexivity|].
      cbn [UploadData.image_file_id UploadData.audio_file_id].
      split.
      * unfold fs_get, find_one, insert_one.
        now apply find_app_some.
      * exists audio_file. split; [reflexivity|].
        unfold fs_get, find_one, insert_one.
        match goal with
        | |- find _ (?l ++ [?x]) = _ =>
            apply (find_snoc_fresh blob_id l x); reflexivity
        end.
    + unfold fs_put. cbn [Upload.create fst snd uploads fs]. intros [= _ <-].
      eexists. exists image_file. split; [reflexivity|].
      split; [unfold find_one, insert_one;
             match goal with
             | |- find _ (?l ++ [?x]) = _ =>
                 apply (find_snoc_fresh UploadData._id l x); reflexivity
             end|].
      split; [reflexivity|]. split; [reflexivity|].
      cbn [UploadData.image_file_id UploadData.audio_file_id].
      split; [exact Himg|]. simpl. exact Et.
  - unfold fs_put. cbn [Upload.create fst snd uploads fs]. intros [= _ <-].
    eexists. exists image_file. split; [reflexivity|].
    split; [unfold find_one, insert_one;
             match goal with
             | |- find _ (?l ++ [?x]) = _ =>
                 apply (find_snoc_fresh UploadData._id l x); reflexivity
             end|].
    split; [reflexivity|]. split; [reflexivity|].
    cbn [UploadData.image_file_id UploadData.audio_file_id].
    split; [exact Himg | reflexivity].
Qed.

(** X27. What was uploaded can be looked at. After a successful upload,
    when the text of an id denotes that id again, the detail page of the
    returned upload id shows the record just stored, with the submitted
    title and description; the image id of that record makes [get_image]
    send, to every verified actor, a file with the name and content type of
    the submitted image; and the record has an audio id exactly when an
    audio file was submitted, which [get_audio] then sends under its own
    name and content type. *)
Theorem uploaded_content_is_served
    (FileAllowed : list string -> FileStorage -> bool)
    (blob_polarity : string -> QArith_base.Q)
    (ObjectId : string -> option nat) (str : nat -> string)
    (error_text : string -> string)
    (env : Environ) (request : Request) (now : Z) (form : UploadForm.t)
    (oracle : UploadOracle) (actor : Actor) (c : Content)
    (endpoint : string) (upload_id : nat) :
  (forall n : nat, ObjectId (str n) = Some n) ->
  let r := upload FileAllowed blob_polarity env request now form oracle actor c in
  fst (fst r) = page_redirect endpoint upload_id ->
  exists (d : UploadData.t) (image_file : FileStorage),
    UploadForm.image form = Some image_file
    /\ (forall request' : Request,
           detail ObjectId str env request' (str upload_id) actor
             (uploads (snd r))
           = detail_render d (str (UploadData.image_file_id d))
               (option_map str (UploadData.audio_file_id d)))
    /\ UploadData.title d = UploadForm.title form
    /\ UploadData.description d = UploadForm.description form
    /\ (forall (request' : Request) (viewer : User.t),
           User.is_verified viewer = true ->
           get_image ObjectId error_text env request'
             (str (UploadData.image_file_id d)) (LoggedIn viewer) (fs (snd r))
           = send_file {| blob_id := UploadData.image_file_id d;
                          blob_filename := filename image_file;
                          blob_content_type := content_type image_file |}
               (content_type image_file) (filename image_file))
    /\ match UploadData.audio_file_id d with
       | Some audio_id =>
           exists audio_file : FileStorage,
             UploadForm.audio form = Some audio_file
             /\ forall (request' : Request) (viewer : User.t),
                 User.is_verified viewer = true ->
                 get_audio ObjectId error_text env request' (str audio_id)
                   (LoggedIn viewer) (fs (snd r))
                 = send_file {| blob_id := audio_id;
                                blob_filename := filename audio_file;
                                blob_content_type := content_type audio_file |}
                     (content_type audio_file) (filename audio_file)
       | None => file_present (UploadForm.audio form) = false
       end.
Proof.
  intros Hid. cbv zeta. unfold upload.
  destruct (user_only env request actor) eqn:Eg; try discriminate.
  destruct actor as [|u]; [discriminate|].
  intros Hr.
  destruct (upload_view_files FileAllowed blob_polarity now form oracle u c
              endpoint upload_id Hr)
    as (d & image_file & H1 & H2 & H3 & H4 & H5 & H6).
  assert (User.is_verified u = true /\ gate_is_admin env u = false)
    as [Hv Ha].
  { revert Eg. unfold user_only, login_required, user_only_view,
      deny_not_verified. simpl.
    destruct (User.is_verified u); simpl.
    - destruct (gate_is_admin env u); [|auto].
      destruct (expects_json request); discriminate.
    - destruct (expects_json request); discriminate. }
  exists d, image_file. split; [exact H1|]. split.
  { intros request'. unfold detail, user_only, login_required, user_only_view.
    simpl. rewrite Hv, Ha. simpl.
    unfold Upload.find_by_id. now rewrite Hid, H2. }
  split; [exact H3|]. split; [exact H4|]. split.
  { intros request' viewer Hw.
    unfold get_image, verified_user_required, login_required,
      verified_user_required_view. simpl.
    now rewrite Hw, Hid, H5. }
  destruct (UploadData.audio_file_id d) as [audio_id|]; [|exact H6].
  destruct H6 as (audio_file & Ha1 & Ha2).
  exists audio_file. split; [exact Ha1|].
  intros request' viewer Hw.
  unfold get_audio, verified_user_required, login_required,
    verified_user_required_view. simpl.
  now rewrite Hw, Hid, Ha2.
Qed.

Lemma uploaded_content_is_served_witness :
  exists d : UploadData.t,
    detail ObjectId_decimal str_decimal env_unset page (str_decimal 1)
      (LoggedIn eve_user_only)
      (uploads (snd (upload any_file polarity_of_words env_unset page 100
                       cat_form upload_ok (LoggedIn eve_user_only)
                       empty_content)))
    = detail_render d (str_decimal (UploadData.image_file_id d))
        (option_map str_decimal (UploadData.audio_file_id d)).
Proof.
  destruct (uploaded_content_is_served any_file polarity_of_words
              ObjectId_decimal str_decimal no_text env_unset page 100%Z
              cat_form upload_ok (LoggedIn eve_user_only) empty_content
              "uploads.detail" 1%nat decimal_round_trip eq_refl)
    as (d & image_file & _ & Hd & _).
  exists d. exact (Hd page).
Defined.

(** ** The chats page *)

Lemma dict_set_keys_new {V : Type} (k : string) (v : V)
    (d : list (string * V)) :
  dict_has k d = false -> map fst (dict_set k v d) = (map fst d ++ [k])%list.
Proof.
  unfold dict_has. induction d as [|[k0 v0] rest IH]; simpl; [reflexivity|].
  destruct (k0 =? k) eqn:E; simpl; [discriminate|].
  intros H. now rewrite IH.
Qed.

Lemma dict_has_keys {V : Type} (k : string) (d : list (string * V)) :
  dict_has k d = true <-> In k (map fst d).
Proof.
  unfold dict_has. induction d as [|[k0 v0] rest IH]; simpl.
  - split; [discriminate | contradiction].
  - destruct (String.eqb_spec k0 k) as [E|E].
    + split; auto.
    + rewrite IH. split; [auto | intros [C|C]; [now elim E | exact C]].
Qed.

Lemma dict_lookup_in {V : Type} (k : string) (v : V) (d : list (string * V)) :
  NoDup (map fst d) -> In (k, v) d -> dict_lookup k d = Some v.
Proof.
  induction d as [|[k0 v0] rest IH]; simpl; [contradiction|].
  intros Hnd [E|Hin].
  - inversion E; subst. now rewrite String.eqb_refl.
  - inversion Hnd as [|? ? Hn Hr]; subst.
    destruct (String.eqb_spec k0 k) as [E|E].
    + subst. elim Hn. change k with (fst (k, v)). now apply in_map.
    + now apply IH.
Qed.

Lemma dict_has_lookup {V : Type} (k : string) (d : list (string * V)) :
  dict_has k d = false -> dict_lookup k d = None.
Proof. unfold dict_has. now destruct (dict_lookup k d). Qed.

Lemma filter_none {A : Type} (p : A -> bool) (l : list A) :
  (forall x, In x l -> p x = false) -> filter p l = [].
Proof.
  induction l as [|x l IH]; simpl; [reflexivity|].
  intros H. rewrite (H x (or_introl eq_refl)). apply IH.
  intros y Hy. apply H. now right.
Qed.

Lemma chats_entry_orphan (ObjectId : string -> option nat)
    (str : nat -> string) (users : list UserData.t) (msg : ChatData.t) :
  orphan ObjectId users msg
  = match chats_entry ObjectId str users (ChatData.user_id msg) with
    | Some _ => false
    | None => true
    end.
Proof.
  unfold orphan, chats_entry.
  destruct (ObjectId (ChatData.user_id msg)); [|reflexivity].
  now destruct (find_one (has_id n) users).
Qed.

Lemma chats_entry_messages (ObjectId : string -> option nat)
    (str : nat -> string) (users : list UserData.t) (user_id : string)
    (entry : ChatGroup) :
  chats_entry ObjectId str users user_id = Some entry ->
  entry = {| group_user := group_user entry; group_messages := [] |}.
Proof.
  unfold chats_entry.
  destruct (ObjectId user_id) as [oid|].
  - destruct (find_one (has_id oid) users); [|discriminate].
    now intros [= <-].
  - now intros [= <-].
Qed.

Lemma chats_step_spec (ObjectId : string -> option nat) (str : nat -> string)
    (users : list UserData.t) (users_chats : list (string * ChatGroup))
    (done : list ChatData.t) (msg : ChatData.t) :
  chats_inv ObjectId str users users_chats done ->
  match chats_step ObjectId str users users_chats msg with
  | Some users_chats' =>
      orphan ObjectId users msg = false
      /\ chats_inv ObjectId str users users_chats' (done ++ [msg])
  | None => orphan ObjectId users msg = true
  end.
Proof.
  intros (Hnd & Hl & Hh). unfold chats_step.
  set (k := ChatData.user_id msg).
  assert (forall k' : string,
             filter (in_thread k') (done ++ [msg])
             = (filter (in_thread k') done
                ++ if k =? k' then [msg] else [])%list) as Hf.
  { intros k'. rewrite filter_app. simpl. unfold in_thread at 2. fold k.
    now destruct (k =? k'). }
  destruct (dict_has k users_chats) eqn:Eh; simpl negb; cbv iota.
  - unfold dict_has in Eh.
    destruct (dict_lookup k users_chats) as [entry|] eqn:El; [|discriminate].
    destruct (Hl k entry El) as (E1 & E2 & E3).
    split.
    { rewrite (chats_entry_orphan ObjectId str). fold k. now rewrite E3. }
    split; [|split].
    + rewrite dict_set_keys; [exact Hnd|]. unfold dict_has. now rewrite El.
    + intros k' g. rewrite dict_lookup_set, Hf.
      destruct (String.eqb_spec k k') as [<-|Ek].
      * intros [= <-]. simpl. rewrite E1. split; [reflexivity|].
        split; [now destruct (filter (in_thread k) done) | exact E3].
      * intros Hg. rewrite app_nil_r. now apply Hl.
    + intros m Hm. unfold dict_has. rewrite dict_lookup_set.
      destruct (k =? ChatData.user_id m) eqn:Ek; [reflexivity|].
      apply in_app_or in Hm. destruct Hm as [Hm|[<-|[]]].
      * exact (Hh m Hm).
      * unfold k in Ek. now rewrite String.eqb_refl in Ek.
  - pose proof (dict_has_lookup _ _ Eh) as El.
    rewrite (chats_entry_orphan ObjectId str). fold k.
    destruct (chats_entry ObjectId str users k) as [entry|] eqn:Ee.
    2: { now rewrite El. }
    rewrite dict_lookup_set, String.eqb_refl.
    pose proof (chats_entry_messages _ _ _ _ _ Ee) as Em.
    assert (filter (in_thread k) done = []) as Hnone.
    { apply filter_none. intros m Hm. unfold in_thread.
      destruct (String.eqb_spec (ChatData.user_id m) k) as [E|E];
        [|reflexivity].
      pose proof (Hh m Hm) as C. rewrite E in C. congruence. }
    split; [reflexivity|]. split; [|split].
    + rewrite dict_set_keys.
      * rewrite dict_set_keys_new by exact Eh.
        apply NoDup_snoc; [exact Hnd|].
        intros C. apply dict_has_keys in C. congruence.
      * unfold dict_has. now rewrite dict_lookup_set, String.eqb_refl.
    + intros k' g. rewrite !dict_lookup_set, Hf.
      destruct (String.eqb_spec k k') as [<-|Ek].
      * intros [= <-]. simpl. rewrite Hnone. rewrite Em. simpl.
        split; [reflexivity|]. split; [discriminate|].
        now rewrite Ee, Em at 1.
      * intros Hg. rewrite app_nil_r. now apply Hl.
    + intros m Hm. unfold dict_has. rewrite !dict_lookup_set.
      destruct (k =? ChatData.user_id m) eqn:Ek; [reflexivity|].
      apply in_app_or in Hm. destruct Hm as [Hm|[<-|[]]].
      * exact (Hh m Hm).
      * unfold k in Ek. now rewrite String.eqb_refl in Ek.
Qed.

Lemma chats_loop_spec (ObjectId : string -> option nat) (str : nat -> string)
    (users : list UserData.t) (todo : list ChatData.t) :
  forall (users_chats : list (string * ChatGroup)) (done : list ChatData.t),
    chats_inv ObjectId str users users_chats done ->
    match chats_loop ObjectId str users todo users_chats with
    | Some users_chats' =>
        existsb (orphan ObjectId users) todo = false
        /\ chats_inv ObjectId str users users_chats' (done ++ todo)
    | None => existsb (orphan ObjectId users) todo = true
    end.
Proof.
  induction todo as [|msg rest IH]; intros users_chats done Hinv; simpl.
  - split; [reflexivity|]. now rewrite app_nil_r.
  - pose proof (chats_step_spec ObjectId str users users_chats done msg Hinv)
      as Hs.
    destruct (chats_step ObjectId str users users_chats msg) as [uc|].
    + destruct Hs as [Ho Hi]. rewrite Ho. simpl.
      specialize (IH uc (done ++ [msg])%list Hi).
      now rewrite <- app_assoc in IH.
    + now rewrite Hs.
Qed.

Lemma chats_outcome (ObjectId : string -> option nat) (str : nat -> string)
    (env : Environ) (request : Request) (actor : Actor)
    (users : list UserData.t) (chat_messages : list ChatData.t) :
  match chats ObjectId str env request actor users chat_messages with
  | chats_render groups =>
      allows (admin_required env request actor) = true
      /\ (forall m : ChatData.t,
             In m chat_messages -> orphan ObjectId users m = false)
      /\ exists users_chats : list (string * ChatGroup),
          groups = map snd users_chats
          /\ NoDup (map fst users_chats)
          /\ (forall m : ChatData.t,
                 In m chat_messages ->
                 In (ChatData.user_id m) (map fst users_chats))
          /\ (forall (user_id : string) (g : ChatGroup),
                 In (user_id, g) users_chats ->
                 group_messages g
                 = filter (in_thread user_id)
                     (ChatMessage.find_all chat_messages)
                 /\ group_messages g <> []
                 /\ chats_entry ObjectId str users user_id
                    = Some {| group_user := group_user g;
                              group_messages := [] |})
  | chats_KeyError =>
      allows (admin_required env request actor) = true
      /\ exists m : ChatData.t,
          In m chat_messages /\ orphan ObjectId users m = true
  | chats_denied g =>
      g = admin_required env request actor /\ allows g = false
  end.
Proof.
  unfold chats.
  destruct (admin_required env request actor) eqn:Eg;
    try (split; reflexivity).
  destruct (cursor_sort_spec ChatMessage.older older_total older_trans
              chat_messages) as (Hin & _ & _).
  assert (chats_inv ObjectId str users [] []) as Hinit.
  { split; [constructor|]. split; [discriminate | contradiction]. }
  pose proof (chats_loop_spec ObjectId str users
                (ChatMessage.find_all chat_messages) [] [] Hinit) as Hs.
  destruct (chats_loop ObjectId str users (ChatMessage.find_all chat_messages)
              []) as [uc|].
  - destruct Hs as (Ho & Hnd & Hl & Hh). simpl app in *.
    split; [reflexivity|]. split.
    { intros m Hm. destruct (orphan ObjectId users m) eqn:Em; [|reflexivity].
      assert (existsb (orphan ObjectId users)
                (ChatMessage.find_all chat_messages) = true) as C.
      { apply existsb_exists. exists m. split; [|exact Em].
        now apply Hin. }
      congruence. }
    exists uc. split; [reflexivity|]. split; [exact Hnd|]. split.
    + intros m Hm. apply dict_has_keys. apply Hh. now apply Hin.
    + intros user_id g Hg. apply Hl. now apply dict_lookup_in.
  - split; [reflexivity|].
    apply existsb_exists in Hs. destruct Hs as (m & Hm & Ho).
    exists m. split; [now apply Hin | exact Ho].
Qed.

(** X28. The chats page groups the messages by thread, or fails. For a
    verified admin, [chats] raises [KeyError] exactly when some message
    belongs to a thread whose id is well formed but is the id of no user;
    otherwise it shows one group for each thread that has messages, every
    group holding all messages of its thread, oldest first, under the
    address of the thread's user, or under ['Unknown'] when the thread's id
    is malformed. Such a failure can be caused through the application
    itself: once an admin has sent a message to a thread with a well-formed
    id that no user has, the page fails. *)
Theorem chats_groups_threads
    (ObjectId : string -> option nat) (str : nat -> string)
    (env : Environ) (request : Request) (actor : Actor)
    (users : list UserData.t) (chat_messages : list ChatData.t) :
  match chats ObjectId str env request actor users chat_messages with
  | chats_render groups =>
      allows (admin_required env request actor) = true
      /\ (forall m : ChatData.t,
             In m chat_messages -> orphan ObjectId users m = false)
      /\ exists users_chats : list (string * ChatGroup),
          groups = map snd users_chats
          /\ NoDup (map fst users_chats)
          /\ (forall m : ChatData.t,
                 In m chat_messages ->
                 In (ChatData.user_id m) (map fst users_chats))
          /\ (forall (user_id : string) (g : ChatGroup),
                 In (user_id, g) users_chats ->
                 group_messages g
                 = filter (in_thread user_id)
                     (ChatMessage.find_all chat_messages)
                 /\ group_messages g <> []
                 /\ chats_entry ObjectId str users user_id
                    = Some {| group_user := group_user g;
                              group_messages := [] |})
  | chats_KeyError =>
      allows (admin_required env request actor) = true
      /\ exists m : ChatData.t,
          In m chat_messages /\ orphan ObjectId users m = true
  | chats_denied g =>
      g = admin_required env request actor /\ allows g = false
  end
  /\ (forall (request' : Request) (now : Z) (data : ChatPayload)
             (thread : string) (oid : nat),
         allows (admin_required env request actor) = true ->
         payload_user_id data = Some thread ->
         Py.truthy (Py.strip (get_or (payload_message data) "")) = true ->
         ObjectId thread = Some oid ->
         find_one (has_id oid) users = None ->
         chats ObjectId str env request actor users
           (snd (send_message str env request' now data actor chat_messages))
         = chats_KeyError).
Proof.
  split; [apply chats_outcome|].
  intros request' now data thread oid Ha Hp Ht Ho Hf.
  assert (exists u : User.t,
             actor = LoggedIn u /\ User.is_verified u = true
             /\ gate_is_admin env u = true) as (u & -> & Hv & Hadm).
  { revert Ha. unfold admin_required, login_required, admin_required_view,
      deny_not_verified.
    destruct actor as [|u]; simpl; [discriminate|].
    destruct (User.is_verified u) eqn:Ev; simpl.
    - destruct (gate_is_admin env u) eqn:Ea; simpl.
      + intros _. exists u. auto.
      + destruct (expects_json request); discriminate.
    - destruct (expects_json request); discriminate. }
  assert (exists m : ChatData.t,
             snd (send_message str env request' now data (LoggedIn u)
                    chat_messages) = insert_one m chat_messages
             /\ ChatData.user_id m = thread) as (m & Hs & Hm).
  { unfold send_message, verified_user_required, login_required,
      verified_user_required_view. simpl. rewrite Hv. simpl.
    unfold send_message_view. rewrite Hp, role_is_admin, Hadm, Ht. simpl.
    rewrite andb_false_r. simpl. eexists. split; reflexivity. }
  rewrite Hs.
  pose proof (chats_outcome ObjectId str env request (LoggedIn u) users
                (insert_one m chat_messages)) as H.
  destruct (chats ObjectId str env request (LoggedIn u) users
              (insert_one m chat_messages)) as [g|  |groups].
  - destruct H as [-> C]. congruence.
  - reflexivity.
  - destruct H as (_ & Hall & _).
    specialize (Hall m). unfold insert_one in Hall.
    rewrite in_app_iff in Hall. simpl in Hall.
    assert (orphan ObjectId users m = true) as C.
    { unfold orphan. now rewrite Hm, Ho, Hf. }
    rewrite Hall in C by auto. discriminate.
Qed.

Lemma chats_groups_threads_witness :
  chats ObjectId_decimal str_decimal env_boss page (LoggedIn boss) [boss_data]
    (snd (send_message str_decimal env_boss api_call 50 to_seven
            (LoggedIn boss) []))
  = chats_KeyError.
Proof.
  apply (proj2 (chats_groups_threads ObjectId_decimal str_decimal env_boss
                  page (LoggedIn boss) [boss_data] [])
           api_call 50%Z to_seven "7" 7%nat); reflexivity.
Defined.
